(** * pygame_tools: a shallow embedding and its verified properties

    The development follows [pygame_tools.py] class by class.  Python
    integers are unbounded, so they are [Z]; objects are records whose
    mutable attributes are threaded explicitly; a method that can raise is
    a computation in a small state-and-exception monad in which, as in
    Python, the attribute writes made before a [raise] stay visible on the
    object.  The toolkit (pygame), the file system ([glob]) and the
    application state touched by button callbacks are collected in the
    [Host] interface; a toolkit call that can raise (loading an image,
    building a surface, drawing, rendering a text) answers with an
    outcome. *)

From stdpp Require Import base list strings.
From Stdlib Require Import ZArith Lia QArith.

Open Scope Z_scope.

(** ** Exceptions, outcomes and the method monad *)

Inductive exn : Type :=
| ValueError
| IndexError
| ZeroDivisionError
| AttributeError
| TypeError
| PygameError
| CallbackError.

Inductive outcome (A : Type) : Type :=
| Ret (a : A)
| Raise (e : exn).

Arguments Ret {A} a.
Arguments Raise {A} e.

Definition obind {A B : Type} (o : outcome A) (k : A -> outcome B) : outcome B :=
  match o with
  | Ret a => k a
  | Raise e => Raise e
  end.

(** A method body over an object (or tuple of objects) of type [S]: it
    returns normally with a value or raises, and in both cases hands back
    the state it reached. *)
Definition M (S A : Type) : Type := S -> outcome A * S.

Definition ret {S A : Type} (a : A) : M S A := fun s => (Ret a, s).

Definition raise {S A : Type} (e : exn) : M S A := fun s => (Raise e, s).

Definition bind {S A B : Type} (c : M S A) (k : A -> M S B) : M S B :=
  fun s =>
    match c s with
    | (Ret a, s') => k a s'
    | (Raise e, s') => (Raise e, s')
    end.

Definition get {S : Type} : M S S := fun s => (Ret s, s).

Definition modify {S : Type} (f : S -> S) : M S unit := fun s => (Ret tt, f s).

Definition lift {S A : Type} (o : outcome A) : M S A := fun s => (o, s).

Declare Scope meth_scope.
Delimit Scope meth_scope with meth.
Bind Scope meth_scope with M.

Notation "x <- c ;; k" := (bind c (fun x => k))
  (at level 100, c at next level, right associativity) : meth_scope.
Notation "c ;; k" := (bind c (fun _ => k))
  (at level 100, right associativity) : meth_scope.
Notation "x <~ o ;; k" := (obind o (fun x => k))
  (at level 100, o at next level, right associativity).

Open Scope meth_scope.

(** ** Python arithmetic and sequence indexing *)

(** [a % b] on ints: the result takes the sign of the divisor, which is
    [Z.modulo]; a zero divisor raises. *)
Definition py_mod (a b : Z) : outcome Z :=
  if b =? 0 then Raise ZeroDivisionError else Ret (a mod b).

(** [a // b] on ints: floor division, which is [Z.div]. *)
Definition py_floordiv (a b : Z) : outcome Z :=
  if b =? 0 then Raise ZeroDivisionError else Ret (a / b).

(** The position a subscript [i] denotes in a sequence of length [n]:
    negative subscripts count from the end. *)
Definition py_index (n : nat) (i : Z) : outcome nat :=
  let j := if i <? 0 then i + Z.of_nat n else i in
  if (j <? 0) || (Z.of_nat n <=? j) then Raise IndexError
  else Ret (Z.to_nat j).

(** [l[i]] *)
Definition py_getitem {A : Type} (l : list A) (i : Z) : outcome A :=
  k <~ py_index (length l) i ;;
  match l !! k with
  | Some a => Ret a
  | None => Raise IndexError
  end.

(** ** class Point *)

Module Point.

(** Coordinates are the integers pygame reports for the pointer. *)
Record t : Type := mk { x : Z; y : Z }.

(** [Point._make(pair)] *)
Definition _make (pair : Z * Z) : t := mk pair.1 pair.2.

#[global] Instance eq_dec : EqDecision t.
Proof. solve_decision. Defined.

End Point.

(** ** The host: toolkit, file system, application state *)

(** A colour as the classes pass it on: three integers, read by the
    toolkit only when it draws. *)
Definition Color : Type := Z * Z * Z.

Class Host : Type := {
  (** pygame.Surface *)
  Surface : Type;
  (** pygame.font.Font *)
  Font : Type;
  (** pygame.Rect *)
  Rect : Type;
  (** the state button callbacks act on *)
  World : Type;
  (** glob.glob *)
  glob : string -> list string;
  (** pygame.image.load *)
  image_load : string -> outcome Surface;
  (** [font.render(text, True, color)]: the size of the surface it
      returns, or the exception it raises *)
  render : Font -> string -> Color -> outcome (Z * Z);
  (** [pygame.draw.rect(surface, color, rect, width, border_radius)]: carried
      out, or the exception it raises *)
  draw_rect : Color -> Rect -> Z -> Z -> outcome unit;
  (** [surface.blit(text_obj, dest)] for the rendering of a text *)
  blit : string -> Font -> Color -> Q * Q -> outcome unit;
  (** Rect.collidepoint *)
  collidepoint : Rect -> Point.t -> bool;
  (** Rect.centerx, Rect.centery *)
  rect_center : Rect -> Z * Z;
  (** [pygame.Surface(size)]: the new surface, or the exception the
      toolkit raises on a size it cannot allocate *)
  new_surface : Point.t -> outcome Surface;
  (** Surface.get_rect *)
  get_rect : Surface -> Rect
}.

(** ** class TrueEvery *)

Module TrueEvery.

Record t : Type := mk {
  count : Z;
  initial_count : Z;
  once : bool;
  calls : Z;
  start_value : Z;
  first_call : bool
}.

Definition set_calls (v : Z) (s : t) : t :=
  mk (count s) (initial_count s) (once s) v (start_value s) (first_call s).

Definition set_first_call (v : bool) (s : t) : t :=
  mk (count s) (initial_count s) (once s) (calls s) (start_value s) v.

(** [TrueEvery(count, initial_count=None, once=False, start_value=0)] *)
Definition __init__ (count : Z) (initial_count : option Z) (once : bool)
    (start_value : Z) : t :=
  {| count := count;
     initial_count := match initial_count with Some ic => ic | None => count end;
     once := once;
     calls := start_value;
     start_value := start_value;
     first_call := true |}.

(** The call operator.  Its Python result is [True], [False] or, when the
    body falls off its end, [None]: [Some true], [Some false], [None]. *)
Definition __call__ (s : t) : option bool * t :=
  if negb (first_call s) && once s then (Some false, s)
  else
    let s1 := set_calls (calls s - 1) s in
    if calls s1 <=? 0 then
      let s2 := set_calls (if first_call s1 then initial_count s1 else count s1) s1 in
      let s3 := set_first_call false s2 in
      (Some true, s3)
    else (None, s1).

Definition reset (override_start_value : option Z) (s : t) : t :=
  let s1 := set_calls (match override_start_value with
                       | Some v => v
                       | None => start_value s
                       end) s in
  set_first_call true s1.

Definition run_or_reset (boolean : bool) (s : t) : option bool * t :=
  if boolean then __call__ s else (Some false, reset None s).

(** The results of [n] successive calls, oldest first, and the state
    they leave. *)
Fixpoint run (n : nat) (s : t) : list (option bool) * t :=
  match n with
  | O => ([], s)
  | S n' =>
      let '(r, s1) := __call__ s in
      let '(rs, s2) := run n' s1 in
      (r :: rs, s2)
  end.

(** The state [n] successive calls leave. *)
Fixpoint after (n : nat) (s : t) : t :=
  match n with
  | O => s
  | S n' => after n' (__call__ s).2
  end.

(** The result of call number [n] (counted from 1) on a trigger in state
    [s]; call number 0 does not exist. *)
Definition nth_call (n : nat) (s : t) : option (option bool) :=
  match n with
  | O => None
  | S k => Some (__call__ (after k s)).1
  end.

(** How many of the first [n] calls returned [True]. *)
Definition true_count (n : nat) (s : t) : nat :=
  length (filter (fun r => r = Some true) (run n s).1).

End TrueEvery.

(** ** class Animation *)

Module Animation.
Section WithHost.
Context {H : Host}.

(** The four attributes [load] installs are absent until it has run:
    [None] is an attribute the object does not have yet. *)
Record t : Type := mk {
  glob_path : string;
  frame_data : list Z;
  repititions : option Z;
  finished : bool;
  frames : option (list (Surface * Z));
  frame_count : option Z;
  frame_index : option Z;
  frames_until_next : option Z
}.

Definition set_repititions (v : option Z) (a : t) : t :=
  mk (glob_path a) (frame_data a) v (finished a)
     (frames a) (frame_count a) (frame_index a) (frames_until_next a).

Definition set_finished (v : bool) (a : t) : t :=
  mk (glob_path a) (frame_data a) (repititions a) v
     (frames a) (frame_count a) (frame_index a) (frames_until_next a).

Definition set_frames (v : list (Surface * Z)) (a : t) : t :=
  mk (glob_path a) (frame_data a) (repititions a) (finished a)
     (Some v) (frame_count a) (frame_index a) (frames_until_next a).

Definition set_frame_count (v : Z) (a : t) : t :=
  mk (glob_path a) (frame_data a) (repititions a) (finished a)
     (frames a) (Some v) (frame_index a) (frames_until_next a).

Definition set_frame_index (v : Z) (a : t) : t :=
  mk (glob_path a) (frame_data a) (repititions a) (finished a)
     (frames a) (frame_count a) (Some v) (frames_until_next a).

Definition set_frames_until_next (v : Z) (a : t) : t :=
  mk (glob_path a) (frame_data a) (repititions a) (finished a)
     (frames a) (frame_count a) (frame_index a) (Some v).

(** Reading an attribute; one that was never assigned raises. *)
Definition attr {A : Type} (field : t -> option A) : M t A :=
  fun a =>
    match field a with
    | Some v => (Ret v, a)
    | None => (Raise AttributeError, a)
    end.

(** The list comprehension of [load]:
    [(pygame.image.load(file_name), frame_data[i])] for each
    [i, file_name] of [enumerate(file_names)], from position [i] on. *)
Fixpoint load_frames (i : nat) (file_names : list string) (frame_data : list Z)
    : outcome (list (Surface * Z)) :=
  match file_names with
  | [] => Ret []
  | file_name :: rest =>
      img <~ image_load file_name ;;
      d <~ py_getitem frame_data (Z.of_nat i) ;;
      fs <~ load_frames (S i) rest frame_data ;;
      Ret ((img, d) :: fs)
  end.

Definition load (glob_path : string) (frame_data : list Z) : M t unit :=
  let file_names := glob glob_path in
  if negb (length file_names =? length frame_data)%nat then raise ValueError
  else
    fs <- lift (load_frames 0 file_names frame_data) ;;
    modify (set_frames fs) ;;
    fs <- attr frames ;;
    modify (set_frame_count (Z.of_nat (length fs))) ;;
    modify (set_frame_index 0) ;;
    fs <- attr frames ;;
    fr <- lift (py_getitem fs 0) ;;
    modify (set_frames_until_next fr.2).

(** The object [__init__] works on once its first four assignments are
    done; nothing can fail before [load] is entered. *)
Definition before_load (glob_path : string) (frame_data : list Z)
    (repititions : option Z) : t :=
  {| glob_path := glob_path;
     frame_data := frame_data;
     repititions := repititions;
     finished := match repititions with
                 | Some r => r =? 0
                 | None => false
                 end;
     frames := None;
     frame_count := None;
     frame_index := None;
     frames_until_next := None |}.

(** The body of [__init__]: its outcome and the object as it leaves it. *)
Definition __init__ (glob_path : string) (frame_data : list Z)
    (repititions : option Z) : outcome unit * t :=
  load glob_path frame_data (before_load glob_path frame_data repititions).

(** The expression [Animation(glob_path, frame_data, repititions)]: the
    caller gets an object only when [__init__] returns. *)
Definition new (glob_path : string) (frame_data : list Z)
    (repititions : option Z) : outcome t :=
  match __init__ glob_path frame_data repititions with
  | (Ret _, a) => Ret a
  | (Raise e, _) => Raise e
  end.

Definition update : M t unit :=
  a <- get ;;
  if negb (finished a) then
    n <- attr frames_until_next ;;
    modify (set_frames_until_next (n - 1)) ;;
    n <- attr frames_until_next ;;
    if n =? 0 then
      i <- attr frame_index ;;
      c <- attr frame_count ;;
      j <- lift (py_mod (i + 1) c) ;;
      modify (set_frame_index j) ;;
      n <- attr frames_until_next ;;
      fs <- attr frames ;;
      i <- attr frame_index ;;
      fr <- lift (py_getitem fs i) ;;
      modify (set_frames_until_next (n + fr.2)) ;;
      i <- attr frame_index ;;
      a <- get ;;
      if (i =? 0) && negb (bool_decide (repititions a = None)) then
        match repititions a with
        | Some r => modify (set_repititions (Some (r - 1)))
        | None => raise TypeError
        end ;;
        a <- get ;;
        if bool_decide (repititions a = Some 0)
        then modify (set_finished true)
        else ret tt
      else ret tt
    else ret tt
  else ret tt.

Definition get_surface : M t Surface :=
  fs <- attr frames ;;
  i <- attr frame_index ;;
  fr <- lift (py_getitem fs i) ;;
  ret fr.1.

Definition reset : M t unit :=
  modify (set_frame_index 0) ;;
  fs <- attr frames ;;
  fr <- lift (py_getitem fs 0) ;;
  modify (set_frames_until_next fr.2).

(** [n] calls of [update] in a row; a raise ends the sequence. *)
Fixpoint updates (n : nat) : M t unit :=
  match n with
  | O => ret tt
  | S n' => update ;; updates n'
  end.

(** The methods a holder of an animation calls on it after construction. *)
Inductive op : Type :=
| CallUpdate
| CallReset
| CallLoad (glob_path : string) (frame_data : list Z).

Definition exec (o : op) : M t unit :=
  match o with
  | CallUpdate => update
  | CallReset => reset
  | CallLoad glob_path frame_data => load glob_path frame_data
  end.

(** The object after a sequence of calls by a caller that goes on with the
    same object whatever the outcome of each call. *)
Fixpoint exec_all (os : list op) (a : t) : t :=
  match os with
  | [] => a
  | o :: os' => exec_all os' (exec o a).2
  end.

(** A call other than a [load] that has nothing to load: no file matched
    and no duration given. *)
Definition loads_something (o : op) : Prop :=
  match o with
  | CallLoad glob_path frame_data => ~ (glob glob_path = [] /\ frame_data = [])
  | _ => True
  end.

(** An unfinished animation with [fs] as frames, showing frame [i] with [n]
    game frames to go. *)
Definition playing (gp : string) (fd : list Z) (rp : option Z)
    (fs : list (Surface * Z)) (i n : Z) : t :=
  mk gp fd rp false (Some fs) (Some (Z.of_nat (length fs))) (Some i) (Some n).

(** The number of updates one pass over the frames [fs] takes when every
    duration is positive. *)
Definition loop_length (fs : list (Surface * Z)) : nat :=
  sum_list (map (fun fr => Z.to_nat fr.2) fs).

(** The repetition count and the [finished] flag after a pass has wrapped
    around, for an animation that was not finished. *)
Definition after_wrap (repititions : option Z) : option Z * bool :=
  match repititions with
  | Some r => (Some (r - 1), bool_decide (r - 1 = 0))
  | None => (None, false)
  end.

(** The invariant of a constructed animation: all attributes are present,
    [frame_count] is the number of frames and [frame_index] is a position
    of [frames]. *)
Definition inv (a : t) : Prop :=
  exists fs i n,
    frames a = Some fs /\ frame_count a = Some (Z.of_nat (length fs)) /\
    frame_index a = Some i /\ frames_until_next a = Some n /\
    0 <= i < Z.of_nat (length fs).

End WithHost.
End Animation.

(** ** Drawing targets *)

Section Canvas.
Context {H : Host}.

(** What the library asks of the toolkit when it draws. *)
Inductive draw_cmd : Type :=
| DrawRect (color : Color) (rect : Rect) (width : Z) (border_radius : Z)
| Blit (text : string) (font : Font) (color : Color) (dest : Q * Q).

(** A target surface is the sequence of requests carried out on it,
    oldest first. *)
Definition Canvas : Type := list draw_cmd.

(** What the toolkit answers to a request. *)
Definition accepted (c : draw_cmd) : outcome unit :=
  match c with
  | DrawRect color rect width border_radius =>
      draw_rect color rect width border_radius
  | Blit text font color dest => blit text font color dest
  end.

(** A method that leaves its object as it is and adds to the target only
    requests the toolkit carried out, whether it returns or raises. *)
Definition draws_only {X A : Type} (c : M (X * Canvas) A) : Prop :=
  forall (x : X) (screen : Canvas),
    exists (o : outcome A) (cmds : list draw_cmd),
      c (x, screen) = (o, (x, screen ++ cmds)) /\
      Forall (fun c => accepted c = Ret tt) cmds.

(** A request on the target surface of the state.  It is on the surface
    once the toolkit has carried it out; when the toolkit raises, the
    surface is as before and the exception goes to the caller. *)
Definition request {X : Type} (c : draw_cmd) : M (X * Canvas) unit :=
  lift (accepted c) ;;
  modify (fun '(x, screen) => (x, screen ++ [c])).

End Canvas.

(** ** class Button *)

Module Button.
Section WithHost.
Context {H : Host}.

(** [action] is the optional callback: a body that runs on the application
    state and may raise.  It has no handle on the button that carries it or
    on the menu that holds the button. *)
Record t : Type := mk {
  action : option (M World unit);
  text : string;
  rect : Rect;
  font : Font;
  rect_color : Color;
  font_color : Color;
  highlight_color : Color;
  rect_line_width : Z;
  border_radius : Z;
  border_size : Z;
  border_color : Color;
  clicked_color : Color;
  clicked : bool;
  highlight : bool
}.

Definition set_clicked (v : bool) (b : t) : t :=
  mk (action b) (text b) (rect b) (font b) (rect_color b) (font_color b)
     (highlight_color b) (rect_line_width b) (border_radius b)
     (border_size b) (border_color b) (clicked_color b) v (highlight b).

Definition __init__ (action : option (M World unit)) (text : string)
    (rect : Rect) (font : Font) (rect_color : Color)
    (highlight_color : option Color) (font_color : Color)
    (rect_line_width border_radius border_size : Z)
    (border_color clicked_color : Color) : t :=
  {| action := action;
     text := text;
     rect := rect;
     font := font;
     rect_color := rect_color;
     font_color := font_color;
     highlight_color := match highlight_color with
                        | Some c => c
                        | None => rect_color
                        end;
     rect_line_width := rect_line_width;
     border_radius := border_radius;
     border_size := border_size;
     border_color := border_color;
     clicked_color := clicked_color;
     clicked := false;
     highlight := false |}.

(** The colour argument of the first [pygame.draw.rect] of [draw]. *)
Definition fill_color (b : t) (override_highlight : option bool) : Color :=
  if clicked b then clicked_color b
  else if (bool_decide (override_highlight = None) && highlight b)
          || match override_highlight with Some v => v | None => false end
  then highlight_color b
  else rect_color b.

(** Every toolkit call of [draw] may raise; the first one comes before
    [self.clicked = False]. *)
Definition draw (override_highlight : option bool) : M (t * Canvas) unit :=
  self <- get ;;
  request (DrawRect (fill_color self.1 override_highlight) (rect self.1)
             (rect_line_width self.1) (border_radius self.1)) ;;
  modify (fun '(b, screen) => (set_clicked false b, screen)) ;;
  self <- get ;;
  (if 0 <? border_size self.1
   then request (DrawRect (border_color self.1) (rect self.1)
                   (border_size self.1) (border_radius self.1))
   else ret tt) ;;
  self <- get ;;
  text_size <- lift (render (font self.1) (text self.1) (font_color self.1)) ;;
  let center := rect_center (rect self.1) in
  request (Blit (text self.1) (font self.1) (font_color self.1)
             (inject_Z center.1 - inject_Z text_size.1 / 2,
              inject_Z center.2 - inject_Z text_size.2 / 2)%Q).

(** Running the user callback on the application state. *)
Definition run_action (f : M World unit) : M (t * World) unit :=
  fun '(b, w) => let '(o, w') := f w in (o, (b, w')).

(** The call operator: activation. *)
Definition __call__ : M (t * World) unit :=
  self <- get ;;
  match action self.1 with
  | Some f => run_action f
  | None => ret tt
  end ;;
  modify (fun '(b, w) => (set_clicked true b, w)).

(** The first request of a [draw] of [b]. *)
Definition fill (b : t) (override_highlight : option bool) : draw_cmd :=
  DrawRect (fill_color b override_highlight) (rect b)
    (rect_line_width b) (border_radius b).

(** The size of the text of [b] when the toolkit renders it. *)
Definition text_size (b : t) : Z * Z :=
  match render (font b) (text b) (font_color b) with
  | Ret size => size
  | Raise _ => (0, 0)
  end.

(** The requests one [draw] of [b] makes, in order: the fill, the border
    when [border_size > 0], the text. *)
Definition draw_cmds (b : t) (override_highlight : option bool)
    : list draw_cmd :=
  [fill b override_highlight] ++
  (if 0 <? border_size b
   then [DrawRect (border_color b) (rect b) (border_size b) (border_radius b)]
   else []) ++
  [Blit (text b) (font b) (font_color b)
     (inject_Z (rect_center (rect b)).1 - inject_Z (text_size b).1 / 2,
      inject_Z (rect_center (rect b)).2 - inject_Z (text_size b).2 / 2)%Q].

(** The toolkit renders the text of [b] and carries out every request of
    a [draw] of [b] with [override_highlight]. *)
Definition drawable (b : t) (override_highlight : option bool) : Prop :=
  (exists size : Z * Z, render (font b) (text b) (font_color b) = Ret size) /\
  Forall (fun c => accepted c = Ret tt) (draw_cmds b override_highlight).

(** The same whatever [clicked] holds and whatever highlight is asked
    for. *)
Definition paintable (b : t) : Prop :=
  forall (v : bool) (override_highlight : option bool),
    drawable (set_clicked v b) override_highlight.

(** The callback of [b], if it has one, returns normally from every
    application state. *)
Definition callback_returns (b : t) : Prop :=
  match action b with
  | Some f => forall w : World, (f w).1 = Ret tt
  | None => True
  end.

(** The application state the callback of [b] leaves when run on [w]. *)
Definition world_after (b : t) (w : World) : World :=
  match action b with
  | Some f => (f w).2
  | None => w
  end.

End WithHost.
End Button.

(** ** class ToggleButton *)

Module ToggleButton.
Section WithHost.
Context {H : Host}.

Record t : Type := mk {
  action : option (M World unit);
  on_text : string;
  off_text : string;
  rect : Rect;
  font : Font;
  on_rect_color : Color;
  off_rect_color : Color;
  on_highlight_color : Color;
  off_highlight_color : Color;
  on_font_color : Color;
  off_font_color : Color;
  rect_line_width : Z;
  border_radius : Z;
  border_size : Z;
  on_border_color : Color;
  off_border_color : Color;
  highlight : bool;
  toggled : bool
}.

Definition set_toggled (v : bool) (b : t) : t :=
  mk (action b) (on_text b) (off_text b) (rect b) (font b)
     (on_rect_color b) (off_rect_color b)
     (on_highlight_color b) (off_highlight_color b)
     (on_font_color b) (off_font_color b)
     (rect_line_width b) (border_radius b) (border_size b)
     (on_border_color b) (off_border_color b) (highlight b) v.

Definition __init__ (action : option (M World unit))
    (on_text off_text : string) (rect : Rect) (font : Font)
    (on_rect_color : Color) (off_rect_color : option Color)
    (on_highlight_color off_highlight_color : Color)
    (on_font_color off_font_color : Color)
    (rect_line_width border_radius border_size : Z)
    (on_border_color : Color) (off_border_color : option Color)
    (toggled : bool) : t :=
  {| action := action;
     on_text := on_text;
     off_text := off_text;
     rect := rect;
     font := font;
     on_rect_color := on_rect_color;
     off_rect_color := match off_rect_color with
                       | Some c => c
                       | None => on_rect_color
                       end;
     on_highlight_color := on_highlight_color;
     off_highlight_color := off_highlight_color;
     on_font_color := on_font_color;
     off_font_color := off_font_color;
     rect_line_width := rect_line_width;
     border_radius := border_radius;
     border_size := border_size;
     on_border_color := on_border_color;
     off_border_color := match off_border_color with
                         | Some c => c
                         | None => on_border_color
                         end;
     highlight := false;
     toggled := toggled |}.

(** Whether [draw] takes the highlight colour:
    [(override_highlight == None and self.highlight) or override_highlight]. *)
Definition highlighted (b : t) (override_highlight : option bool) : bool :=
  (bool_decide (override_highlight = None) && highlight b)
  || match override_highlight with Some v => v | None => false end.

(** The position [draw] blits a text of size [text_size] at. *)
Definition text_dest (b : t) (text_size : Z * Z) : Q * Q :=
  (inject_Z (rect_center (rect b)).1 - inject_Z text_size.1 / 2,
   inject_Z (rect_center (rect b)).2 - inject_Z text_size.2 / 2)%Q.

(** Every toolkit call of [draw] may raise. *)
Definition draw (override_highlight : option bool) : M (t * Canvas) unit :=
  self <- get ;;
  if toggled self.1 then
    request (DrawRect (if highlighted self.1 override_highlight
                       then on_highlight_color self.1
                       else on_rect_color self.1)
               (rect self.1) (rect_line_width self.1)
               (border_radius self.1)) ;;
    (if 0 <? border_size self.1
     then request (DrawRect (on_border_color self.1) (rect self.1)
                     (border_size self.1) (border_radius self.1))
     else ret tt) ;;
    text_size <- lift (render (font self.1) (on_text self.1)
                         (on_font_color self.1)) ;;
    request (Blit (on_text self.1) (font self.1) (on_font_color self.1)
               (text_dest self.1 text_size))
  else
    request (DrawRect (if highlighted self.1 override_highlight
                       then off_highlight_color self.1
                       else off_rect_color self.1)
               (rect self.1) (rect_line_width self.1)
               (border_radius self.1)) ;;
    (if 0 <? border_size self.1
     then request (DrawRect (off_border_color self.1) (rect self.1)
                     (border_size self.1) (border_radius self.1))
     else ret tt) ;;
    text_size <- lift (render (font self.1) (off_text self.1)
                         (off_font_color self.1)) ;;
    request (Blit (off_text self.1) (font self.1) (off_font_color self.1)
               (text_dest self.1 text_size)).

Definition run_action (f : M World unit) : M (t * World) unit :=
  fun '(b, w) => let '(o, w') := f w in (o, (b, w')).

(** The call operator: activation. *)
Definition __call__ : M (t * World) unit :=
  self <- get ;;
  match action self.1 with
  | Some f => run_action f
  | None => ret tt
  end ;;
  modify (fun '(b, w) => (set_toggled (negb (toggled b)) b, w)).

(** [n] activations in a row; a raise ends the sequence. *)
Fixpoint activations (n : nat) : M (t * World) unit :=
  match n with
  | O => ret tt
  | S n' => __call__ ;; activations n'
  end.

(** The callback of [b], if it has one, returns normally from every
    application state. *)
Definition callback_returns (b : t) : Prop :=
  match action b with
  | Some f => forall w : World, (f w).1 = Ret tt
  | None => True
  end.

(** The application state the callback of [b] leaves when run on [w]. *)
Definition world_after (b : t) (w : World) : World :=
  match action b with
  | Some f => (f w).2
  | None => w
  end.

End WithHost.
End ToggleButton.

(** ** class Circle *)

Module Circle.
Section WithHost.
Context {H : Host}.

(** What the class asks of pygame.Rect and of floating point:
    [Rect(left, top, width, height)], the assignments to [rect.w],
    [rect.h] and [rect.center], and [int(Point.distance(a, b))], the
    truncated square root of the squared distance. *)
Variable new_rect : Z -> Z -> Z -> Z -> Rect.
Variable set_w : Z -> Rect -> Rect.
Variable set_h : Z -> Rect -> Rect.
Variable set_center : Point.t -> Rect -> Rect.
Variable int_distance : Point.t -> Point.t -> Z.

Record t : Type := mk {
  center : Point.t;
  _radius : Z;
  diameter : Z;
  color : Color;
  width : Z;
  rect : Rect
}.

Definition __init__ (center : Z * Z) (radius : Z) (color : Color)
    (width : Z) : t :=
  {| center := Point._make center;
     _radius := radius;
     diameter := radius * 2;
     color := color;
     width := width;
     rect := set_center (Point._make center)
               (new_rect 0 0 (radius * 2) (radius * 2)) |}.

(** The property [radius]. *)
Definition radius (c : t) : Z := _radius c.

(** The setter of [radius]. *)
Definition set_radius (radius : Z) (c : t) : t :=
  {| center := center c;
     _radius := radius;
     diameter := radius * 2;
     color := color c;
     width := width c;
     rect := set_center (center c)
               (set_h (radius * 2) (set_w (radius * 2) (rect c))) |}.

Definition draw : M (t * Canvas) unit :=
  self <- get ;;
  request (DrawRect (color self.1) (rect self.1) (width self.1)
             (radius self.1)).

Definition collide_point (c : t) (point : Z * Z) (only_border : bool) : bool :=
  let point := Point._make point in
  let dist := int_distance (center c) point in
  (only_border && (dist <=? radius c) && (radius c - width c + 1 <=? dist))
  || (negb only_border && (dist <=? radius c)).

End WithHost.
End Circle.

(** ** class GameScreen *)

Module GameScreen.
Section WithHost.
Context {H : Host}.

(** The clock is a toolkit handle without state of its own here. *)
Record t : Type := mk {
  window_scaled : bool;
  real_screen : Surface;
  screen : Surface;
  real_window_size : Point.t;
  window_size : Point.t;
  window_scale : Point.t;
  frame_rate : Z;
  running : bool;
  rect : Rect;
  game_ticks : Z
}.

(** [bool(window_size)] is true for every point and false for [None].
    A scaled screen asks the toolkit for a surface of the logical size,
    which may raise, before the two floor divisions, which raise on a zero
    component. *)
Definition __init__ (screen : Surface) (real_window_size : Point.t)
    (window_size : option Point.t) (frame_rate : Z) : outcome t :=
  let window_scaled :=
    match window_size with
    | Some ws => negb (bool_decide (ws = real_window_size))
    | None => false
    end in
  screen' <~ match window_size with
             | Some ws => if window_scaled then new_surface ws else Ret screen
             | None => Ret screen
             end ;;
  let window_size' :=
    match window_size with
    | Some ws => if window_scaled then ws else real_window_size
    | None => real_window_size
    end in
  sx <~ py_floordiv (Point.x real_window_size) (Point.x window_size') ;;
  sy <~ py_floordiv (Point.y real_window_size) (Point.y window_size') ;;
  Ret {| window_scaled := window_scaled;
         real_screen := screen;
         screen := screen';
         real_window_size := real_window_size;
         window_size := window_size';
         window_scale := Point.mk sx sy;
         frame_rate := frame_rate;
         running := false;
         rect := get_rect screen';
         game_ticks := 0 |}.

(** [pos] is what [pygame.mouse.get_pos()] returns at the call. *)
Definition get_scaled_mouse_pos (self : t) (pos : Z * Z) : outcome Point.t :=
  px <~ py_floordiv pos.1 (Point.x (window_scale self)) ;;
  py <~ py_floordiv pos.2 (Point.y (window_scale self)) ;;
  Ret (Point.mk px py).

Definition set_running (v : bool) (g : t) : t :=
  mk (window_scaled g) (real_screen g) (screen g) (real_window_size g)
     (window_size g) (window_scale g) (frame_rate g) v (rect g) (game_ticks g).

Definition set_game_ticks (v : Z) (g : t) : t :=
  mk (window_scaled g) (real_screen g) (screen g) (real_window_size g)
     (window_size g) (window_scale g) (frame_rate g) (running g) (rect g) v.

(** [self.clock.tick(self.frame_rate)] only waits; the counter is what
    [tick] changes. *)
Definition tick (g : t) : t :=
  let g1 := set_game_ticks (game_ticks g + 1) g in
  if 999999999999999999999 <? game_ticks g1 then set_game_ticks 0 g1 else g1.

(** [n] calls of [tick]. *)
Fixpoint ticks (n : nat) (g : t) : t :=
  match n with
  | O => g
  | S n' => ticks n' (tick g)
  end.

End WithHost.
End GameScreen.

(** ** class MenuScreen *)

(** The values [event.key] is compared with, and any other key. *)
Inductive Key : Type :=
| K_UP
| K_RIGHT
| K_DOWN
| K_LEFT
| K_RETURN
| K_SPACE
| K_other (code : Z).

#[global] Instance Key_eq_dec : EqDecision Key.
Proof. solve_decision. Defined.

Module MenuScreen.
Section WithHost.
Context {H : Host}.

(** The attributes inherited from [GameScreen] are kept together in
    [base].  Each position of [buttons] holds a button object of its
    own. *)
Record t : Type := mk {
  base : GameScreen.t;
  buttons : list Button.t;
  button_index : Z
}.

Definition set_buttons (v : list Button.t) (m : t) : t :=
  mk (base m) v (button_index m).

Definition set_button_index (v : Z) (m : t) : t :=
  mk (base m) (buttons m) v.

Definition __init__ (screen : Surface) (real_window_size : Point.t)
    (window_size : option Point.t) (frame_rate : Z) : outcome t :=
  g <~ GameScreen.__init__ screen real_window_size window_size frame_rate ;;
  Ret {| base := g; buttons := []; button_index := 0 |}.

(** The menu part of the state a handler runs on. *)
Definition self : M (t * World) t := fun s => (Ret s.1, s).

Definition update_self (f : t -> t) : M (t * World) unit :=
  modify (fun '(m, w) => (f m, w)).

(** Calling the button object at position [k] of [self.buttons]: the
    object is activated in place, the callback runs on the world. *)
Definition call_button (k : nat) : M (t * World) unit :=
  fun '(m, w) =>
    match buttons m !! k with
    | Some b =>
        let '(o, (b', w')) := Button.__call__ (b, w) in
        (o, (set_buttons (<[k := b']> (buttons m)) m, w'))
    | None => (Raise IndexError, (m, w))
    end.

Definition key_down (key : Key) : M (t * World) unit :=
  if bool_decide (key = K_UP) || bool_decide (key = K_RIGHT)
     || bool_decide (key = K_DOWN) || bool_decide (key = K_LEFT) then
    if bool_decide (key = K_DOWN) || bool_decide (key = K_RIGHT) then
      update_self (fun m => set_button_index (button_index m + 1) m) ;;
      m <- self ;;
      let buttons_length := Z.of_nat (length (buttons m)) in
      if buttons_length <=? button_index m then
        r <- lift (py_mod (button_index m) buttons_length) ;;
        update_self (set_button_index r)
      else ret tt
    else
      update_self (fun m => set_button_index (button_index m - 1) m) ;;
      m <- self ;;
      if button_index m <? 0 then
        update_self (set_button_index (Z.of_nat (length (buttons m)) - 1))
      else ret tt
  else if bool_decide (key = K_RETURN) || bool_decide (key = K_SPACE) then
    m <- self ;;
    k <- lift (py_index (length (buttons m)) (button_index m)) ;;
    call_button k
  else ret tt.

(** The loop of [mouse_button_down] over [enumerate(self.buttons)], from
    position [i] on; [todo] are the buttons still to be visited. *)
Fixpoint click_loop (mouse_pos : Point.t) (i : nat) (todo : list Button.t)
    : M (t * World) unit :=
  match todo with
  | [] => ret tt
  | button :: rest =>
      (if collidepoint (Button.rect button) mouse_pos then
         update_self (set_button_index (Z.of_nat i)) ;;
         call_button i
       else ret tt) ;;
      click_loop mouse_pos (S i) rest
  end.

(** The [mouse_pos] of [mouse_button_down]; [pos] is what
    [pygame.mouse.get_pos()] returns at the call. *)
Definition resolve_mouse_pos (m : t) (pos : Z * Z) : outcome Point.t :=
  if GameScreen.window_scaled (base m)
  then GameScreen.get_scaled_mouse_pos (base m) pos
  else Ret (Point._make pos).

(** [button] is [event.button]. *)
Definition mouse_button_down (button : Z) (pos : Z * Z) : M (t * World) unit :=
  if button =? 1 then
    m <- self ;;
    mouse_pos <- lift (resolve_mouse_pos m pos) ;;
    click_loop mouse_pos 0 (buttons m)
  else ret tt.

(** A sequence of key presses handled one after the other; a raise ends
    it. *)
Fixpoint key_downs (keys : list Key) : M (t * World) unit :=
  match keys with
  | [] => ret tt
  | key :: keys' => key_down key ;; key_downs keys'
  end.

(** The positions, counted from [i], of the buttons of [bs] whose rect
    contains [mouse_pos], in list order. *)
Fixpoint hits_from (mouse_pos : Point.t) (i : nat) (bs : list Button.t)
    : list nat :=
  match bs with
  | [] => []
  | b :: rest =>
      if collidepoint (Button.rect b) mouse_pos
      then i :: hits_from mouse_pos (S i) rest
      else hits_from mouse_pos (S i) rest
  end.

(** A button after a press at [mouse_pos]: activated when hit. *)
Definition pressed (mouse_pos : Point.t) (b : Button.t) : Button.t :=
  if collidepoint (Button.rect b) mouse_pos
  then Button.set_clicked true b
  else b.

(** The application state after the callbacks of the buttons of [bs] hit at
    [mouse_pos] ran, one after the other in list order. *)
Definition world_pressed (mouse_pos : Point.t) (bs : list Button.t)
    (w : World) : World :=
  fold_left (fun w b => Button.world_after b w)
    (filter (fun b => collidepoint (Button.rect b) mouse_pos = true) bs) w.

(** Drawing the button object at position [k] of [self.buttons] on the
    target surface. *)
Definition draw_button (k : nat) (override_highlight : option bool)
    : M (t * Canvas) unit :=
  fun '(m, screen) =>
    match buttons m !! k with
    | Some b =>
        let '(o, (b', screen')) := Button.draw override_highlight (b, screen) in
        (o, (set_buttons (<[k := b']> (buttons m)) m, screen'))
    | None => (Raise IndexError, (m, screen))
    end.

(** The argument [True if i == self.button_index else None]. *)
Definition override_at (m : t) (i : nat) : option bool :=
  if bool_decide (Z.of_nat i = button_index m) then Some true else None.

(** The loop of [draw_buttons] over [enumerate(self.buttons)], from
    position [i] on. *)
Fixpoint draw_loop (i : nat) (todo : list Button.t) : M (t * Canvas) unit :=
  match todo with
  | [] => ret tt
  | button :: rest =>
      s <- get ;;
      draw_button i (override_at s.1 i) ;;
      draw_loop (S i) rest
  end.

(** The canvas of the state is the target: the surface passed as [screen]
    or, without one, [self.screen]. *)
Definition draw_buttons : M (t * Canvas) unit :=
  s <- get ;;
  draw_loop 0 (buttons s.1).

Definition update : M (t * Canvas) unit := draw_buttons.

(** The events [handle_event] tells apart.  A [MOUSEBUTTONDOWN] carries
    what [pygame.mouse.get_pos()] returns while it is handled. *)
Inductive Event : Type :=
| QUIT
| KEYDOWN (key : Key)
| KEYUP (key : Key)
| MOUSEBUTTONDOWN (button : Z) (pos : Z * Z)
| MOUSEBUTTONUP (button : Z)
| OTHER.

(** How a step of the event loop ends: the loop goes on, [sys.exit()] ends
    the process, or an exception escapes. *)
Inductive flow : Type :=
| Continue
| Exit
| Failed (e : exn).

Definition flow_of (o : outcome unit) : flow :=
  match o with
  | Ret _ => Continue
  | Raise e => Failed e
  end.

(** [handle_event] as a [MenuScreen] inherits it: [key_up] and
    [mouse_button_up] are the empty hooks of [GameScreen]. *)
Definition handle_event (event : Event) (s : t * World) : flow * (t * World) :=
  match event with
  | QUIT => (Exit, s)
  | KEYDOWN key => let '(o, s') := key_down key s in (flow_of o, s')
  | KEYUP _ => (Continue, s)
  | MOUSEBUTTONDOWN button pos =>
      let '(o, s') := mouse_button_down button pos s in (flow_of o, s')
  | MOUSEBUTTONUP _ => (Continue, s)
  | OTHER => (Continue, s)
  end.

(** [for event in pygame.event.get(): self.handle_event(event)] *)
Fixpoint handle_events (events : list Event) (s : t * World)
    : flow * (t * World) :=
  match events with
  | [] => (Continue, s)
  | event :: rest =>
      match handle_event event s with
      | (Continue, s') => handle_events rest s'
      | stop => stop
      end
  end.

(** One [pygame.display.update()]: what [self.screen] holds at that moment,
    and the size it was scaled to when the window is scaled. *)
Inductive shown : Type :=
| Shown (scaled_to : option Point.t) (content : Canvas).

(** A running menu: the screen object, the application state, the
    requests made on [self.screen] and the frames presented so far. *)
Record app : Type := mk_app {
  menu : t;
  world : World;
  canvas : Canvas;
  display : list shown
}.

(** One iteration of the loop of [run] on the events [pygame.event.get()]
    returns. *)
Definition iteration (events : list Event) (a : app) : flow * app :=
  match handle_events events (menu a, world a) with
  | (Continue, (m, w)) =>
      match update (m, canvas a) with
      | (Ret _, (m1, c1)) =>
          let frame :=
            Shown (if GameScreen.window_scaled (base m1)
                   then Some (GameScreen.real_window_size (base m1))
                   else None) c1 in
          (Continue,
           mk_app (mk (GameScreen.tick (base m1)) (buttons m1) (button_index m1))
             w c1 (display a ++ [frame]))
      | (Raise e, (m1, c1)) => (Failed e, mk_app m1 w c1 (display a))
      end
  | (stop, (m, w)) => (stop, mk_app m w (canvas a) (display a))
  end.

(** Successive iterations of the loop of [run], one per batch of events,
    until one of them ends the loop.  [run] sets [self.running] before the
    first iteration and nothing in these classes writes it again, so the
    test of the [while] is passed each time round. *)
Fixpoint iterations (batches : list (list Event)) (a : app) : flow * app :=
  match batches with
  | [] => (Continue, a)
  | events :: rest =>
      match iteration events a with
      | (Continue, a') => iterations rest a'
      | stop => stop
      end
  end.


(** What a [draw_buttons] of [m] asks the toolkit for, button by button
    in list order. *)
Definition draw_requests (m : t) : list (list draw_cmd) :=
  imap (fun i b => Button.draw_cmds b (override_at m i)) (buttons m).

(** The toolkit carries out the drawing of every button of [m] as
    [draw_buttons] asks for it. *)
Definition drawable (m : t) : Prop :=
  forall (i : nat) (b : Button.t),
    buttons m !! i = Some b -> Button.drawable b (override_at m i).

End WithHost.
End MenuScreen.

(** ** A concrete host for examples *)

Module Demo.

(** A pygame.Rect as (left, top, width, height); a point on the right or
    bottom edge is outside, as pygame documents [collidepoint]. *)
Definition rect : Type := Z * Z * Z * Z.

Definition collide (r : rect) (p : Point.t) : bool :=
  let '(l, t, w, h) := r in
  (l <=? Point.x p) && (Point.x p <? l + w) &&
  (t <=? Point.y p) && (Point.y p <? t + h).

Definition center (r : rect) : Z * Z :=
  let '(l, t, w, h) := r in (l + w / 2, t + h / 2).

(** A file system with three frames in one directory. *)
Definition files (pattern : string) : list string :=
  if String.eqb pattern "frames/*"
  then ["frames/0.png"; "frames/1.png"; "frames/2.png"]
  else [].

(** The colours pygame reads: three components from 0 to 255. *)
Definition valid_color (c : Color) : bool :=
  let '(r, g, b) := c in
  (0 <=? r) && (r <=? 255) && (0 <=? g) && (g <=? 255) &&
  (0 <=? b) && (b <=? 255).

(** Surfaces are named after their file, the world is the log of the
    callbacks that ran.  Drawing and rendering raise [ValueError] on a
    colour that is not valid, a surface of a negative size raises
    [pygame.error]. *)
Definition host : Host :=
  {| Surface := string;
     Font := unit;
     Rect := rect;
     World := list nat;
     glob := files;
     image_load := fun file_name => Ret file_name;
     render := fun _ text color =>
       if valid_color color
       then Ret (8 * Z.of_nat (String.length text), 16)
       else Raise ValueError;
     draw_rect := fun color _ _ _ =>
       if valid_color color then Ret tt else Raise ValueError;
     blit := fun _ _ _ _ => Ret tt;
     collidepoint := collide;
     rect_center := center;
     new_surface := fun size =>
       if (0 <=? Point.x size) && (0 <=? Point.y size)
       then Ret "surface"
       else Raise PygameError;
     get_rect := fun _ => (0, 0, 0, 0) |}.

#[local] Existing Instance host.

(** A white button at [r] whose callback appends [tag] to the log. *)
Definition button (tag : nat) (r : rect) : Button.t :=
  Button.__init__ (Some (fun w : list nat => (Ret tt, w ++ [tag])))
    "button" r tt (255, 255, 255) (Some (150, 150, 150)) (0, 0, 0)
    0 0 0 (0, 0, 0) (100, 100, 100).

(** The screen [GameScreen("display", (100, 100))] builds. *)
Definition screen : GameScreen.t :=
  {| GameScreen.window_scaled := false;
     GameScreen.real_screen := "display";
     GameScreen.screen := "display";
     GameScreen.real_window_size := Point.mk 100 100;
     GameScreen.window_size := Point.mk 100 100;
     GameScreen.window_scale := Point.mk 1 1;
     GameScreen.frame_rate := 30;
     GameScreen.running := false;
     GameScreen.rect := (0, 0, 0, 0);
     GameScreen.game_ticks := 0 |}.

Definition menu (bs : list Button.t) (i : Z) : MenuScreen.t :=
  MenuScreen.mk screen bs i.

(** Three buttons in a column. *)
Definition column : list Button.t :=
  [button 0 (0, 0, 10, 10); button 1 (0, 20, 10, 10); button 2 (0, 40, 10, 10)].

(** Two buttons whose rects share the square from (5, 5) to (10, 10). *)
Definition overlapping : list Button.t :=
  [button 0 (0, 0, 10, 10); button 1 (5, 5, 10, 10)].

Definition frames : list (string * Z) :=
  [("frames/0.png", 2); ("frames/1.png", 3); ("frames/2.png", 4)].

(** The animation [Animation("frames/*", [2, 3, 4])] builds. *)
Definition animation : Animation.t :=
  Animation.mk "frames/*" [2; 3; 4] None false
    (Some frames) (Some 3) (Some 0) (Some 2).

(** An animation that has used up its repetitions, stopped or rewound at
    frame [i] with [n] game frames to go. *)
Definition spent (i n : Z) : Animation.t :=
  Animation.mk "frames/*" [2; 3; 4] (Some 0) true
    (Some frames) (Some 3) (Some i) (Some n).

(** An animation whose first frame has duration 0, with [n] on its
    countdown. *)
Definition stuck (n : Z) : Animation.t :=
  Animation.mk "frames/*" [0; 3; 4] None false
    (Some [("frames/0.png", 0); ("frames/1.png", 3); ("frames/2.png", 4)])
    (Some 3) (Some 0) (Some n).

(** A switch at [r] whose callback counts its activations. *)
Definition switch (r : rect) (toggled : bool) : ToggleButton.t :=
  ToggleButton.__init__ (Some (fun w : list nat => (Ret tt, w ++ [length w])))
    "on" "off" r tt (255, 255, 255) None (150, 150, 150) (150, 150, 150)
    (0, 0, 0) (0, 0, 0) 0 0 2 (0, 0, 0) None toggled.

(** The truncated distance of two integer points. *)
Definition int_distance (a b : Point.t) : Z :=
  Z.sqrt ((Point.x b - Point.x a) ^ 2 + (Point.y b - Point.y a) ^ 2).

(** A circle around [c] with a ring of [width]; its rect plays no part in
    the hit test. *)
Definition circle (c : Z * Z) (radius width : Z) : Circle.t :=
  Circle.mk (Point._make c) radius (radius * 2) (255, 0, 0) width
    (fst c - radius, snd c - radius, radius * 2, radius * 2).

(** A button whose callback raises after it has logged [tag]. *)
Definition faulty (tag : nat) (r : rect) : Button.t :=
  Button.__init__ (Some (fun w : list nat => (Raise CallbackError, w ++ [tag])))
    "faulty" r tt (255, 255, 255) (Some (150, 150, 150)) (0, 0, 0)
    0 0 0 (0, 0, 0) (100, 100, 100).

(** A button at [r] whose [clicked_color] has a component pygame does not
    read. *)
Definition garish (tag : nat) (r : rect) : Button.t :=
  Button.__init__ (Some (fun w : list nat => (Ret tt, w ++ [tag])))
    "garish" r tt (255, 255, 255) (Some (150, 150, 150)) (0, 0, 0)
    0 0 0 (0, 0, 0) (300, 0, 0).

End Demo.

(** ** Predicates used to state the properties *)

(** Call number [n] lies [k] whole periods after call number [first]. *)
Definition on_grid (n : nat) (first period : Z) : Prop :=
  exists k : Z, 0 <= k /\ Z.of_nat n = first + k * period.

(** Call number [n] on the trigger [s] returns [True] when [P] holds and
    [None] when it does not. *)
Definition fires_exactly (s : TrueEvery.t) (n : nat) (P : Prop) : Prop :=
  (TrueEvery.nth_call n s = Some (Some true) /\ P) \/
  (TrueEvery.nth_call n s = Some None /\ ~ P).

(** The number of the first call that fires on a trigger whose countdown
    stands at [start] before its first call. *)
Definition first_fire (start : Z) : nat := Z.to_nat (Z.max 1 start).

(** A menu whose key handling is safe: it has buttons, [button_index] is a
    position of the list, and the callbacks return. *)
Definition menu_ready {H : Host} (m : MenuScreen.t) : Prop :=
  MenuScreen.buttons m <> [] /\
  0 <= MenuScreen.button_index m < Z.of_nat (length (MenuScreen.buttons m)) /\
  Forall Button.callback_returns (MenuScreen.buttons m).

(** * Properties *)

(** ** TrueEvery *)

Lemma nth_call_succ (n : nat) (s : TrueEvery.t) :
  TrueEvery.nth_call (S (S n)) s =
  TrueEvery.nth_call (S n) (TrueEvery.__call__ s).2.
Proof. reflexivity. Qed.

Example run_period_three :
  (TrueEvery.run 7 (TrueEvery.__init__ 3 None false 0)).1 =
  [Some true; None; None; Some true; None; None; Some true].
Proof. reflexivity. Qed.

Example run_initial_five :
  (TrueEvery.run 10 (TrueEvery.__init__ 3 (Some 5) false 0)).1 =
  [Some true; None; None; None; None; Some true; None; None; Some true; None].
Proof. reflexivity. Qed.

Example run_once :
  (TrueEvery.run 5 (TrueEvery.__init__ 2 None true 0)).1 =
  [Some true; Some false; Some false; Some false; Some false].
Proof. reflexivity. Qed.

Example run_once_late_start :
  (TrueEvery.run 5 (TrueEvery.__init__ 2 None true 3)).1 =
  [None; None; Some true; Some false; Some false].
Proof. reflexivity. Qed.

(** A non-positive period fires on every call. *)
Example run_period_zero :
  (TrueEvery.run 4 (TrueEvery.__init__ 0 None false 0)).1 =
  [Some true; Some true; Some true; Some true].
Proof. reflexivity. Qed.

(** A trigger past its first call and without [once] counts [calls] down
    and reloads it with [count]. *)
Lemma call_steady (s : TrueEvery.t) :
  TrueEvery.first_call s = false ->
  TrueEvery.once s = false ->
  TrueEvery.__call__ s =
    if TrueEvery.calls s - 1 <=? 0
    then (Some true,
          TrueEvery.set_first_call false
            (TrueEvery.set_calls (TrueEvery.count s)
               (TrueEvery.set_calls (TrueEvery.calls s - 1) s)))
    else (None, TrueEvery.set_calls (TrueEvery.calls s - 1) s).
Proof.
  intros Hf Ho. unfold TrueEvery.__call__.
  rewrite Hf, Ho. simpl. rewrite Hf.
  destruct (TrueEvery.calls s - 1 <=? 0); reflexivity.
Qed.

Lemma steady_grid (m : nat) :
  forall s : TrueEvery.t,
    TrueEvery.first_call s = false ->
    TrueEvery.once s = false ->
    0 < TrueEvery.calls s ->
    0 < TrueEvery.count s ->
    (TrueEvery.nth_call (S m) s = Some (Some true) /\
       on_grid (S m) (TrueEvery.calls s) (TrueEvery.count s)) \/
    (TrueEvery.nth_call (S m) s = Some None /\
       ~ on_grid (S m) (TrueEvery.calls s) (TrueEvery.count s)).
Proof.
  induction m as [|m IH]; intros s Hf Ho Hc Hp.
  - unfold TrueEvery.nth_call. simpl TrueEvery.after.
    rewrite (call_steady s Hf Ho).
    destruct (Z.leb_spec (TrueEvery.calls s - 1) 0) as [Hle|Hgt]; simpl.
    + left. split; [reflexivity|]. exists 0. lia.
    + right. split; [reflexivity|]. intros (k & Hk & E). nia.
  - rewrite nth_call_succ, (call_steady s Hf Ho).
    destruct (Z.leb_spec (TrueEvery.calls s - 1) 0) as [Hle|Hgt]; simpl.
    + set (s' := TrueEvery.set_first_call false _).
      destruct (IH s') as [[E G]|[E G]]; try reflexivity; simpl; try lia;
        try assumption.
      * left. split; [exact E|]. destruct G as (k & Hk & G). simpl in G.
        exists (k + 1). split; [lia|]. nia.
      * right. split; [exact E|]. intros (k & Hk & G'). apply G. simpl.
        assert (1 <= k) by nia. exists (k - 1). split; [lia|]. nia.
    + set (s' := TrueEvery.set_calls _ s).
      destruct (IH s') as [[E G]|[E G]]; try reflexivity; simpl; try lia;
        try assumption.
      * left. split; [exact E|]. destruct G as (k & Hk & G). simpl in G.
        exists k. split; [lia|]. nia.
      * right. split; [exact E|]. intros (k & Hk & G'). apply G. simpl.
        exists k. split; [lia|]. nia.
Qed.

(** The first call of a trigger built with [start_value = 0] fires and
    loads [initial_count]. *)
Lemma first_call_fires (count : Z) (initial_count : option Z) (once : bool) :
  TrueEvery.__call__ (TrueEvery.__init__ count initial_count once 0) =
  (Some true,
   TrueEvery.mk count
     (match initial_count with Some ic => ic | None => count end)
     once
     (match initial_count with Some ic => ic | None => count end)
     0 false).
Proof. unfold TrueEvery.__call__. simpl. destruct once; reflexivity. Qed.

Lemma fresh_grid (count ic : Z) (oic : option Z) (n : nat) :
  0 < count -> 0 < ic ->
  ic = match oic with Some v => v | None => count end ->
  (1 <= n)%nat ->
  (TrueEvery.nth_call n (TrueEvery.__init__ count oic false 0) = Some (Some true) /\
     (n = 1%nat \/ on_grid n (ic + 1) count)) \/
  (TrueEvery.nth_call n (TrueEvery.__init__ count oic false 0) = Some None /\
     ~ (n = 1%nat \/ on_grid n (ic + 1) count)).
Proof.
  intros Hc Hi Eic Hn.
  destruct n as [|[|m]]; [lia| |].
  - left. split; [|left; reflexivity].
    unfold TrueEvery.nth_call. simpl TrueEvery.after.
    rewrite first_call_fires. reflexivity.
  - rewrite nth_call_succ, first_call_fires. simpl snd.
    rewrite <- Eic.
    set (s1 := TrueEvery.mk _ _ _ _ _ _).
    destruct (steady_grid m s1) as [[E G]|[E G]]; try reflexivity; simpl;
      try lia.
    + left. split; [exact E|]. right. destruct G as (k & Hk & G). simpl in G.
      exists k. split; [lia|]. lia.
    + right. split; [exact E|]. intros [D|(k & Hk & G')]; [lia|].
      apply G. simpl. exists k. split; [lia|]. lia.
Qed.

(** C2, amended.  For every [count > 0], a fresh [TrueEvery(count)]
    returns [True] exactly on calls 1, count+1, 2*count+1, ... and [None]
    on every other call; when a positive [initial_count] is supplied, it
    returns [True] exactly on calls 1, initial_count+1,
    initial_count+count+1, ... and [None] on every other call. *)
Theorem TrueEvery_fires_periodically (count : Z) (n : nat) :
  0 < count -> (1 <= n)%nat ->
  fires_exactly (TrueEvery.__init__ count None false 0) n (on_grid n 1 count) /\
  forall initial_count : Z,
    0 < initial_count ->
    fires_exactly (TrueEvery.__init__ count (Some initial_count) false 0) n
      (n = 1%nat \/ on_grid n (initial_count + 1) count).
Proof.
  intros Hc Hn. split.
  - destruct (fresh_grid count count None n Hc Hc eq_refl Hn) as [[E G]|[E G]].
    + left. split; [exact E|]. destruct G as [->|(k & Hk & G)].
      * exists 0. lia.
      * exists (k + 1). split; [lia|]. nia.
    + right. split; [exact E|]. intros (k & Hk & G'). apply G.
      destruct (Z.eq_dec k 0) as [->|Hk0]; [left; lia|].
      right. exists (k - 1). split; [lia|]. nia.
  - intros initial_count Hi.
    exact (fresh_grid count initial_count (Some initial_count) n Hc Hi eq_refl Hn).
Qed.

Lemma TrueEvery_fires_periodically_witness :
  fires_exactly (TrueEvery.__init__ 3 None false 0) 7 (on_grid 7 1 3) /\
  fires_exactly (TrueEvery.__init__ 3 (Some 5) false 0) 7
    (7%nat = 1%nat \/ on_grid 7 (5 + 1) 3).
Proof.
  destruct (TrueEvery_fires_periodically 3 7) as [Hdefault Hinitial];
    [lia|lia|].
  split; [exact Hdefault|]. apply Hinitial. lia.
Defined.

(** With [initial_count = 0] the second call fires, although call 2 is
    none of 1, initial_count+1, initial_count+count+1, ... *)
Lemma TrueEvery_zero_initial_count_fires_twice :
  0 < 3 /\ 0 <> 3 /\
  TrueEvery.nth_call 2 (TrueEvery.__init__ 3 (Some 0) false 0) = Some (Some true) /\
  ~ (2%nat = 1%nat \/ on_grid 2 (0 + 1) 3) /\
  ~ fires_exactly (TrueEvery.__init__ 3 (Some 0) false 0) 2
      (2%nat = 1%nat \/ on_grid 2 (0 + 1) 3).
Proof.
  assert (G : ~ (2%nat = 1%nat \/ on_grid 2 (0 + 1) 3)).
  { intros [D|(k & Hk & E)]; [discriminate|]. lia. }
  repeat split; try lia; try reflexivity; try exact G.
  intros [[_ P]|[E _]]; [exact (G P)|]. discriminate E.
Qed.

(** A [once] trigger that has fired answers [False] and stays as it is. *)
Lemma call_spent (s : TrueEvery.t) :
  TrueEvery.once s = true ->
  TrueEvery.first_call s = false ->
  TrueEvery.__call__ s = (Some false, s).
Proof.
  intros Ho Hf. unfold TrueEvery.__call__. rewrite Ho, Hf. reflexivity.
Qed.

Lemma true_count_succ (n : nat) (s : TrueEvery.t) :
  TrueEvery.true_count (S n) s =
  ((if bool_decide ((TrueEvery.__call__ s).1 = Some true) then 1 else 0) +
   TrueEvery.true_count n (TrueEvery.__call__ s).2)%nat.
Proof.
  unfold TrueEvery.true_count. simpl.
  destruct (TrueEvery.__call__ s) as [r s1]. simpl.
  destruct (TrueEvery.run n s1) as [rs s2]. simpl.
  rewrite filter_cons. case_bool_decide; destruct (decide _); simpl;
    congruence.
Qed.

Lemma spent_never_fires (n : nat) :
  forall s : TrueEvery.t,
    TrueEvery.once s = true ->
    TrueEvery.first_call s = false ->
    TrueEvery.true_count n s = 0%nat.
Proof.
  induction n as [|n IH]; intros s Ho Hf; [reflexivity|].
  rewrite true_count_succ, (call_spent s Ho Hf). simpl.
  exact (IH s Ho Hf).
Qed.

Lemma once_fires_at_most_once (n : nat) :
  forall s : TrueEvery.t,
    TrueEvery.once s = true -> (TrueEvery.true_count n s <= 1)%nat.
Proof.
  induction n as [|n IH]; intros s Ho.
  - unfold TrueEvery.true_count. simpl. lia.
  - rewrite true_count_succ.
    destruct (TrueEvery.first_call s) eqn:Hf.
    + unfold TrueEvery.__call__. rewrite Hf, Ho. simpl.
      destruct (TrueEvery.calls s - 1 <=? 0); simpl.
      * rewrite spent_never_fires; [lia|exact Ho|reflexivity].
      * apply (IH (TrueEvery.set_calls (TrueEvery.calls s - 1) s)). exact Ho.
    + rewrite (call_spent s Ho Hf). simpl.
      rewrite spent_never_fires; [lia|exact Ho|exact Hf].
Qed.

(** C5.  A [TrueEvery] built with [once=True], whatever its other
    arguments, returns [True] on at most one of any number of successive
    calls. *)
Theorem TrueEvery_once_at_most_once
    (count : Z) (initial_count : option Z) (start_value : Z) (n : nat) :
  (TrueEvery.true_count n
     (TrueEvery.__init__ count initial_count true start_value) <= 1)%nat.
Proof. apply once_fires_at_most_once. reflexivity. Qed.

(** A call changes neither the configuration nor [start_value], which is
    all [reset] reads. *)
Lemma reset_after_call (s : TrueEvery.t) :
  TrueEvery.reset None (TrueEvery.__call__ s).2 = TrueEvery.reset None s.
Proof.
  unfold TrueEvery.__call__.
  destruct (negb (TrueEvery.first_call s) && TrueEvery.once s);
    [reflexivity|]. simpl.
  destruct (TrueEvery.calls s - 1 <=? 0); reflexivity.
Qed.

(** X1.  [reset()] after any number of calls gives back the freshly
    constructed trigger, so the calls that follow repeat its sequence of
    results. *)
Theorem TrueEvery_reset_restores
    (count : Z) (initial_count : option Z) (once : bool) (start_value : Z)
    (n k : nat) :
  TrueEvery.reset None
    (TrueEvery.after n (TrueEvery.__init__ count initial_count once start_value)) =
    TrueEvery.__init__ count initial_count once start_value /\
  TrueEvery.run k
    (TrueEvery.reset None
       (TrueEvery.after n
          (TrueEvery.__init__ count initial_count once start_value))) =
    TrueEvery.run k (TrueEvery.__init__ count initial_count once start_value).
Proof.
  assert (E : forall s : TrueEvery.t,
             TrueEvery.reset None (TrueEvery.after n s) = TrueEvery.reset None s).
  { induction n as [|n IH]; intros s; [reflexivity|].
    simpl. rewrite IH. apply reset_after_call. }
  rewrite E. split; reflexivity.
Qed.

(** *** The first firing, [start_value] and [reset] with an argument *)

Lemma after_add (k m : nat) :
  forall s : TrueEvery.t,
    TrueEvery.after (k + m) s = TrueEvery.after m (TrueEvery.after k s).
Proof.
  induction k as [|k IH]; intros s; [reflexivity|]. simpl. apply IH.
Qed.

Lemma nth_call_after (k m : nat) (s : TrueEvery.t) :
  TrueEvery.nth_call (k + S m) s = TrueEvery.nth_call (S m) (TrueEvery.after k s).
Proof.
  replace (k + S m)%nat with (S (k + m)) by lia.
  unfold TrueEvery.nth_call. rewrite after_add. reflexivity.
Qed.

(** A call on a trigger that has not fired since it was built or reset. *)
Lemma call_armed (s : TrueEvery.t) :
  TrueEvery.first_call s = true ->
  TrueEvery.__call__ s =
    if TrueEvery.calls s - 1 <=? 0
    then (Some true,
          TrueEvery.mk (TrueEvery.count s) (TrueEvery.initial_count s)
            (TrueEvery.once s) (TrueEvery.initial_count s)
            (TrueEvery.start_value s) false)
    else (None, TrueEvery.set_calls (TrueEvery.calls s - 1) s).
Proof.
  intros Hf. unfold TrueEvery.__call__. rewrite Hf. simpl. rewrite Hf.
  destruct (TrueEvery.calls s - 1 <=? 0); reflexivity.
Qed.

Lemma armed_after (k : nat) :
  forall s : TrueEvery.t,
    TrueEvery.first_call s = true ->
    Z.of_nat k < Z.max 1 (TrueEvery.calls s) ->
    TrueEvery.after k s =
      TrueEvery.set_calls (TrueEvery.calls s - Z.of_nat k) s.
Proof.
  induction k as [|k IH]; intros s Hf Hk.
  - simpl. rewrite Z.sub_0_r. destruct s; reflexivity.
  - simpl TrueEvery.after. rewrite (call_armed s Hf).
    destruct (Z.leb_spec (TrueEvery.calls s - 1) 0) as [Hle|Hgt]; [lia|].
    simpl snd. rewrite IH.
    + simpl. unfold TrueEvery.set_calls. simpl. f_equal. lia.
    + exact Hf.
    + simpl. lia.
Qed.

Lemma armed_fires (s : TrueEvery.t) :
  TrueEvery.first_call s = true ->
  (forall n : nat,
     (1 <= n < first_fire (TrueEvery.calls s))%nat ->
     TrueEvery.nth_call n s = Some None) /\
  TrueEvery.nth_call (first_fire (TrueEvery.calls s)) s = Some (Some true) /\
  TrueEvery.after (first_fire (TrueEvery.calls s)) s =
    TrueEvery.mk (TrueEvery.count s) (TrueEvery.initial_count s)
      (TrueEvery.once s) (TrueEvery.initial_count s)
      (TrueEvery.start_value s) false.
Proof.
  intros Hf. unfold first_fire.
  assert (Hstep : forall k : nat,
             Z.of_nat k < Z.max 1 (TrueEvery.calls s) ->
             TrueEvery.__call__ (TrueEvery.after k s) =
               if TrueEvery.calls s - Z.of_nat k - 1 <=? 0
               then (Some true,
                     TrueEvery.mk (TrueEvery.count s) (TrueEvery.initial_count s)
                       (TrueEvery.once s) (TrueEvery.initial_count s)
                       (TrueEvery.start_value s) false)
               else (None,
                     TrueEvery.set_calls
                       (TrueEvery.calls s - Z.of_nat k - 1)
                       (TrueEvery.set_calls (TrueEvery.calls s - Z.of_nat k) s))).
  { intros k Hk. rewrite (armed_after k s Hf Hk), call_armed by exact Hf.
    reflexivity. }
  split; [|split].
  - intros [|k] Hn; [lia|]. unfold TrueEvery.nth_call.
    rewrite Hstep by lia.
    destruct (Z.leb_spec (TrueEvery.calls s - Z.of_nat k - 1) 0); [lia|].
    reflexivity.
  - destruct (Z.to_nat (Z.max 1 (TrueEvery.calls s))) as [|k] eqn:E; [lia|].
    unfold TrueEvery.nth_call. rewrite Hstep by lia.
    destruct (Z.leb_spec (TrueEvery.calls s - Z.of_nat k - 1) 0); [|lia].
    reflexivity.
  - destruct (Z.to_nat (Z.max 1 (TrueEvery.calls s))) as [|k] eqn:E; [lia|].
    replace (S k) with (k + 1)%nat by lia. rewrite after_add. simpl.
    rewrite Hstep by lia.
    destruct (Z.leb_spec (TrueEvery.calls s - Z.of_nat k - 1) 0); [|lia].
    reflexivity.
Qed.

(** X3.  With [count > 0], a positive first interval and any
    [start_value], a fresh trigger without [once] returns [True] exactly on
    call [max(1, start_value)], then [initial_count] calls later, then every
    [count] calls, and [None] on every other call. *)
Theorem TrueEvery_start_value_delays
    (count : Z) (initial_count : option Z) (start_value : Z) (n : nat) :
  0 < count ->
  0 < match initial_count with Some ic => ic | None => count end ->
  (1 <= n)%nat ->
  fires_exactly (TrueEvery.__init__ count initial_count false start_value) n
    (n = first_fire start_value \/
     on_grid n
       (Z.of_nat (first_fire start_value) +
        match initial_count with Some ic => ic | None => count end)
       count).
Proof.
  intros Hc Hi Hn.
  set (ic := match initial_count with Some v => v | None => count end) in *.
  set (s0 := TrueEvery.__init__ count initial_count false start_value).
  destruct (armed_fires s0 eq_refl) as (Hwait & Hfire & Hafter).
  change (TrueEvery.calls s0) with start_value in *.
  assert (HF : (1 <= first_fire start_value)%nat) by (unfold first_fire; lia).
  destruct (Nat.lt_trichotomy n (first_fire start_value)) as [Hlt|[Heq|Hgt]].
  - right. split; [apply Hwait; lia|].
    intros [E|(k & Hk & E)]; [lia|]. nia.
  - left. subst n. split; [exact Hfire|]. left. reflexivity.
  - destruct (Nat.le_exists_sub (S (first_fire start_value)) n Hgt)
      as (m & Em & _).
    assert (En : n = (first_fire start_value + S m)%nat) by lia.
    rewrite En at 1 2. unfold fires_exactly. rewrite nth_call_after, Hafter.
    set (s1 := TrueEvery.mk _ _ _ _ _ _).
    destruct (steady_grid m s1) as [[E G]|[E G]]; try reflexivity;
      try assumption.
    + left. split; [exact E|]. right. destruct G as (k & Hk & G).
      simpl in G. exists k. split; [lia|]. fold ic. lia.
    + right. split; [exact E|]. intros [D|(k & Hk & G')]; [lia|].
      apply G. simpl. exists k. split; [lia|]. fold ic in G'. lia.
Qed.

Lemma TrueEvery_start_value_delays_witness :
  fires_exactly (TrueEvery.__init__ 3 (Some 5) false 4) 12
    (12%nat = first_fire 4 \/ on_grid 12 (Z.of_nat (first_fire 4) + 5) 3).
Proof.
  apply (TrueEvery_start_value_delays 3 (Some 5) 4 12); simpl; lia.
Defined.

Lemma after_spent (m : nat) (s : TrueEvery.t) :
  TrueEvery.once s = true ->
  TrueEvery.first_call s = false ->
  TrueEvery.after m s = s.
Proof.
  intros Ho Hf. induction m as [|m IH]; [reflexivity|].
  simpl. rewrite (call_spent s Ho Hf). exact IH.
Qed.

(** X4.  A [once] trigger returns [None] before call
    [max(1, start_value)], [True] on that call and [False] on every call
    after it, whatever [count] and [initial_count] are. *)
Theorem TrueEvery_once_fires_exactly_once
    (count : Z) (initial_count : option Z) (start_value : Z) (n : nat) :
  (1 <= n)%nat ->
  TrueEvery.nth_call n (TrueEvery.__init__ count initial_count true start_value) =
    Some (if (n <? first_fire start_value)%nat then None
          else if (n =? first_fire start_value)%nat then Some true
          else Some false).
Proof.
  intros Hn.
  set (s0 := TrueEvery.__init__ count initial_count true start_value).
  destruct (armed_fires s0 eq_refl) as (Hwait & Hfire & Hafter).
  change (TrueEvery.calls s0) with start_value in *.
  destruct (Nat.ltb_spec n (first_fire start_value)) as [Hlt|Hge].
  - apply Hwait. lia.
  - destruct (Nat.eqb_spec n (first_fire start_value)) as [->|Hne];
      [exact Hfire|].
    destruct (Nat.le_exists_sub (S (first_fire start_value)) n) as (m & Em & _);
      [lia|].
    replace n with (first_fire start_value + S m)%nat by lia.
    rewrite nth_call_after, Hafter. unfold TrueEvery.nth_call.
    rewrite after_spent by reflexivity. reflexivity.
Qed.

Lemma TrueEvery_once_fires_exactly_once_witness :
  TrueEvery.nth_call 3 (TrueEvery.__init__ 2 None true 3) = Some (Some true) /\
  TrueEvery.nth_call 9 (TrueEvery.__init__ 2 None true 3) = Some (Some false).
Proof.
  split.
  - apply (TrueEvery_once_fires_exactly_once 2 None 3 3). lia.
  - apply (TrueEvery_once_fires_exactly_once 2 None 3 9). lia.
Defined.

Lemma nonpositive_call (s : TrueEvery.t) :
  TrueEvery.once s = false ->
  TrueEvery.calls s <= 1 ->
  TrueEvery.count s <= 0 ->
  TrueEvery.initial_count s <= 0 ->
  (TrueEvery.__call__ s).1 = Some true /\
  TrueEvery.once (TrueEvery.__call__ s).2 = false /\
  TrueEvery.calls (TrueEvery.__call__ s).2 <= 1 /\
  TrueEvery.count (TrueEvery.__call__ s).2 <= 0 /\
  TrueEvery.initial_count (TrueEvery.__call__ s).2 <= 0.
Proof.
  intros Ho Hc Hp Hi. unfold TrueEvery.__call__. rewrite Ho, andb_false_r.
  simpl. destruct (Z.leb_spec (TrueEvery.calls s - 1) 0); [|lia]. simpl.
  destruct (TrueEvery.first_call s); repeat split; simpl; lia || assumption.
Qed.

(** X5.  With a non-positive [count], a first interval that is not positive
    either and [start_value <= 1], a trigger without [once] returns [True]
    on every call. *)
Theorem TrueEvery_nonpositive_period_fires_always
    (count : Z) (initial_count : option Z) (start_value : Z) (n : nat) :
  count <= 0 ->
  match initial_count with Some ic => ic | None => count end <= 0 ->
  start_value <= 1 ->
  (1 <= n)%nat ->
  TrueEvery.nth_call n (TrueEvery.__init__ count initial_count false start_value) =
    Some (Some true).
Proof.
  intros Hc Hi Hs Hn. destruct n as [|k]; [lia|]. unfold TrueEvery.nth_call.
  f_equal.
  assert (G : forall (m : nat) (s : TrueEvery.t),
             TrueEvery.once s = false -> TrueEvery.calls s <= 1 ->
             TrueEvery.count s <= 0 -> TrueEvery.initial_count s <= 0 ->
             (TrueEvery.__call__ (TrueEvery.after m s)).1 = Some true).
  { induction m as [|m IH]; intros s Ho Hcs Hp Hic.
    - exact (proj1 (nonpositive_call s Ho Hcs Hp Hic)).
    - destruct (nonpositive_call s Ho Hcs Hp Hic) as (_ & A & B & C & D).
      simpl. apply IH; assumption. }
  apply G; simpl; assumption || reflexivity.
Qed.

Lemma TrueEvery_nonpositive_period_fires_always_witness :
  TrueEvery.nth_call 6 (TrueEvery.__init__ (-2) None false 0) = Some (Some true).
Proof.
  apply (TrueEvery_nonpositive_period_fires_always (-2) None 0 6); simpl; lia.
Defined.

Lemma reset_after (n : nat) :
  forall s : TrueEvery.t,
    TrueEvery.reset None (TrueEvery.after n s) = TrueEvery.reset None s.
Proof.
  induction n as [|n IH]; intros s; [reflexivity|].
  simpl. rewrite IH. apply reset_after_call.
Qed.

(** X6.  Driven through [run_or_reset], a trigger with [start_value <= 1]
    answers [False] to a false condition whatever its history, and [True]
    to the first true condition that follows, also when it is a [once]
    trigger that has already fired. *)
Theorem TrueEvery_run_or_reset_rearms
    (count : Z) (initial_count : option Z) (once : bool) (start_value : Z)
    (n : nat) :
  start_value <= 1 ->
  TrueEvery.run_or_reset false
    (TrueEvery.after n (TrueEvery.__init__ count initial_count once start_value)) =
    (Some false, TrueEvery.__init__ count initial_count once start_value) /\
  (TrueEvery.run_or_reset true
     (TrueEvery.run_or_reset false
        (TrueEvery.after n
           (TrueEvery.__init__ count initial_count once start_value))).2).1 =
    Some true.
Proof.
  intros Hs. unfold TrueEvery.run_or_reset. rewrite reset_after. simpl.
  split; [reflexivity|].
  rewrite call_armed by reflexivity. simpl.
  destruct (Z.leb_spec (start_value - 1) 0); [reflexivity|lia].
Qed.

Lemma TrueEvery_run_or_reset_rearms_witness :
  (TrueEvery.run_or_reset true
     (TrueEvery.run_or_reset false
        (TrueEvery.after 5 (TrueEvery.__init__ 4 None true 0))).2).1 =
    Some true.
Proof.
  apply (TrueEvery_run_or_reset_rearms 4 None true 0 5). lia.
Defined.

(** X7.  After [reset(v)] a trigger, whatever state it was in, returns
    [None] on the calls before call [max(1, v)] and [True] on that call. *)
Theorem TrueEvery_reset_override_delays (s : TrueEvery.t) (v : Z) :
  (forall n : nat,
     (1 <= n < first_fire v)%nat ->
     TrueEvery.nth_call n (TrueEvery.reset (Some v) s) = Some None) /\
  TrueEvery.nth_call (first_fire v) (TrueEvery.reset (Some v) s) =
    Some (Some true).
Proof.
  destruct (armed_fires (TrueEvery.reset (Some v) s) eq_refl) as (A & B & _).
  split; [exact A|exact B].
Qed.

(** ** Animation *)

Lemma py_index_in_range (n : nat) (i : Z) :
  0 <= i < Z.of_nat n -> py_index n i = Ret (Z.to_nat i).
Proof.
  intros Hi. unfold py_index. cbv zeta.
  assert (E1 : (i <? 0) = false) by lia.
  assert (E2 : (Z.of_nat n <=? i) = false) by lia.
  rewrite E1. cbv iota. rewrite E1, E2. reflexivity.
Qed.

Lemma py_getitem_in_range {A : Type} (l : list A) (i : Z) :
  0 <= i < Z.of_nat (length l) ->
  exists a, l !! Z.to_nat i = Some a /\ py_getitem l i = Ret a.
Proof.
  intros Hi. unfold py_getitem. rewrite (py_index_in_range _ _ Hi). simpl.
  destruct (lookup_lt_is_Some_2 l (Z.to_nat i)) as [a Ha]; [lia|].
  exists a. rewrite Ha. split; reflexivity.
Qed.

Lemma py_getitem_nil {A : Type} (i : Z) :
  py_getitem (@nil A) i = Raise IndexError.
Proof.
  unfold py_getitem, py_index. cbv zeta. simpl length.
  change (Z.of_nat 0) with 0.
  destruct (Z.ltb_spec i 0) as [E1|E1].
  - assert (E2 : (i <? 0) = true) by lia.
    assert (E3 : (i + 0 <? 0) = true) by lia.
    clear E2. cbv iota. rewrite E3. reflexivity.
  - assert (E2 : (i <? 0) = false) by lia.
    assert (E3 : (0 <=? i) = true) by lia.
    cbv iota. rewrite E2, E3. reflexivity.
Qed.

Ltac run_method :=
  unfold bind, get, modify, lift, ret, raise, Animation.attr; simpl.

Section AnimationProperties.
Context {H : Host}.

Lemma load_frames_length (files : list string) (fd : list Z) :
  forall (i : nat) (fs : list (Surface * Z)),
    Animation.load_frames i files fd = Ret fs -> length fs = length files.
Proof.
  induction files as [|f files IH]; intros i fs E; simpl in E.
  - injection E as <-. reflexivity.
  - destruct (image_load f) as [img|e]; simpl in E; [|discriminate].
    destruct (py_getitem fd (Z.of_nat i)) as [d|e]; simpl in E; [|discriminate].
    destruct (Animation.load_frames (S i) files fd) as [fs'|e] eqn:E';
      simpl in E; [|discriminate].
    injection E as <-. simpl. f_equal. exact (IH _ _ E').
Qed.

(** [load] has three kinds of outcome: it raises before any attribute is
    written; it returns and installs a non-empty [frames]; or, when nothing
    is matched and [frame_data] is empty too, it raises [IndexError] after
    it has installed an empty [frames]. *)
Lemma load_cases (p : string) (fd : list Z) (a : Animation.t) :
  (exists e, Animation.load p fd a = (Raise e, a)) \/
  (exists (fr : Surface * Z) (fs : list (Surface * Z)),
     Animation.load_frames 0 (glob p) fd = Ret (fr :: fs) /\
     Animation.load p fd a =
       (Ret tt,
        Animation.mk (Animation.glob_path a) (Animation.frame_data a)
          (Animation.repititions a) (Animation.finished a)
          (Some (fr :: fs)) (Some (Z.of_nat (length (fr :: fs))))
          (Some 0) (Some fr.2))) \/
  (glob p = [] /\ fd = [] /\
   Animation.load p fd a =
     (Raise IndexError,
      Animation.mk (Animation.glob_path a) (Animation.frame_data a)
        (Animation.repititions a) (Animation.finished a)
        (Some []) (Some 0) (Some 0) (Animation.frames_until_next a))).
Proof.
  unfold Animation.load.
  destruct (Nat.eqb_spec (length (glob p)) (length fd)) as [El|Nl]; simpl.
  2:{ left. exists ValueError. reflexivity. }
  destruct (Animation.load_frames 0 (glob p) fd) as [fs|e] eqn:E.
  2:{ left. exists e. run_method. reflexivity. }
  destruct fs as [|fr fs].
  - right. right. apply load_frames_length in E. simpl in E.
    destruct (glob p); [|discriminate]. destruct fd; [|discriminate].
    repeat split; reflexivity.
  - right. left. exists fr, fs. split; [reflexivity|].
    run_method. reflexivity.
Qed.

Lemma inv_frame (a : Animation.t) :
  Animation.inv a ->
  exists fs i n fr,
    Animation.frames a = Some fs /\
    Animation.frame_count a = Some (Z.of_nat (length fs)) /\
    Animation.frame_index a = Some i /\
    Animation.frames_until_next a = Some n /\
    0 <= i < Z.of_nat (length fs) /\
    fs !! Z.to_nat i = Some fr /\ py_getitem fs i = Ret fr.
Proof.
  intros (fs & i & n & Hf & Hc & Hi & Hn & Hr).
  destruct (py_getitem_in_range fs i Hr) as (fr & L & G).
  exists fs, i, n, fr. repeat split; try assumption; lia.
Qed.

Lemma load_returns_inv (p : string) (fd : list Z) (a a' : Animation.t) :
  Animation.load p fd a = (Ret tt, a') -> Animation.inv a'.
Proof.
  intros E.
  destruct (load_cases p fd a) as [(e & E1)|[(fr & fs & _ & E1)|(_ & _ & E1)]];
    rewrite E1 in E; try discriminate.
  injection E as <-.
  exists (fr :: fs), 0, fr.2. simpl. repeat split; try reflexivity; lia.
Qed.

Lemma new_inv (p : string) (fd : list Z) (r : option Z) (a : Animation.t) :
  Animation.new p fd r = Ret a -> Animation.inv a.
Proof.
  unfold Animation.new, Animation.__init__.
  destruct (Animation.load p fd _) as [[[]|e] a'] eqn:E; [|discriminate].
  intros [= <-]. exact (load_returns_inv _ _ _ _ E).
Qed.

Lemma update_finished (a : Animation.t) :
  Animation.finished a = true -> Animation.update a = (Ret tt, a).
Proof.
  intros Hf. unfold Animation.update. run_method. rewrite Hf. reflexivity.
Qed.

Lemma update_inv (a : Animation.t) :
  Animation.inv a ->
  exists a', Animation.update a = (Ret tt, a') /\ Animation.inv a' /\
             Animation.frames a' = Animation.frames a.
Proof.
  intros (fs & i & n & Hf & Hc & Hi & Hn & Hr).
  destruct a as [gp fd rp fin ofs oc oi on]. simpl in *. subst.
  unfold Animation.update. run_method.
  destruct fin; simpl.
  { eexists. split; [reflexivity|]. split; [|reflexivity].
    exists fs, i, n. simpl. repeat split; try reflexivity; lia. }
  destruct (n - 1 =? 0); simpl.
  2:{ eexists. split; [reflexivity|]. split; [|reflexivity].
      exists fs, i, (n - 1). simpl. repeat split; try reflexivity; lia. }
  unfold py_mod. destruct (Z.eqb_spec (Z.of_nat (length fs)) 0) as [E0|N0];
    [lia|]. simpl.
  assert (Hj : 0 <= (i + 1) mod Z.of_nat (length fs) < Z.of_nat (length fs))
    by (apply Z.mod_pos_bound; lia).
  destruct (py_getitem_in_range fs _ Hj) as (fr & _ & G). rewrite G. simpl.
  destruct ((i + 1) mod Z.of_nat (length fs) =? 0); simpl.
  2:{ eexists. split; [reflexivity|]. split; [|reflexivity].
      eexists fs, _, _. simpl. repeat split; try reflexivity; lia. }
  destruct rp as [r|]; simpl.
  2:{ eexists. split; [reflexivity|]. split; [|reflexivity].
      eexists fs, _, _. simpl. repeat split; try reflexivity; lia. }
  case_bool_decide; simpl;
    (eexists; split; [reflexivity|]; split; [|reflexivity];
     eexists fs, _, _; simpl; repeat split; try reflexivity; lia).
Qed.

Lemma reset_inv (a : Animation.t) :
  Animation.inv a ->
  exists a', Animation.reset a = (Ret tt, a') /\ Animation.inv a'.
Proof.
  intros (fs & i & n & Hf & Hc & Hi & Hn & Hr).
  destruct a as [gp fd rp fin ofs oc oi on]. simpl in *. subst.
  unfold Animation.reset. run_method.
  destruct (py_getitem_in_range fs 0) as (fr & _ & G); [lia|].
  rewrite G. simpl. eexists. split; [reflexivity|].
  eexists fs, _, _. simpl. repeat split; try reflexivity; lia.
Qed.

Lemma get_surface_inv (a : Animation.t) :
  Animation.inv a ->
  exists fs i fr,
    Animation.frames a = Some fs /\ Animation.frame_index a = Some i /\
    fs !! Z.to_nat i = Some fr /\
    Animation.get_surface a = (Ret fr.1, a).
Proof.
  intros Ha. destruct (inv_frame a Ha) as (fs & i & n & fr & Hf & _ & Hi & _ & _ & L & G).
  exists fs, i, fr. repeat split; try assumption.
  unfold Animation.get_surface. run_method. rewrite Hf, Hi. simpl.
  rewrite G. reflexivity.
Qed.

Lemma load_inv (p : string) (fd : list Z) (a : Animation.t) :
  Animation.inv a ->
  ~ (glob p = [] /\ fd = []) ->
  Animation.inv (Animation.load p fd a).2.
Proof.
  intros Ha Hne.
  destruct (load_cases p fd a) as [(e & E1)|[(fr & fs & _ & E1)|(G & F & _)]].
  - rewrite E1. exact Ha.
  - rewrite E1. simpl. exact (load_returns_inv _ _ _ _ E1).
  - destruct Hne. split; assumption.
Qed.

End AnimationProperties.

Section AnimationTheorems.
Context {H : Host}.

Lemma updates_finished (k : nat) (a : Animation.t) :
  Animation.finished a = true -> Animation.updates k a = (Ret tt, a).
Proof.
  intros Hf. induction k as [|k IH]; [reflexivity|].
  simpl. unfold bind. rewrite (update_finished a Hf). exact IH.
Qed.

Lemma updates_add (n k : nat) :
  forall a a' : Animation.t,
    Animation.updates n a = (Ret tt, a') ->
    Animation.updates (n + k) a = Animation.updates k a'.
Proof.
  induction n as [|n IH]; intros a a' E; simpl in *.
  - injection E as <-. reflexivity.
  - unfold bind in *.
    destruct (Animation.update a) as [[[]|e] a1]; [|discriminate].
    exact (IH _ _ E).
Qed.

(** C1.  An animation built from three files with durations [2,3,4] and
    [repititions=2]: the ninth [update] is the first to lower the
    repetition count, and leaves [frame_index = 0] and [repititions = 1];
    the eighteenth is the first to set [finished]; from then on any number
    of further updates return the object unchanged. *)
Theorem Animation_two_repetitions
    (p f1 f2 f3 : string) (s1 s2 s3 : Surface) :
  glob p = [f1; f2; f3] ->
  image_load f1 = Ret s1 -> image_load f2 = Ret s2 -> image_load f3 = Ret s3 ->
  exists a0 a9 a18 : Animation.t,
    Animation.new p [2; 3; 4] (Some 2) = Ret a0 /\
    Animation.updates 9 a0 = (Ret tt, a9) /\
    Animation.frame_index a9 = Some 0 /\
    Animation.repititions a9 = Some 1 /\
    Animation.finished a9 = false /\
    (forall n : nat, (n < 9)%nat ->
       exists a, Animation.updates n a0 = (Ret tt, a) /\
                 Animation.repititions a = Some 2) /\
    Animation.updates 18 a0 = (Ret tt, a18) /\
    Animation.frame_index a18 = Some 0 /\
    Animation.finished a18 = true /\
    (forall n : nat, (n < 18)%nat ->
       exists a, Animation.updates n a0 = (Ret tt, a) /\
                 Animation.finished a = false) /\
    Animation.update a18 = (Ret tt, a18) /\
    (forall k : nat, Animation.updates (18 + k) a0 = (Ret tt, a18)).
Proof.
  intros Hg H1 H2 H3.
  set (fs := [(s1, 2); (s2, 3); (s3, 4)]).
  set (st := fun (r : Z) (fin : bool) (i n : Z) =>
               Animation.mk p [2; 3; 4] (Some r) fin (Some fs) (Some 3)
                 (Some i) (Some n)).
  assert (E0 : Animation.new p [2; 3; 4] (Some 2) = Ret (st 2 false 0 2)).
  { unfold Animation.new, Animation.__init__, Animation.load.
    rewrite Hg. simpl. rewrite H1, H2, H3. reflexivity. }
  assert (E18 : Animation.updates 18 (st 2 false 0 2) = (Ret tt, st 0 true 0 2))
    by reflexivity.
  exists (st 2 false 0 2), (st 1 false 0 2), (st 0 true 0 2).
  split; [exact E0|].
  split; [reflexivity|]. split; [reflexivity|]. split; [reflexivity|].
  split; [reflexivity|].
  split.
  { intros n Hn.
    do 9 (destruct n as [|n];
          [eexists; split; [vm_compute; reflexivity|reflexivity]|]).
    lia. }
  split; [exact E18|]. split; [reflexivity|]. split; [reflexivity|].
  split.
  { intros n Hn.
    do 18 (destruct n as [|n];
           [eexists; split; [vm_compute; reflexivity|reflexivity]|]).
    lia. }
  split; [reflexivity|].
  intros k. rewrite (updates_add 18 k _ _ E18).
  apply updates_finished. reflexivity.
Qed.

Lemma update_without_count (a : Animation.t) :
  Animation.repititions a = None ->
  Animation.repititions (Animation.update a).2 = None /\
  Animation.finished (Animation.update a).2 = Animation.finished a.
Proof.
  destruct a as [gp fd rp fin ofs oc oi on]. simpl. intros ->.
  unfold Animation.update. run_method.
  destruct fin; simpl; [split; reflexivity|].
  destruct on as [n|]; simpl; [|split; reflexivity].
  destruct (n - 1 =? 0); simpl; [|split; reflexivity].
  destruct oi as [i|]; simpl; [|split; reflexivity].
  destruct oc as [c|]; simpl; [|split; reflexivity].
  destruct (py_mod (i + 1) c) as [j|e]; simpl; [|split; reflexivity].
  destruct ofs as [fs|]; simpl; [|split; reflexivity].
  destruct (py_getitem fs j) as [fr|e]; simpl; [|split; reflexivity].
  rewrite andb_false_r. split; reflexivity.
Qed.

(** X2.  An animation built without a repetition count never becomes
    finished, however often it is updated. *)
Theorem Animation_without_count_never_finishes
    (p : string) (fd : list Z) (a : Animation.t) (n : nat) :
  Animation.new p fd None = Ret a ->
  Animation.finished (Animation.updates n a).2 = false.
Proof.
  intros Hnew.
  assert (H0 : Animation.repititions a = None /\ Animation.finished a = false).
  { unfold Animation.new, Animation.__init__ in Hnew.
    destruct (load_cases p fd (Animation.before_load p fd None))
      as [(e & E)|[(fr & fs & _ & E)|(_ & _ & E)]];
      rewrite E in Hnew; try discriminate.
    injection Hnew as <-. split; reflexivity. }
  clear Hnew. revert a H0.
  induction n as [|n IH]; intros a [Hr Hf]; [exact Hf|].
  destruct (update_without_count a Hr) as [Hr' Hf'].
  simpl. unfold bind.
  destruct (Animation.update a) as [[[]|e] a'] eqn:E; simpl in *.
  - apply IH. split; congruence.
  - congruence.
Qed.

(** C4.  When the number of files the pattern matches differs from the
    number of durations, [Animation(...)] raises [ValueError] and yields no
    object; the object [__init__] was working on has no [frames],
    [frame_count], [frame_index] or [frames_until_next] attribute. *)
Theorem Animation_length_mismatch
    (p : string) (fd : list Z) (r : option Z) :
  length (glob p) <> length fd ->
  Animation.new p fd r = Raise ValueError /\
  exists a : Animation.t,
    Animation.__init__ p fd r = (Raise ValueError, a) /\
    Animation.frames a = None /\
    Animation.frame_count a = None /\
    Animation.frame_index a = None /\
    Animation.frames_until_next a = None.
Proof.
  intros Hne.
  assert (E : Animation.__init__ p fd r =
              (Raise ValueError, Animation.before_load p fd r)).
  { unfold Animation.__init__, Animation.load.
    destruct (Nat.eqb_spec (length (glob p)) (length fd)); [contradiction|].
    reflexivity. }
  split.
  - unfold Animation.new. rewrite E. reflexivity.
  - exists (Animation.before_load p fd r). repeat split; try reflexivity.
    exact E.
Qed.

Lemma exec_all_inv (os : list Animation.op) :
  forall a : Animation.t,
    Animation.inv a ->
    Forall Animation.loads_something os ->
    Animation.inv (Animation.exec_all os a).
Proof.
  induction os as [|o os IH]; intros a Ha Hos; [exact Ha|].
  inversion Hos as [|? ? Ho Hos']; subst. simpl. apply IH; [|exact Hos'].
  destruct o as [| |p fd]; simpl.
  - destruct (update_inv a Ha) as (a' & E & Ha' & _). rewrite E. exact Ha'.
  - destruct (reset_inv a Ha) as (a' & E & Ha'). rewrite E. exact Ha'.
  - exact (load_inv p fd a Ha Ho).
Qed.

(** C6, amended.  After a construction that succeeded and any sequence of
    [update], [reset] and [load] calls that follows it, returning or
    raising, in which no [load] has both no file and no duration to load,
    [frame_index] is a position of [frames], and [get_surface] returns the
    image at that position. *)
Theorem Animation_frame_index_in_range
    (p : string) (fd : list Z) (r : option Z) (a : Animation.t)
    (os : list Animation.op) :
  Animation.new p fd r = Ret a ->
  Forall Animation.loads_something os ->
  exists (fs : list (Surface * Z)) (i : Z) (fr : Surface * Z),
    Animation.frames (Animation.exec_all os a) = Some fs /\
    Animation.frame_index (Animation.exec_all os a) = Some i /\
    0 <= i < Z.of_nat (length fs) /\
    fs !! Z.to_nat i = Some fr /\
    Animation.get_surface (Animation.exec_all os a) =
      (Ret fr.1, Animation.exec_all os a).
Proof.
  intros Hnew Hos.
  pose proof (exec_all_inv os a (new_inv _ _ _ _ Hnew) Hos) as Hinv.
  destruct (get_surface_inv _ Hinv) as (fs & i & fr & Hf & Hi & L & G).
  exists fs, i, fr. repeat split; try assumption.
  - destruct Hinv as (fs' & i' & n' & Hf' & _ & Hi' & _ & Hr). 
    rewrite Hf in Hf'. rewrite Hi in Hi'.
    injection Hf' as <-. injection Hi' as <-. lia.
  - destruct Hinv as (fs' & i' & n' & Hf' & _ & Hi' & _ & Hr). 
    rewrite Hf in Hf'. rewrite Hi in Hi'.
    injection Hf' as <-. injection Hi' as <-. lia.
Qed.

(** C7.  On an animation that has a first frame, [reset] returns normally
    with [frame_index = 0] and [frames_until_next] the duration of that
    frame, and every other attribute, [finished] and [repititions] among
    them, as it was. *)
Theorem Animation_reset_rewinds
    (a : Animation.t) (img : Surface) (d : Z) (rest : list (Surface * Z)) :
  Animation.frames a = Some ((img, d) :: rest) ->
  Animation.reset a =
    (Ret tt,
     Animation.mk (Animation.glob_path a) (Animation.frame_data a)
       (Animation.repititions a) (Animation.finished a)
       (Animation.frames a) (Animation.frame_count a)
       (Some 0) (Some d)).
Proof.
  intros Hf. unfold Animation.reset. run_method. rewrite Hf.
  destruct (py_getitem_in_range ((img, d) :: rest) 0) as (fr & L & G).
  { simpl length. lia. }
  simpl in L. injection L as <-. rewrite G.
  unfold Animation.set_frames_until_next, Animation.set_frame_index. simpl.
  rewrite Hf. reflexivity.
Qed.

End AnimationTheorems.

(** ** Button *)

Section ButtonTheorems.
Context {H : Host}.

Lemma request_accepted {X : Type} (c : draw_cmd) (x : X) (screen : Canvas) :
  accepted c = Ret tt ->
  request c (x, screen) = (Ret tt, (x, screen ++ [c])).
Proof.
  intros E. unfold request, bind, lift, modify. rewrite E. reflexivity.
Qed.

Lemma request_raises {X : Type} (c : draw_cmd) (x : X) (screen : Canvas)
    (e : exn) :
  accepted c = Raise e ->
  request c (x, screen) = (Raise e, (x, screen)).
Proof.
  intros E. unfold request, bind, lift, modify. rewrite E. reflexivity.
Qed.

Lemma request_cases {X : Type} (c : draw_cmd) (x : X) (screen : Canvas) :
  exists (o : outcome unit) (cmds : list draw_cmd),
    request c (x, screen) = (o, (x, screen ++ cmds)) /\
    Forall (fun c => accepted c = Ret tt) cmds.
Proof.
  destruct (accepted c) as [[]|e] eqn:E.
  - exists (Ret tt), [c]. split; [apply request_accepted, E|].
    constructor; [exact E|constructor].
  - exists (Raise e), []. rewrite app_nil_r.
    split; [apply request_raises, E|constructor].
Qed.

(** Once the toolkit has carried out the fill, [clicked] is cleared
    whatever the rest of [draw] does. *)
Lemma draw_started (b : Button.t) (screen : Canvas) (ov : option bool) :
  accepted (Button.fill b ov) = Ret tt ->
  exists (o : outcome unit) (cmds : list draw_cmd),
    Button.draw ov (b, screen) =
      (o, (Button.set_clicked false b, screen ++ Button.fill b ov :: cmds)).
Proof.
  intros E. unfold Button.draw. unfold bind at 1, get at 1. cbv beta iota.
  unfold bind at 1. change (DrawRect _ _ _ _) with (Button.fill b ov) at 1.
  rewrite (request_accepted _ _ _ E).
  unfold bind, get, modify, ret, lift. simpl.
  set (b0 := Button.set_clicked false b).
  set (s0 := screen ++ [Button.fill b ov]).
  assert (Hs : forall cmds, s0 ++ cmds = screen ++ Button.fill b ov :: cmds).
  { intros cmds. unfold s0. rewrite <- app_assoc. reflexivity. }
  assert (Htext : forall cmds1 : list draw_cmd,
            exists (o : outcome unit) (cmds : list draw_cmd),
              match
                render (Button.font b) (Button.text b) (Button.font_color b)
              with
              | Ret size =>
                  request
                    (Blit (Button.text b) (Button.font b) (Button.font_color b)
                       (inject_Z (rect_center (Button.rect b)).1
                          - inject_Z size.1 / 2,
                        inject_Z (rect_center (Button.rect b)).2
                          - inject_Z size.2 / 2)%Q)
                    (b0, s0 ++ cmds1)
              | Raise e => (Raise e, (b0, s0 ++ cmds1))
              end = (o, (b0, screen ++ Button.fill b ov :: cmds))).
  { intros cmds1.
    destruct (render (Button.font b) (Button.text b) (Button.font_color b))
      as [size|e2].
    - match goal with
      | |- context [request ?c (b0, s0 ++ cmds1)] =>
          destruct (request_cases c b0 (s0 ++ cmds1)) as (o3 & cmds3 & E3 & _)
      end.
      exists o3, (cmds1 ++ cmds3). unfold Canvas in *.
      rewrite E3, <- app_assoc, Hs. reflexivity.
    - exists (Raise e2), cmds1. rewrite Hs. reflexivity. }
  destruct (0 <? Button.border_size b).
  - match goal with
    | |- context [request ?c (b0, s0)] =>
        destruct (request_cases c b0 s0) as (o1 & cmds1 & E1 & _)
    end.
    rewrite E1. destruct o1 as [[]|e1].
    + apply Htext.
    + exists (Raise e1), cmds1. rewrite Hs. reflexivity.
  - specialize (Htext []). rewrite app_nil_r in Htext. exact Htext.
Qed.

(** When the toolkit raises on the fill, [draw] has changed nothing. *)
Lemma draw_refused (b : Button.t) (screen : Canvas) (ov : option bool)
    (e : exn) :
  accepted (Button.fill b ov) = Raise e ->
  Button.draw ov (b, screen) = (Raise e, (b, screen)).
Proof.
  intros E. unfold Button.draw. unfold bind at 1, get at 1. cbv beta iota.
  unfold bind at 1. change (DrawRect _ _ _ _) with (Button.fill b ov) at 1.
  rewrite (request_raises _ _ _ _ E). reflexivity.
Qed.

(** A [draw] the toolkit carries out in full. *)
Lemma button_draw_cmds (b : Button.t) (screen : Canvas) (ov : option bool) :
  Button.drawable b ov ->
  Button.draw ov (b, screen) =
    (Ret tt, (Button.set_clicked false b, screen ++ Button.draw_cmds b ov)).
Proof.
  intros [[size Hsize] Hall].
  unfold Button.draw_cmds, Button.text_size in *. rewrite Hsize in *.
  apply Forall_app in Hall as [Hfill Hall].
  apply Forall_app in Hall as [Hborder Htext].
  rewrite Forall_singleton in Hfill. rewrite Forall_singleton in Htext.
  unfold Button.draw. unfold bind at 1, get at 1. cbv beta iota.
  unfold bind at 1. change (DrawRect _ _ _ _) with (Button.fill b ov) at 1.
  rewrite (request_accepted _ _ _ Hfill).
  unfold bind, get, modify, ret, lift. simpl. unfold Canvas in *.
  destruct (0 <? Button.border_size b).
  - rewrite Forall_singleton in Hborder.
    rewrite (request_accepted _ _ _ Hborder). simpl. rewrite Hsize.
    rewrite (request_accepted _ _ _ Htext), <- !app_assoc. reflexivity.
  - simpl. rewrite Hsize, (request_accepted _ _ _ Htext), <- !app_assoc.
    reflexivity.
Qed.

Lemma call_effect (b b1 : Button.t) (w w1 : World) :
  Button.__call__ (b, w) = (Ret tt, (b1, w1)) ->
  b1 = Button.set_clicked true b /\ w1 = Button.world_after b w.
Proof.
  unfold Button.__call__, Button.world_after, Button.run_action,
    bind, get, modify, ret. simpl.
  destruct (Button.action b) as [f|]; simpl.
  - destruct (f w) as [[[]|e] w']; simpl; [|discriminate].
    intros [= <- <-]. split; reflexivity.
  - intros [= <- <-]. split; reflexivity.
Qed.

(** C8, amended.  When an activation of a button returns, its [clicked]
    flag is true.  [draw] asks for its fill in the colour chosen from the
    flag as it finds it.  When the toolkit carries the fill out, the flag is
    false after the call, whether the rest of [draw] returns or raises;
    when the toolkit raises on the fill, [draw] raises with the button and
    the target as they were, the flag included; when the toolkit carries out
    every request, [draw] returns.  So the draw that follows an activation
    fills with [clicked_color], if the toolkit takes that colour, and
    clears the flag, and the draw after that one fills with the highlight
    or the plain colour again. *)
Theorem Button_clicked_lasts_one_draw
    (b b1 : Button.t) (w w1 : World) (screen screen' : Canvas)
    (ov ov' : option bool) :
  Button.__call__ (b, w) = (Ret tt, (b1, w1)) ->
  Button.clicked b1 = true /\
  (forall (b' : Button.t) (s : Canvas) (o : option bool),
     accepted (DrawRect (Button.fill_color b' o) (Button.rect b')
                 (Button.rect_line_width b') (Button.border_radius b')) =
       Ret tt ->
     exists (out : outcome unit) (cmds : list draw_cmd),
       Button.draw o (b', s) =
         (out,
          (Button.set_clicked false b',
           s ++ DrawRect (Button.fill_color b' o) (Button.rect b')
                  (Button.rect_line_width b') (Button.border_radius b')
                :: cmds))) /\
  (forall (b' : Button.t) (s : Canvas) (o : option bool) (e : exn),
     accepted (DrawRect (Button.fill_color b' o) (Button.rect b')
                 (Button.rect_line_width b') (Button.border_radius b')) =
       Raise e ->
     Button.draw o (b', s) = (Raise e, (b', s))) /\
  (forall (b' : Button.t) (s : Canvas) (o : option bool),
     Button.drawable b' o ->
     Button.draw o (b', s) =
       (Ret tt, (Button.set_clicked false b', s ++ Button.draw_cmds b' o))) /\
  (accepted (DrawRect (Button.clicked_color b) (Button.rect b)
               (Button.rect_line_width b) (Button.border_radius b)) = Ret tt ->
   exists (out : outcome unit) (b2 : Button.t) (cmds : list draw_cmd),
     Button.draw ov (b1, screen) =
       (out,
        (b2, screen ++ DrawRect (Button.clicked_color b) (Button.rect b)
                         (Button.rect_line_width b) (Button.border_radius b)
                       :: cmds)) /\
     Button.clicked b2 = false /\
     (accepted (DrawRect
                  (if (bool_decide (ov' = None) && Button.highlight b)
                      || match ov' with Some v => v | None => false end
                   then Button.highlight_color b
                   else Button.rect_color b)
                  (Button.rect b)
                  (Button.rect_line_width b) (Button.border_radius b)) =
        Ret tt ->
      exists (out' : outcome unit) (b3 : Button.t) (cmds' : list draw_cmd),
        Button.draw ov' (b2, screen') =
          (out',
           (b3, screen' ++ DrawRect
                             (if (bool_decide (ov' = None) && Button.highlight b)
                                 || match ov' with
                                    | Some v => v
                                    | None => false
                                    end
                              then Button.highlight_color b
                              else Button.rect_color b)
                             (Button.rect b)
                             (Button.rect_line_width b) (Button.border_radius b)
                           :: cmds')) /\
        Button.clicked b3 = false)).
Proof.
  intros E. destruct (call_effect _ _ _ _ E) as [-> _].
  split; [reflexivity|].
  split; [intros b' s o A; exact (draw_started b' s o A)|].
  split; [intros b' s o e A; exact (draw_refused b' s o e A)|].
  split; [intros b' s o A; exact (button_draw_cmds b' s o A)|].
  intros A1.
  destruct (draw_started (Button.set_clicked true b) screen ov A1)
    as (out & cmds & D1).
  exists out, (Button.set_clicked false (Button.set_clicked true b)), cmds.
  split; [exact D1|]. split; [reflexivity|].
  intros A2.
  destruct (draw_started (Button.set_clicked false (Button.set_clicked true b))
              screen' ov' A2) as (out' & cmds' & D2).
  exists out',
    (Button.set_clicked false
       (Button.set_clicked false (Button.set_clicked true b))), cmds'.
  split; [exact D2|]. reflexivity.
Qed.

End ButtonTheorems.

(** ** MenuScreen *)

Section MenuProperties.
Context {H : Host}.

Lemma call_returns (b : Button.t) (w : World) :
  Button.callback_returns b ->
  Button.__call__ (b, w) =
    (Ret tt, (Button.set_clicked true b, Button.world_after b w)).
Proof.
  unfold Button.callback_returns, Button.__call__, Button.world_after,
    Button.run_action, bind, get, modify, ret. simpl.
  destruct (Button.action b) as [f|]; simpl; [|reflexivity].
  intros Hf. specialize (Hf w). destruct (f w) as [[[]|e] w']; simpl in *;
    [reflexivity|discriminate].
Qed.

Lemma call_button_at (m : MenuScreen.t) (w : World) (k : nat) (b : Button.t) :
  MenuScreen.buttons m !! k = Some b ->
  Button.callback_returns b ->
  MenuScreen.call_button k (m, w) =
    (Ret tt,
     (MenuScreen.set_buttons
        (<[k := Button.set_clicked true b]> (MenuScreen.buttons m)) m,
      Button.world_after b w)).
Proof.
  intros L Hb. unfold MenuScreen.call_button. rewrite L, (call_returns b w Hb).
  reflexivity.
Qed.

Lemma last_hits_cons (i : nat) (ks : list nat) (d : Z) :
  match last (i :: ks) with Some k => Z.of_nat k | None => d end =
  match last ks with Some k => Z.of_nat k | None => Z.of_nat i end.
Proof.
  destruct ks as [|n ks]; [reflexivity|]. rewrite last_cons_cons.
  destruct (last (n :: ks)) eqn:E; [reflexivity|].
  apply last_None in E. discriminate.
Qed.

Lemma click_loop_effect (mouse_pos : Point.t) (todo : list Button.t) :
  forall (done : list Button.t) (m : MenuScreen.t) (w : World),
    MenuScreen.buttons m = done ++ todo ->
    Forall Button.callback_returns todo ->
    MenuScreen.click_loop mouse_pos (length done) todo (m, w) =
      (Ret tt,
       (MenuScreen.mk (MenuScreen.base m)
          (done ++ map (MenuScreen.pressed mouse_pos) todo)
          (match last (MenuScreen.hits_from mouse_pos (length done) todo) with
           | Some k => Z.of_nat k
           | None => MenuScreen.button_index m
           end),
        MenuScreen.world_pressed mouse_pos todo w)).
Proof.
  induction todo as [|b rest IH]; intros done m w Hm Hcb.
  - simpl. destruct m as [g bs i]. simpl in *. subst bs.
    rewrite !app_nil_r. reflexivity.
  - inversion Hcb as [|? ? Hb Hrest]; subst.
    assert (Hlen : forall x : Button.t, S (length done) = length (done ++ [x])).
    { intros x. rewrite length_app. simpl. lia. }
    simpl MenuScreen.click_loop. simpl MenuScreen.hits_from.
    unfold MenuScreen.world_pressed, MenuScreen.pressed. simpl map.
    rewrite filter_cons.
    destruct (collidepoint (Button.rect b) mouse_pos) eqn:Hit.
    + destruct (decide (true = true)) as [_|N]; [|contradiction].
      simpl fold_left. rewrite last_hits_cons.
      unfold bind at 1. unfold bind at 1.
      unfold MenuScreen.update_self at 1, modify at 1.
      rewrite (call_button_at _ w (length done) b).
      2:{ simpl. rewrite Hm. apply list_lookup_middle. reflexivity. }
      2:{ exact Hb. }
      simpl MenuScreen.buttons. rewrite Hm.
      rewrite insert_app_r_alt by lia. rewrite Nat.sub_diag. simpl insert.
      rewrite (Hlen (Button.set_clicked true b)).
      rewrite IH; [|simpl; rewrite <- app_assoc; reflexivity|exact Hrest].
      simpl. rewrite <- app_assoc. reflexivity.
    + destruct (decide (false = true)) as [N|_]; [discriminate|].
      unfold bind at 1. unfold ret at 1.
      rewrite (Hlen b).
      rewrite IH; [|rewrite Hm, <- app_assoc; reflexivity|exact Hrest].
      simpl. rewrite <- app_assoc. rewrite length_app. simpl.
      reflexivity.
Qed.

(** The two directions of key navigation, for any list of buttons. *)
Lemma key_down_previous (m : MenuScreen.t) (w : World) (key : Key) :
  key = K_UP \/ key = K_LEFT ->
  MenuScreen.key_down key (m, w) =
    (Ret tt,
     (MenuScreen.set_button_index
        (if MenuScreen.button_index m - 1 <? 0
         then Z.of_nat (length (MenuScreen.buttons m)) - 1
         else MenuScreen.button_index m - 1) m,
      w)).
Proof.
  intros [-> | ->]; unfold MenuScreen.key_down; simpl;
    unfold bind, MenuScreen.update_self, MenuScreen.self, modify, ret; simpl;
    destruct (MenuScreen.button_index m - 1 <? 0); reflexivity.
Qed.

Lemma key_down_next (m : MenuScreen.t) (w : World) (key : Key) :
  key = K_DOWN \/ key = K_RIGHT ->
  MenuScreen.buttons m <> [] ->
  MenuScreen.key_down key (m, w) =
    (Ret tt,
     (MenuScreen.set_button_index
        (if Z.of_nat (length (MenuScreen.buttons m)) <=? MenuScreen.button_index m + 1
         then (MenuScreen.button_index m + 1) mod Z.of_nat (length (MenuScreen.buttons m))
         else MenuScreen.button_index m + 1) m,
      w)).
Proof.
  intros Hk Hne.
  assert (Hlen : (Z.of_nat (length (MenuScreen.buttons m)) =? 0) = false).
  { apply Z.eqb_neq. destruct (MenuScreen.buttons m); [contradiction|].
    simpl length. lia. }
  destruct Hk as [-> | ->]; unfold MenuScreen.key_down; simpl;
    unfold bind, MenuScreen.update_self, MenuScreen.self, modify, ret, lift,
      py_mod; simpl;
    destruct (Z.of_nat (length (MenuScreen.buttons m))
                <=? MenuScreen.button_index m + 1); try reflexivity;
    rewrite Hlen; reflexivity.
Qed.

Lemma key_down_confirm (m : MenuScreen.t) (w : World) (key : Key) (k : nat) :
  key = K_RETURN \/ key = K_SPACE ->
  py_index (length (MenuScreen.buttons m)) (MenuScreen.button_index m) = Ret k ->
  MenuScreen.key_down key (m, w) = MenuScreen.call_button k (m, w).
Proof.
  intros Hk Hi.
  destruct Hk as [-> | ->]; unfold MenuScreen.key_down; simpl;
    unfold bind, MenuScreen.self, lift; simpl; rewrite Hi; reflexivity.
Qed.

Lemma key_down_ready (m : MenuScreen.t) (w : World) (key : Key) :
  menu_ready m ->
  exists (m' : MenuScreen.t) (w' : World),
    MenuScreen.key_down key (m, w) = (Ret tt, (m', w')) /\
    menu_ready m' /\
    length (MenuScreen.buttons m') = length (MenuScreen.buttons m).
Proof.
  intros (Hne & Hi & Hcb).
  assert (Hnav : forall i : Z,
             0 <= i < Z.of_nat (length (MenuScreen.buttons m)) ->
             menu_ready (MenuScreen.set_button_index i m)).
  { intros i Hr. repeat split; simpl; try assumption; lia. }
  assert (Hprev : key = K_UP \/ key = K_LEFT ->
    exists m' w', MenuScreen.key_down key (m, w) = (Ret tt, (m', w')) /\
      menu_ready m' /\
      length (MenuScreen.buttons m') = length (MenuScreen.buttons m)).
  { intros Hk. rewrite (key_down_previous m w key Hk).
    eexists _, _. split; [reflexivity|]. split; [|reflexivity].
    apply Hnav. destruct (Z.ltb_spec (MenuScreen.button_index m - 1) 0); lia. }
  assert (Hnext : key = K_DOWN \/ key = K_RIGHT ->
    exists m' w', MenuScreen.key_down key (m, w) = (Ret tt, (m', w')) /\
      menu_ready m' /\
      length (MenuScreen.buttons m') = length (MenuScreen.buttons m)).
  { intros Hk. rewrite (key_down_next m w key Hk Hne).
    eexists _, _. split; [reflexivity|]. split; [|reflexivity].
    apply Hnav.
    destruct (Z.leb_spec (Z.of_nat (length (MenuScreen.buttons m)))
                (MenuScreen.button_index m + 1)); [|lia].
    apply Z.mod_pos_bound. lia. }
  assert (Hconf : key = K_RETURN \/ key = K_SPACE ->
    exists m' w', MenuScreen.key_down key (m, w) = (Ret tt, (m', w')) /\
      menu_ready m' /\
      length (MenuScreen.buttons m') = length (MenuScreen.buttons m)).
  { intros Hk.
    rewrite (key_down_confirm m w key _ Hk (py_index_in_range _ _ Hi)).
    destruct (lookup_lt_is_Some_2 (MenuScreen.buttons m)
                (Z.to_nat (MenuScreen.button_index m))) as [b Hb]; [lia|].
    assert (Hcbb : Button.callback_returns b).
    { rewrite Forall_lookup in Hcb. exact (Hcb _ _ Hb). }
    rewrite (call_button_at m w _ b Hb Hcbb).
    eexists _, _. split; [reflexivity|]. simpl.
    split; [|apply length_insert].
    repeat split; simpl.
    - intros E. apply (f_equal length) in E. rewrite length_insert in E.
      destruct (MenuScreen.buttons m); [contradiction|discriminate].
    - lia.
    - rewrite length_insert. lia.
    - apply Forall_insert; [exact Hcb|exact Hcbb]. }
  destruct key; auto.
  exists m, w. split; [reflexivity|]. split; [|reflexivity].
  exact (conj Hne (conj Hi Hcb)).
Qed.

Lemma key_downs_ready (keys : list Key) :
  forall (m : MenuScreen.t) (w : World),
    menu_ready m ->
    exists (m' : MenuScreen.t) (w' : World),
      MenuScreen.key_downs keys (m, w) = (Ret tt, (m', w')) /\
      menu_ready m' /\
      length (MenuScreen.buttons m') = length (MenuScreen.buttons m).
Proof.
  induction keys as [|key keys IH]; intros m w Hm.
  - exists m, w. repeat split; try reflexivity; apply Hm.
  - destruct (key_down_ready m w key Hm) as (m1 & w1 & E1 & Hm1 & L1).
    destruct (IH m1 w1 Hm1) as (m2 & w2 & E2 & Hm2 & L2).
    exists m2, w2. simpl. unfold bind. rewrite E1.
    split; [exact E2|]. split; [exact Hm2|]. congruence.
Qed.

End MenuProperties.

Section MenuTheorems.
Context {H : Host}.

(** C3, amended.  On a press of the primary button, with callbacks that
    return, every button whose rect contains the pointer is activated once,
    in list order, and [button_index] ends as the position of the last of
    them in list order (it keeps its value when no button is hit); no other
    button changes. *)
Theorem Menu_click_activates_every_hit
    (m : MenuScreen.t) (w : World) (pos : Z * Z) (mouse_pos : Point.t) :
  MenuScreen.resolve_mouse_pos m pos = Ret mouse_pos ->
  Forall Button.callback_returns (MenuScreen.buttons m) ->
  MenuScreen.mouse_button_down 1 pos (m, w) =
    (Ret tt,
     (MenuScreen.mk (MenuScreen.base m)
        (map (MenuScreen.pressed mouse_pos) (MenuScreen.buttons m))
        (match last (MenuScreen.hits_from mouse_pos 0 (MenuScreen.buttons m)) with
         | Some k => Z.of_nat k
         | None => MenuScreen.button_index m
         end),
      MenuScreen.world_pressed mouse_pos (MenuScreen.buttons m) w)).
Proof.
  intros Hpos Hcb.
  unfold MenuScreen.mouse_button_down. simpl.
  unfold bind, MenuScreen.self, lift. simpl. rewrite Hpos.
  exact (click_loop_effect mouse_pos (MenuScreen.buttons m) [] m w eq_refl Hcb).
Qed.

(** C9.  With a non-empty list of buttons, up or left at index 0 moves to
    the last index, and down or right at the last index moves to 0;
    nothing else changes. *)
Theorem Menu_navigation_wraps (m : MenuScreen.t) (w : World) (key : Key) :
  MenuScreen.buttons m <> [] ->
  (key = K_UP \/ key = K_LEFT ->
   MenuScreen.button_index m = 0 ->
   MenuScreen.key_down key (m, w) =
     (Ret tt,
      (MenuScreen.set_button_index
         (Z.of_nat (length (MenuScreen.buttons m)) - 1) m, w))) /\
  (key = K_DOWN \/ key = K_RIGHT ->
   MenuScreen.button_index m = Z.of_nat (length (MenuScreen.buttons m)) - 1 ->
   MenuScreen.key_down key (m, w) =
     (Ret tt, (MenuScreen.set_button_index 0 m, w))).
Proof.
  intros Hne. split; intros Hk Hi.
  - rewrite (key_down_previous m w key Hk), Hi. reflexivity.
  - rewrite (key_down_next m w key Hk Hne), Hi.
    replace (Z.of_nat (length (MenuScreen.buttons m)) - 1 + 1)
      with (Z.of_nat (length (MenuScreen.buttons m))) by lia.
    rewrite Z.leb_refl, Z_mod_same_full. reflexivity.
Qed.

(** C10, amended.  A menu as its constructor leaves it has no buttons and
    index 0; on it down and right raise [ZeroDivisionError] and return and
    space raise [IndexError].  Once a non-empty list of buttons whose
    callbacks return is installed on it, every sequence of key presses is
    handled without a raise and leaves [button_index] a position of the
    list; more generally a key press on any menu with buttons, an index
    that is a position of the list and callbacks that return, returns and
    keeps all three.  Buttons alone are not enough: the index has to be in
    range as well. *)
Theorem Menu_key_down_needs_buttons
    (screen : Surface) (real_window_size : Point.t)
    (window_size : option Point.t) (frame_rate : Z) (m0 : MenuScreen.t) :
  MenuScreen.__init__ screen real_window_size window_size frame_rate = Ret m0 ->
  (MenuScreen.buttons m0 = [] /\ MenuScreen.button_index m0 = 0) /\
  (forall (w : World) (key : Key),
     (key = K_DOWN \/ key = K_RIGHT ->
      MenuScreen.key_down key (m0, w) =
        (Raise ZeroDivisionError, (MenuScreen.set_button_index 1 m0, w))) /\
     (key = K_RETURN \/ key = K_SPACE ->
      MenuScreen.key_down key (m0, w) = (Raise IndexError, (m0, w)))) /\
  (forall (bs : list Button.t) (keys : list Key) (w : World),
     bs <> [] ->
     Forall Button.callback_returns bs ->
     exists (m' : MenuScreen.t) (w' : World),
       MenuScreen.key_downs keys (MenuScreen.set_buttons bs m0, w) =
         (Ret tt, (m', w')) /\
       length (MenuScreen.buttons m') = length bs /\
       0 <= MenuScreen.button_index m' < Z.of_nat (length bs)) /\
  (forall (m : MenuScreen.t) (w : World) (key : Key),
     menu_ready m ->
     exists (m' : MenuScreen.t) (w' : World),
       MenuScreen.key_down key (m, w) = (Ret tt, (m', w')) /\
       menu_ready m').
Proof.
  intros Hinit.
  assert (Hm0 : MenuScreen.buttons m0 = [] /\ MenuScreen.button_index m0 = 0).
  { unfold MenuScreen.__init__ in Hinit.
    destruct (GameScreen.__init__ _ _ _ _) as [g|e]; simpl in Hinit;
      [|discriminate].
    injection Hinit as <-. split; reflexivity. }
  destruct Hm0 as [Hb Hi].
  split; [split; assumption|].
  split.
  { intros w key. split; intros [-> | ->]; unfold MenuScreen.key_down; simpl;
      unfold bind, MenuScreen.update_self, MenuScreen.self, modify, ret, lift;
      simpl; rewrite Hb, Hi; reflexivity. }
  split.
  { intros bs keys w Hne Hcb.
    destruct (key_downs_ready keys (MenuScreen.set_buttons bs m0) w)
      as (m' & w' & E & (_ & Hr & _) & L).
    { split; [exact Hne|]. split; [|exact Hcb]. simpl. rewrite Hi.
      destruct bs; [contradiction|]. simpl length. lia. }
    exists m', w'. simpl in L. rewrite L in Hr.
    split; [exact E|]. split; [exact L|exact Hr]. }
  intros m w key Hm.
  destruct (key_down_ready m w key Hm) as (m' & w' & E & Hm' & _).
  exists m', w'. split; assumption.
Qed.

End MenuTheorems.

(** ** The properties on the example host *)

Lemma demo_callbacks_return (tag : nat) (r : Demo.rect) :
  Button.callback_returns (H := Demo.host) (Demo.button tag r).
Proof. intros w. reflexivity. Qed.

(** The frame shown before each of the first ten updates of a [2, 3, 4]
    animation. *)
Lemma demo_paintable (tag : nat) (r : Demo.rect) :
  Button.paintable (H := Demo.host) (Demo.button tag r).
Proof.
  intros v ov. split; [eexists; reflexivity|].
  destruct v, ov as [[]|]; repeat constructor.
Qed.

Example demo_frame_indices :
  map (fun n => Animation.frame_index
                  (Animation.updates (H := Demo.host) n Demo.animation).2)
      (seq 0 10) =
  map Some [0; 0; 1; 1; 1; 2; 2; 2; 2; 0].
Proof. reflexivity. Qed.

(** A button drawn right after its activation, then once more. *)
Example demo_draw_after_click :
  (Button.draw (H := Demo.host) None
     (Button.set_clicked true (Demo.button 0 (0, 0, 10, 10)), [])).2 =
    (Demo.button 0 (0, 0, 10, 10),
     [DrawRect (H := Demo.host) (100, 100, 100) (0, 0, 10, 10) 0 0;
      Blit (H := Demo.host) "button" tt (0, 0, 0)
        (inject_Z 5 - inject_Z 48 / 2, inject_Z 5 - inject_Z 16 / 2)%Q]) /\
  (Button.draw (H := Demo.host) None (Demo.button 0 (0, 0, 10, 10), [])).2 =
    (Demo.button 0 (0, 0, 10, 10),
     [DrawRect (H := Demo.host) (255, 255, 255) (0, 0, 10, 10) 0 0;
      Blit (H := Demo.host) "button" tt (0, 0, 0)
        (inject_Z 5 - inject_Z 48 / 2, inject_Z 5 - inject_Z 16 / 2)%Q]).
Proof. split; reflexivity. Qed.

Lemma Animation_two_repetitions_witness :
  glob (Host := Demo.host) "frames/*" =
    ["frames/0.png"; "frames/1.png"; "frames/2.png"] /\
  exists a0 a9 a18 : Animation.t (H := Demo.host),
    Animation.new "frames/*" [2; 3; 4] (Some 2) = Ret a0 /\
    Animation.updates 9 a0 = (Ret tt, a9) /\
    Animation.frame_index a9 = Some 0 /\
    Animation.repititions a9 = Some 1 /\
    Animation.updates 18 a0 = (Ret tt, a18) /\
    Animation.finished a18 = true /\
    Animation.updates 25 a0 = (Ret tt, a18).
Proof.
  split; [reflexivity|].
  destruct (Animation_two_repetitions (H := Demo.host) "frames/*"
              "frames/0.png" "frames/1.png" "frames/2.png"
              "frames/0.png" "frames/1.png" "frames/2.png"
              eq_refl eq_refl eq_refl eq_refl)
    as (a0 & a9 & a18 & E0 & E9 & I9 & R9 & _ & _ & E18 & _ & F18 & _ & _ & Ek).
  exists a0, a9, a18.
  repeat (split; [assumption|]). exact (Ek 7%nat).
Defined.

Lemma Animation_length_mismatch_witness :
  length (glob (Host := Demo.host) "frames/*") = 3%nat /\
  Animation.new (H := Demo.host) "frames/*" [2; 3] None = Raise ValueError.
Proof.
  split; [reflexivity|].
  apply (Animation_length_mismatch (H := Demo.host) "frames/*" [2; 3] None).
  discriminate.
Defined.

Lemma Animation_frame_index_in_range_witness :
  exists (fs : list (string * Z)) (i : Z) (fr : string * Z),
    Animation.frames
      (Animation.exec_all (H := Demo.host)
         [Animation.CallUpdate; Animation.CallUpdate; Animation.CallLoad "nothing/*" [1];
          Animation.CallReset; Animation.CallUpdate]
         Demo.animation) = Some fs /\
    Animation.frame_index
      (Animation.exec_all (H := Demo.host)
         [Animation.CallUpdate; Animation.CallUpdate; Animation.CallLoad "nothing/*" [1];
          Animation.CallReset; Animation.CallUpdate]
         Demo.animation) = Some i /\
    0 <= i < Z.of_nat (length fs) /\
    fs !! Z.to_nat i = Some fr.
Proof.
  destruct (Animation_frame_index_in_range (H := Demo.host)
              "frames/*" [2; 3; 4] None Demo.animation
              [Animation.CallUpdate; Animation.CallUpdate;
               Animation.CallLoad "nothing/*" [1];
               Animation.CallReset; Animation.CallUpdate])
    as (fs & i & fr & Hf & Hi & Hr & L & _).
  - reflexivity.
  - repeat constructor. intros [_ E]. discriminate E.
  - exists fs, i, fr. repeat split; try assumption; apply Hr.
Defined.

(** A [load] that matches no file, called with no durations, installs an
    empty [frames] and [frame_index = 0] before it raises [IndexError];
    [get_surface] then indexes out of range. *)
Lemma Animation_empty_load_breaks_index :
  Animation.new (H := Demo.host) "frames/*" [2; 3; 4] None = Ret Demo.animation /\
  Animation.load (H := Demo.host) "nothing/*" [] Demo.animation =
    (Raise IndexError,
     Animation.mk "frames/*" [2; 3; 4] None false
       (Some []) (Some 0) (Some 0) (Some 2)) /\
  Animation.frames
    (Animation.exec_all (H := Demo.host) [Animation.CallLoad "nothing/*" []]
       Demo.animation) = Some [] /\
  Animation.frame_index
    (Animation.exec_all (H := Demo.host) [Animation.CallLoad "nothing/*" []]
       Demo.animation) = Some 0 /\
  (Animation.get_surface (H := Demo.host)
     (Animation.exec_all [Animation.CallLoad "nothing/*" []] Demo.animation)).1 =
    Raise IndexError.
Proof. repeat split; reflexivity. Qed.

Lemma Animation_reset_rewinds_witness :
  Animation.reset (H := Demo.host) (Demo.spent 2 1) = (Ret tt, Demo.spent 0 2).
Proof.
  exact (Animation_reset_rewinds (H := Demo.host) (Demo.spent 2 1)
           "frames/0.png" 2 [("frames/1.png", 3); ("frames/2.png", 4)]
           eq_refl).
Defined.

Lemma Button_clicked_lasts_one_draw_witness :
  Button.__call__ (H := Demo.host) (Demo.button 7 (0, 0, 10, 10), []) =
    (Ret tt, (Button.set_clicked true (Demo.button 7 (0, 0, 10, 10)), [7%nat])) /\
  Button.clicked (Button.set_clicked true (Demo.button 7 (0, 0, 10, 10))) = true /\
  exists (out : outcome unit) (b2 : Button.t (H := Demo.host))
         (cmds : list (draw_cmd (H := Demo.host))),
    Button.draw None
      (Button.set_clicked true (Demo.button 7 (0, 0, 10, 10)), []) =
      (out, (b2, DrawRect (H := Demo.host) (100, 100, 100) (0, 0, 10, 10) 0 0 :: cmds)) /\
    Button.clicked b2 = false /\
    exists (out' : outcome unit) (b3 : Button.t (H := Demo.host))
           (cmds' : list (draw_cmd (H := Demo.host))),
      Button.draw None (b2, []) =
        (out', (b3, DrawRect (H := Demo.host) (255, 255, 255) (0, 0, 10, 10) 0 0 :: cmds')) /\
      Button.clicked b3 = false.
Proof.
  destruct (Button_clicked_lasts_one_draw (H := Demo.host)
              (Demo.button 7 (0, 0, 10, 10))
              (Button.set_clicked true (Demo.button 7 (0, 0, 10, 10)))
              [] [7%nat] [] [] None None eq_refl)
    as (Hc & _ & _ & _ & Hpulse).
  split; [reflexivity|]. split; [exact Hc|].
  destruct (Hpulse eq_refl) as (out & b2 & cmds & D1 & C1 & Hnext).
  destruct (Hnext eq_refl) as (out' & b3 & cmds' & D2 & C2).
  exists out, b2, cmds. split; [exact D1|]. split; [exact C1|].
  exists out', b3, cmds'. split; [exact D2|exact C2].
Defined.

(** A button whose [clicked_color] the toolkit does not read: the draw
    after an activation raises on its first request, and [clicked] is still
    true after it. *)
Lemma Button_rejected_fill_keeps_clicked :
  Button.__call__ (H := Demo.host) (Demo.garish 7 (0, 0, 10, 10), []) =
    (Ret tt, (Button.set_clicked true (Demo.garish 7 (0, 0, 10, 10)), [7%nat])) /\
  Button.draw (H := Demo.host) None
    (Button.set_clicked true (Demo.garish 7 (0, 0, 10, 10)), []) =
    (Raise ValueError,
     (Button.set_clicked true (Demo.garish 7 (0, 0, 10, 10)), [])) /\
  Button.clicked
    (Button.draw (H := Demo.host) None
       (Button.set_clicked true (Demo.garish 7 (0, 0, 10, 10)), [])).2.1 = true.
Proof. repeat split; reflexivity. Qed.

Lemma Menu_click_activates_every_hit_witness :
  MenuScreen.mouse_button_down (H := Demo.host) 1 (2, 22)
    (Demo.menu Demo.column 0, []) =
    (Ret tt,
     (Demo.menu
        [Demo.button 0 (0, 0, 10, 10);
         Button.set_clicked true (Demo.button 1 (0, 20, 10, 10));
         Demo.button 2 (0, 40, 10, 10)] 1,
      [1%nat])).
Proof.
  apply (Menu_click_activates_every_hit (H := Demo.host)
           (Demo.menu Demo.column 0) [] (2, 22) (Point.mk 2 22)).
  - reflexivity.
  - repeat constructor; apply demo_callbacks_return.
Defined.

(** A press at (7, 7) hits both overlapping buttons, the one at position 0
    first: both are activated, and [button_index] ends as 1. *)
Lemma Menu_click_overlap_last_wins :
  MenuScreen.hits_from (H := Demo.host) (Point.mk 7 7) 0 Demo.overlapping =
    [0%nat; 1%nat] /\
  MenuScreen.mouse_button_down (H := Demo.host) 1 (7, 7)
    (Demo.menu Demo.overlapping 0, []) =
    (Ret tt,
     (Demo.menu
        [Button.set_clicked true (Demo.button 0 (0, 0, 10, 10));
         Button.set_clicked true (Demo.button 1 (5, 5, 10, 10))] 1,
      [0%nat; 1%nat])) /\
  MenuScreen.button_index
    (MenuScreen.mouse_button_down (H := Demo.host) 1 (7, 7)
       (Demo.menu Demo.overlapping 0, [])).2.1 <> 0 /\
  (MenuScreen.mouse_button_down (H := Demo.host) 1 (7, 7)
     (Demo.menu Demo.overlapping 0, [])).2.2 <> [0%nat].
Proof. repeat split; try reflexivity; discriminate. Qed.

Lemma Menu_navigation_wraps_witness :
  MenuScreen.key_down (H := Demo.host) K_UP (Demo.menu Demo.column 0, []) =
    (Ret tt, (Demo.menu Demo.column 2, [])) /\
  MenuScreen.key_down (H := Demo.host) K_DOWN (Demo.menu Demo.column 2, []) =
    (Ret tt, (Demo.menu Demo.column 0, [])).
Proof.
  split.
  - apply (Menu_navigation_wraps (H := Demo.host)
             (Demo.menu Demo.column 0) [] K_UP).
    + discriminate.
    + left. reflexivity.
    + reflexivity.
  - apply (Menu_navigation_wraps (H := Demo.host)
             (Demo.menu Demo.column 2) [] K_DOWN).
    + discriminate.
    + left. reflexivity.
    + reflexivity.
Defined.

Lemma Menu_key_down_needs_buttons_witness :
  MenuScreen.__init__ (H := Demo.host) "display" (Point.mk 100 100) None 30 =
    Ret (Demo.menu [] 0) /\
  MenuScreen.key_down (H := Demo.host) K_DOWN (Demo.menu [] 0, []) =
    (Raise ZeroDivisionError, (Demo.menu [] 1, [])) /\
  MenuScreen.key_down (H := Demo.host) K_RETURN (Demo.menu [] 0, []) =
    (Raise IndexError, (Demo.menu [] 0, [])) /\
  exists (m' : MenuScreen.t) (w' : list nat),
    MenuScreen.key_downs (H := Demo.host) [K_UP; K_RETURN; K_DOWN; K_DOWN]
      (Demo.menu Demo.column 0, []) = (Ret tt, (m', w')) /\
    length (MenuScreen.buttons m') = 3%nat /\
    0 <= MenuScreen.button_index m' < 3.
Proof.
  destruct (Menu_key_down_needs_buttons (H := Demo.host)
              "display" (Point.mk 100 100) None 30 (Demo.menu [] 0) eq_refl)
    as (_ & Hempty & Hkeys & _).
  split; [reflexivity|].
  split; [apply (Hempty [] K_DOWN); left; reflexivity|].
  split; [apply (Hempty [] K_RETURN); left; reflexivity|].
  apply (Hkeys Demo.column [K_UP; K_RETURN; K_DOWN; K_DOWN] []).
  - discriminate.
  - repeat constructor; apply demo_callbacks_return.
Defined.

(** Buttons alone do not make [key_down] safe.  An up key on the menu as
    constructed returns and leaves the index at -1; with three buttons
    installed then, a confirm key returns, having activated the last
    button, and the index is still -1, not a position of the list.  With
    the index at 3 on the same three buttons the confirm key raises
    [IndexError]. *)
Lemma Menu_key_down_index_out_of_range :
  MenuScreen.key_down (H := Demo.host) K_UP (Demo.menu [] 0, []) =
    (Ret tt, (Demo.menu [] (-1), [])) /\
  MenuScreen.buttons (Demo.menu Demo.column (-1)) <> [] /\
  MenuScreen.key_down (H := Demo.host) K_RETURN
    (Demo.menu Demo.column (-1), []) =
    (Ret tt,
     (Demo.menu
        [Demo.button 0 (0, 0, 10, 10);
         Demo.button 1 (0, 20, 10, 10);
         Button.set_clicked true (Demo.button 2 (0, 40, 10, 10))] (-1),
      [2%nat])) /\
  ~ (0 <= MenuScreen.button_index
            (MenuScreen.key_down (H := Demo.host) K_RETURN
               (Demo.menu Demo.column (-1), [])).2.1
       < Z.of_nat (length Demo.column)) /\
  MenuScreen.key_down (H := Demo.host) K_RETURN
    (Demo.menu Demo.column 3, []) =
    (Raise IndexError, (Demo.menu Demo.column 3, [])).
Proof.
  split; [reflexivity|]. split; [discriminate|]. split; [reflexivity|].
  split; [|reflexivity]. simpl. lia.
Qed.

Lemma Animation_without_count_never_finishes_witness :
  Animation.finished
    (Animation.updates (H := Demo.host) 100 Demo.animation).2 = false.
Proof.
  exact (Animation_without_count_never_finishes (H := Demo.host)
           "frames/*" [2; 3; 4] Demo.animation 100 eq_refl).
Defined.

(** * Further properties *)

(** ** Activation and drawing of the two button classes *)

Section WidgetProperties.
Context {H : Host}.

(** X8.  When the callback of a [Button] or of a [ToggleButton] raises,
    the exception leaves the activation, the application state is as the
    callback left it, and the button is unchanged: [clicked] is not set and
    [toggled] is not flipped. *)
Theorem activation_with_raising_callback
    (f : M World unit) (w w' : World) (e : exn) :
  f w = (Raise e, w') ->
  (forall b : Button.t,
     Button.action b = Some f ->
     Button.__call__ (b, w) = (Raise e, (b, w'))) /\
  (forall b : ToggleButton.t,
     ToggleButton.action b = Some f ->
     ToggleButton.__call__ (b, w) = (Raise e, (b, w'))).
Proof.
  intros Hf. split; intros b Hb.
  - unfold Button.__call__, Button.run_action, bind, get. simpl.
    rewrite Hb. simpl. rewrite Hf. reflexivity.
  - unfold ToggleButton.__call__, ToggleButton.run_action, bind, get. simpl.
    rewrite Hb. simpl. rewrite Hf. reflexivity.
Qed.

Lemma toggle_call_returns (b : ToggleButton.t) (w : World) :
  ToggleButton.callback_returns b ->
  ToggleButton.__call__ (b, w) =
    (Ret tt,
     (ToggleButton.set_toggled (negb (ToggleButton.toggled b)) b,
      ToggleButton.world_after b w)).
Proof.
  unfold ToggleButton.callback_returns, ToggleButton.__call__,
    ToggleButton.world_after, ToggleButton.run_action, bind, get, modify, ret.
  simpl. destruct (ToggleButton.action b) as [f|]; simpl; [|reflexivity].
  intros Hf. specialize (Hf w). destruct (f w) as [[[]|e] w']; simpl in *;
    [reflexivity|discriminate].
Qed.

(** X9.  [n] activations of a [ToggleButton] whose callback returns run the
    callback [n] times and leave [toggled] flipped when [n] is odd and as
    it was when [n] is even; no other attribute changes. *)
Theorem ToggleButton_parity (n : nat) :
  forall (b : ToggleButton.t) (w : World),
    ToggleButton.callback_returns b ->
    ToggleButton.activations n (b, w) =
      (Ret tt,
       (ToggleButton.set_toggled
          (xorb (ToggleButton.toggled b) (Nat.odd n)) b,
        Nat.iter n (ToggleButton.world_after b) w)).
Proof.
  induction n as [|n IH]; intros b w Hb.
  - simpl. unfold ret. rewrite xorb_false_r. destruct b; reflexivity.
  - simpl ToggleButton.activations. unfold bind.
    rewrite (toggle_call_returns b w Hb).
    rewrite IH by exact Hb. rewrite Nat.iter_succ_r.
    rewrite Nat.odd_succ, <- Nat.negb_odd. simpl.
    unfold ToggleButton.set_toggled. simpl.
    destruct (ToggleButton.toggled b), (Nat.odd n); reflexivity.
Qed.

Lemma request_draws_only {X : Type} (c : draw_cmd) :
  draws_only (X := X) (request c).
Proof.
  intros x s. destruct (request_cases c x s) as (o & cmds & E & Hok).
  exists o, cmds. split; assumption.
Qed.

Lemma ret_draws_only {X A : Type} (a : A) : draws_only (X := X) (ret a).
Proof.
  intros x s. exists (Ret a), []. rewrite app_nil_r.
  split; [reflexivity|constructor].
Qed.

Lemma lift_draws_only {X A : Type} (o : outcome A) :
  draws_only (X := X) (lift o).
Proof.
  intros x s. exists o, []. rewrite app_nil_r.
  split; [reflexivity|constructor].
Qed.

Lemma bind_draws_only {X A B : Type} (c : M (X * Canvas) A)
    (k : A -> M (X * Canvas) B) :
  draws_only c -> (forall a : A, draws_only (k a)) -> draws_only (bind c k).
Proof.
  intros Hc Hk x s. destruct (Hc x s) as (o & cmds & E & Hok).
  unfold bind. rewrite E. destruct o as [a|e].
  - destruct (Hk a x (s ++ cmds)) as (o' & cmds' & E' & Hok').
    exists o', (cmds ++ cmds'). unfold Canvas in *.
    rewrite E', <- app_assoc. split; [reflexivity|].
    apply Forall_app. split; assumption.
  - exists (Raise e), cmds. split; [reflexivity|exact Hok].
Qed.

(** X10.  [ToggleButton.draw] never changes the button, whether it returns
    or raises, and the target grows only by requests the toolkit carried
    out: unlike [Button.draw] it resets no flag, so drawing a switch twice
    asks for the same things. *)
Theorem ToggleButton_draw_keeps_the_switch
    (b : ToggleButton.t) (screen : Canvas) (ov : option bool) :
  exists (out : outcome unit) (cmds : list draw_cmd),
    ToggleButton.draw ov (b, screen) = (out, (b, screen ++ cmds)) /\
    Forall (fun c => accepted c = Ret tt) cmds /\
    (accepted
       (DrawRect
          (if ToggleButton.highlighted b ov
           then (if ToggleButton.toggled b
                 then ToggleButton.on_highlight_color b
                 else ToggleButton.off_highlight_color b)
           else (if ToggleButton.toggled b
                 then ToggleButton.on_rect_color b
                 else ToggleButton.off_rect_color b))
          (ToggleButton.rect b) (ToggleButton.rect_line_width b)
          (ToggleButton.border_radius b)) <> Ret tt ->
     cmds = [] /\ out <> Ret tt).
Proof.
  assert (Hall : exists (out : outcome unit) (cmds : list draw_cmd),
            ToggleButton.draw ov (b, screen) = (out, (b, screen ++ cmds)) /\
            Forall (fun c => accepted c = Ret tt) cmds).
  { unfold ToggleButton.draw. unfold bind at 1, get at 1. cbv beta iota.
    destruct (ToggleButton.toggled (b, screen).1);
      refine (bind_draws_only _ _ _ _ b screen);
      try apply request_draws_only; intros _;
      (apply bind_draws_only;
       [destruct (0 <? _); [apply request_draws_only|apply ret_draws_only]|]);
      intros _; (apply bind_draws_only; [apply lift_draws_only|intros size]);
      apply request_draws_only. }
  destruct Hall as (out & cmds & E & Hok).
  exists out, cmds. split; [exact E|]. split; [exact Hok|].
  intros Hfill. revert E. unfold ToggleButton.draw.
  unfold bind at 1, get at 1. cbv beta iota.
  change ((b, screen).1) with b.
  destruct (ToggleButton.toggled b), (ToggleButton.highlighted b ov);
    unfold bind at 1;
    (match goal with
     | |- context [request ?c (b, screen)] =>
         destruct (accepted c) as [[]|e] eqn:Ec; [contradiction|];
         rewrite (request_raises c b screen e Ec)
     end);
    intros [= <- Hs]; (split; [|discriminate]);
    apply (f_equal length) in Hs; rewrite length_app in Hs;
    (destruct cmds; [reflexivity|simpl in Hs; lia]).
Qed.

End WidgetProperties.

(** ** Circle *)

Section CircleProperties.
Context {H : Host}.
Variable int_distance : Point.t -> Point.t -> Z.

(** X11.  The border-only hit test of a circle whose [width] is not
    positive, as for the default [width=0] of a filled circle, is false at
    every point. *)
Theorem Circle_border_test_needs_width (c : Circle.t) (point : Z * Z) :
  Circle.width c <= 0 ->
  Circle.collide_point int_distance c point true = false.
Proof.
  intros Hw. unfold Circle.collide_point. simpl.
  rewrite orb_false_r.
  destruct (Z.leb_spec (int_distance (Circle.center c) (Point._make point))
              (Circle.radius c)); [|reflexivity].
  destruct (Z.leb_spec (Circle.radius c - Circle.width c + 1)
              (int_distance (Circle.center c) (Point._make point)));
    [lia|reflexivity].
Qed.

(** X12.  A point the border-only test accepts is accepted by the plain
    test; and when the ring is wider than the radius the two tests agree at
    every point whose truncated distance from the centre is not
    negative. *)
Theorem Circle_border_within_disc (c : Circle.t) (point : Z * Z) :
  (Circle.collide_point int_distance c point true = true ->
   Circle.collide_point int_distance c point false = true) /\
  (0 <= int_distance (Circle.center c) (Point._make point) ->
   Circle.radius c < Circle.width c ->
   Circle.collide_point int_distance c point true =
   Circle.collide_point int_distance c point false).
Proof.
  unfold Circle.collide_point. simpl. rewrite !orb_false_r. split.
  - intros E. apply andb_true_iff in E. apply E.
  - intros Hd Hw.
    destruct (Z.leb_spec (Circle.radius c - Circle.width c + 1)
                (int_distance (Circle.center c) (Point._make point)));
      [|lia].
    apply andb_true_r.
Qed.

End CircleProperties.

(** ** GameScreen *)

Section ScreenProperties.
Context {H : Host}.

Lemma tick_wraps (g : GameScreen.t) :
  0 <= GameScreen.game_ticks g < 1000000000000000000000 ->
  GameScreen.tick g =
    GameScreen.set_game_ticks
      ((GameScreen.game_ticks g + 1) mod 1000000000000000000000) g.
Proof.
  intros Hg. unfold GameScreen.tick. simpl.
  destruct (Z.ltb_spec 999999999999999999999 (GameScreen.game_ticks g + 1))
    as [Hwrap|Hstay].
  - replace (GameScreen.game_ticks g + 1) with 1000000000000000000000 by lia.
    rewrite Z_mod_same_full. reflexivity.
  - rewrite Z.mod_small by lia. reflexivity.
Qed.

(** X13.  From a counter in [0, 10^21), [n] ticks leave [game_ticks] at
    [(game_ticks + n) mod 10^21], so it never leaves that range, and change
    nothing else on the screen object. *)
Theorem GameScreen_ticks_modulo (n : nat) :
  forall g : GameScreen.t,
    0 <= GameScreen.game_ticks g < 1000000000000000000000 ->
    GameScreen.ticks n g =
      GameScreen.set_game_ticks
        ((GameScreen.game_ticks g + Z.of_nat n) mod 1000000000000000000000) g.
Proof.
  induction n as [|n IH]; intros g Hg.
  - simpl. rewrite Z.add_0_r, Z.mod_small by lia. destruct g; reflexivity.
  - simpl GameScreen.ticks. rewrite (tick_wraps g Hg), IH.
    + unfold GameScreen.set_game_ticks. simpl. f_equal.
      rewrite Zplus_mod_idemp_l. f_equal. lia.
    + simpl. apply Z.mod_pos_bound. lia.
Qed.

(** X14.  Built without [window_size], or with one equal to the real size,
    on a real size without a zero component, the screen is not scaled: it
    draws on the surface it was given, its scale is (1, 1), and
    [get_scaled_mouse_pos] returns the pointer position as it is. *)
Theorem GameScreen_unscaled
    (screen : Surface) (real_window_size : Point.t)
    (window_size : option Point.t) (frame_rate : Z) (pos : Z * Z) :
  window_size = None \/ window_size = Some real_window_size ->
  Point.x real_window_size <> 0 ->
  Point.y real_window_size <> 0 ->
  exists g : GameScreen.t,
    GameScreen.__init__ screen real_window_size window_size frame_rate = Ret g /\
    GameScreen.window_scaled g = false /\
    GameScreen.screen g = screen /\
    GameScreen.real_screen g = screen /\
    GameScreen.window_size g = real_window_size /\
    GameScreen.window_scale g = Point.mk 1 1 /\
    GameScreen.get_scaled_mouse_pos g pos = Ret (Point._make pos).
Proof.
  intros Hws Hx Hy.
  assert (E : GameScreen.__init__ screen real_window_size window_size frame_rate =
              Ret (GameScreen.mk false screen screen real_window_size
                     real_window_size (Point.mk 1 1) frame_rate false
                     (get_rect screen) 0)).
  { unfold GameScreen.__init__, py_floordiv.
    destruct Hws as [-> | ->]; simpl.
    - destruct (Z.eqb_spec (Point.x real_window_size) 0); [contradiction|].
      destruct (Z.eqb_spec (Point.y real_window_size) 0); [contradiction|].
      simpl. rewrite !Z_div_same_full by assumption. reflexivity.
    - rewrite bool_decide_eq_true_2 by reflexivity. simpl.
      destruct (Z.eqb_spec (Point.x real_window_size) 0); [contradiction|].
      destruct (Z.eqb_spec (Point.y real_window_size) 0); [contradiction|].
      simpl. rewrite !Z_div_same_full by assumption. reflexivity. }
  eexists. split; [exact E|]. repeat split.
  unfold GameScreen.get_scaled_mouse_pos, py_floordiv. simpl.
  rewrite !Z.div_1_r. destruct pos; reflexivity.
Qed.

(** X15.  A scaled screen asks the toolkit for its logical surface first:
    when that raises, the constructor raises the same exception whatever
    the sizes are.  Otherwise (the screen is not scaled, or the surface was
    built) a zero component in the size the screen works at (the given
    [window_size], or the real size when none is given) makes the
    constructor raise [ZeroDivisionError]. *)
Theorem GameScreen_zero_size_raises
    (screen : Surface) (real_window_size : Point.t)
    (window_size : option Point.t) (frame_rate : Z) :
  (forall (ws : Point.t) (e : exn),
     window_size = Some ws -> ws <> real_window_size ->
     new_surface ws = Raise e ->
     GameScreen.__init__ screen real_window_size window_size frame_rate =
       Raise e) /\
  (Point.x (default real_window_size window_size) = 0 \/
   Point.y (default real_window_size window_size) = 0 ->
   (forall ws : Point.t,
      window_size = Some ws -> ws <> real_window_size ->
      exists surface : Surface, new_surface ws = Ret surface) ->
   GameScreen.__init__ screen real_window_size window_size frame_rate =
     Raise ZeroDivisionError).
Proof.
  split.
  - intros ws e -> Hne E. unfold GameScreen.__init__.
    rewrite bool_decide_eq_false_2 by exact Hne. simpl. rewrite E.
    reflexivity.
  - intros Hz Hs. unfold GameScreen.__init__, py_floordiv.
    destruct window_size as [ws|]; simpl in *.
    + destruct (bool_decide_reflect (ws = real_window_size)) as [->|Hne]; simpl.
      * destruct (Z.eqb_spec (Point.x real_window_size) 0); [reflexivity|].
        simpl. destruct (Z.eqb_spec (Point.y real_window_size) 0);
          [reflexivity|lia].
      * destruct (Hs ws eq_refl Hne) as [surface ->]. simpl.
        destruct (Z.eqb_spec (Point.x ws) 0); [reflexivity|].
        simpl. destruct (Z.eqb_spec (Point.y ws) 0); [reflexivity|lia].
    + destruct (Z.eqb_spec (Point.x real_window_size) 0); [reflexivity|].
      simpl. destruct (Z.eqb_spec (Point.y real_window_size) 0);
        [reflexivity|lia].
Qed.

(** The screen the constructor builds when both components of the size it
    works at are non-zero and the toolkit builds the logical surface it is
    asked for. *)
Lemma init_scale (screen surface : Surface) (real ws : Point.t)
    (frame_rate : Z) :
  Point.x ws <> 0 -> Point.y ws <> 0 ->
  (ws <> real -> new_surface ws = Ret surface) ->
  exists g : GameScreen.t,
    GameScreen.__init__ screen real (Some ws) frame_rate = Ret g /\
    GameScreen.window_scaled g = negb (bool_decide (ws = real)) /\
    GameScreen.window_size g = ws /\
    GameScreen.real_window_size g = real /\
    GameScreen.window_scale g =
      Point.mk (Point.x real / Point.x ws) (Point.y real / Point.y ws) /\
    GameScreen.real_screen g = screen /\
    GameScreen.screen g = if bool_decide (ws = real) then screen else surface.
Proof.
  intros Hx Hy Hs. unfold GameScreen.__init__, py_floordiv.
  destruct (bool_decide_reflect (ws = real)) as [->|Hne]; simpl.
  - destruct (Z.eqb_spec (Point.x real) 0); [contradiction|].
    destruct (Z.eqb_spec (Point.y real) 0); [contradiction|]. simpl.
    eexists. split; [reflexivity|]. repeat split.
  - rewrite (Hs Hne). simpl.
    destruct (Z.eqb_spec (Point.x ws) 0); [contradiction|].
    destruct (Z.eqb_spec (Point.y ws) 0); [contradiction|]. simpl.
    eexists. split; [reflexivity|]. repeat split.
Qed.

(** X16.  When each component of the real size is a positive multiple of
    the logical one and the toolkit builds the logical surface (asked for
    only when the two sizes differ), the constructor succeeds and
    [get_scaled_mouse_pos] sends every pointer position inside the real
    window to a position inside the logical window. *)
Theorem GameScreen_scaled_mouse_in_window
    (screen surface : Surface) (real ws : Point.t) (frame_rate : Z)
    (kx ky : Z) (pos : Z * Z) :
  0 < Point.x ws -> 0 < Point.y ws ->
  0 < kx -> 0 < ky ->
  Point.x real = kx * Point.x ws ->
  Point.y real = ky * Point.y ws ->
  (ws <> real -> new_surface ws = Ret surface) ->
  0 <= pos.1 < Point.x real ->
  0 <= pos.2 < Point.y real ->
  exists (g : GameScreen.t) (p : Point.t),
    GameScreen.__init__ screen real (Some ws) frame_rate = Ret g /\
    GameScreen.get_scaled_mouse_pos g pos = Ret p /\
    0 <= Point.x p < Point.x ws /\
    0 <= Point.y p < Point.y ws.
Proof.
  intros Hx Hy Hkx Hky Ex Ey Hs Hpx Hpy.
  destruct (init_scale screen surface real ws frame_rate)
    as (g & E & _ & _ & _ & Es & _); [lia|lia|exact Hs|].
  exists g. unfold GameScreen.get_scaled_mouse_pos, py_floordiv. rewrite Es.
  simpl. rewrite Ex, Ey, !Z.div_mul by lia.
  destruct (Z.eqb_spec kx 0); [lia|]. destruct (Z.eqb_spec ky 0); [lia|].
  simpl. eexists. split; [exact E|]. split; [reflexivity|]. simpl.
  split; split.
  - apply Z.div_pos; lia.
  - apply Z.div_lt_upper_bound; lia.
  - apply Z.div_pos; lia.
  - apply Z.div_lt_upper_bound; lia.
Qed.

(** X17.  When the real width is larger than the logical width without
    being a multiple of it and the toolkit builds the logical surface, the
    screen is scaled and draws on that surface, and the pointer on the last
    column of the real window is sent to a column at or beyond the logical
    width: the scale is the floor of the ratio. *)
Theorem GameScreen_scaled_mouse_leaves_window
    (screen surface : Surface) (real ws : Point.t) (frame_rate : Z) (y : Z) :
  0 < Point.x ws < Point.x real ->
  Point.x real mod Point.x ws <> 0 ->
  0 < Point.y ws <= Point.y real ->
  new_surface ws = Ret surface ->
  exists (g : GameScreen.t) (p : Point.t),
    GameScreen.__init__ screen real (Some ws) frame_rate = Ret g /\
    GameScreen.window_scaled g = true /\
    GameScreen.screen g = surface /\
    GameScreen.get_scaled_mouse_pos g (Point.x real - 1, y) = Ret p /\
    Point.x ws <= Point.x p.
Proof.
  intros Hx Hm Hy Hs.
  destruct (init_scale screen surface real ws frame_rate)
    as (g & E & Esc & _ & _ & Es & _ & Esf); [lia|lia|intros _; exact Hs|].
  assert (Hne : ws <> real) by (intros ->; lia).
  exists g. unfold GameScreen.get_scaled_mouse_pos, py_floordiv. rewrite Es.
  simpl.
  assert (Hsx : 0 < Point.x real / Point.x ws) by (apply Z.div_str_pos; lia).
  assert (Hsy : 0 < Point.y real / Point.y ws) by (apply Z.div_str_pos; lia).
  destruct (Z.eqb_spec (Point.x real / Point.x ws) 0); [lia|].
  destruct (Z.eqb_spec (Point.y real / Point.y ws) 0); [lia|].
  simpl. eexists. split; [exact E|]. split.
  { rewrite Esc. rewrite bool_decide_eq_false_2; [reflexivity|exact Hne]. }
  split.
  { rewrite Esf. rewrite bool_decide_eq_false_2; [reflexivity|exact Hne]. }
  split; [reflexivity|]. simpl.
  apply Z.div_le_lower_bound; [lia|].
  pose proof (Z.div_mod (Point.x real) (Point.x ws)) as D.
  pose proof (Z.mod_pos_bound (Point.x real) (Point.x ws)) as B.
  nia.
Qed.

(** X18.  When a component of the logical size exceeds that of the real
    size and the toolkit builds the logical surface, the constructor
    succeeds with a zero in the scale, and from then on
    [get_scaled_mouse_pos] raises [ZeroDivisionError] for every pointer
    position; a primary press on a menu with such a screen raises it too
    and changes nothing. *)
Theorem GameScreen_oversized_logical_window
    (screen surface : Surface) (real ws : Point.t) (frame_rate : Z) :
  Point.x ws <> 0 -> Point.y ws <> 0 ->
  0 <= Point.x real < Point.x ws \/ 0 <= Point.y real < Point.y ws ->
  new_surface ws = Ret surface ->
  exists g : GameScreen.t,
    GameScreen.__init__ screen real (Some ws) frame_rate = Ret g /\
    GameScreen.window_scaled g = true /\
    GameScreen.screen g = surface /\
    (forall pos : Z * Z,
       GameScreen.get_scaled_mouse_pos g pos = Raise ZeroDivisionError) /\
    (forall (bs : list Button.t) (i : Z) (w : World) (pos : Z * Z),
       MenuScreen.mouse_button_down 1 pos (MenuScreen.mk g bs i, w) =
         (Raise ZeroDivisionError, (MenuScreen.mk g bs i, w))).
Proof.
  intros Hx Hy Hover Hs.
  destruct (init_scale screen surface real ws frame_rate Hx Hy (fun _ => Hs))
    as (g & E & Esc & _ & _ & Es & _ & Esf).
  assert (Hne : ws <> real) by (intros ->; lia).
  assert (Hscaled : GameScreen.window_scaled g = true).
  { rewrite Esc. rewrite bool_decide_eq_false_2; [reflexivity|exact Hne]. }
  assert (Hraise : forall pos : Z * Z,
             GameScreen.get_scaled_mouse_pos g pos = Raise ZeroDivisionError).
  { intros pos. unfold GameScreen.get_scaled_mouse_pos, py_floordiv.
    rewrite Es. simpl.
    destruct Hover as [Hsmall|Hsmall].
    - rewrite (Z.div_small (Point.x real)) by exact Hsmall. reflexivity.
    - rewrite (Z.div_small (Point.y real)) by exact Hsmall. simpl.
      destruct (Point.x real / Point.x ws =? 0); reflexivity. }
  exists g. split; [exact E|]. split; [exact Hscaled|].
  split.
  { rewrite Esf. rewrite bool_decide_eq_false_2; [reflexivity|exact Hne]. }
  split; [exact Hraise|].
  intros bs i w pos. unfold MenuScreen.mouse_button_down. simpl.
  unfold bind, MenuScreen.self, lift, MenuScreen.resolve_mouse_pos. simpl.
  rewrite Hscaled, Hraise. reflexivity.
Qed.

End ScreenProperties.

(** ** MenuScreen: navigation and confirmation *)

Section MenuNavigation.
Context {H : Host}.

Lemma set_button_index_same (m : MenuScreen.t) (i j : Z) :
  MenuScreen.set_button_index i (MenuScreen.set_button_index j m) =
  MenuScreen.set_button_index i m.
Proof. reflexivity. Qed.

Lemma set_button_index_id (m : MenuScreen.t) :
  MenuScreen.set_button_index (MenuScreen.button_index m) m = m.
Proof. destruct m; reflexivity. Qed.

Lemma step_next (m : MenuScreen.t) (w : World) (key : Key) :
  key = K_DOWN \/ key = K_RIGHT ->
  MenuScreen.buttons m <> [] ->
  0 <= MenuScreen.button_index m < Z.of_nat (length (MenuScreen.buttons m)) ->
  MenuScreen.key_down key (m, w) =
    (Ret tt,
     (MenuScreen.set_button_index
        ((MenuScreen.button_index m + 1)
           mod Z.of_nat (length (MenuScreen.buttons m))) m,
      w)).
Proof.
  intros Hk Hne Hi. rewrite (key_down_next m w key Hk Hne).
  destruct (Z.leb_spec (Z.of_nat (length (MenuScreen.buttons m)))
              (MenuScreen.button_index m + 1)); [reflexivity|].
  rewrite Z.mod_small by lia. reflexivity.
Qed.

Lemma step_previous (m : MenuScreen.t) (w : World) (key : Key) :
  key = K_UP \/ key = K_LEFT ->
  0 <= MenuScreen.button_index m < Z.of_nat (length (MenuScreen.buttons m)) ->
  MenuScreen.key_down key (m, w) =
    (Ret tt,
     (MenuScreen.set_button_index
        ((MenuScreen.button_index m - 1)
           mod Z.of_nat (length (MenuScreen.buttons m))) m,
      w)).
Proof.
  intros Hk Hi. rewrite (key_down_previous m w key Hk).
  destruct (Z.ltb_spec (MenuScreen.button_index m - 1) 0).
  - do 3 f_equal.
    apply (Z.mod_unique _ _ (-1)); lia.
  - rewrite Z.mod_small by lia. reflexivity.
Qed.

(** X19.  On a menu with buttons and an index in range, a next key followed
    by a previous key, and a previous key followed by a next key, leave the
    menu exactly as it was. *)
Theorem Menu_next_previous_round_trip
    (m : MenuScreen.t) (w : World) (next previous : Key) :
  next = K_DOWN \/ next = K_RIGHT ->
  previous = K_UP \/ previous = K_LEFT ->
  MenuScreen.buttons m <> [] ->
  0 <= MenuScreen.button_index m < Z.of_nat (length (MenuScreen.buttons m)) ->
  MenuScreen.key_downs [next; previous] (m, w) = (Ret tt, (m, w)) /\
  MenuScreen.key_downs [previous; next] (m, w) = (Ret tt, (m, w)).
Proof.
  intros Hn Hp Hne Hi.
  set (n := Z.of_nat (length (MenuScreen.buttons m))) in *.
  assert (Hr1 : 0 <= (MenuScreen.button_index m + 1) mod n < n)
    by (apply Z.mod_pos_bound; lia).
  assert (Hr2 : 0 <= (MenuScreen.button_index m - 1) mod n < n)
    by (apply Z.mod_pos_bound; lia).
  split; simpl; unfold bind.
  - rewrite (step_next m w next Hn Hne Hi).
    rewrite step_previous; [|exact Hp|exact Hr1]. simpl. fold n.
    rewrite set_button_index_same, Zminus_mod_idemp_l.
    replace (MenuScreen.button_index m + 1 - 1)
      with (MenuScreen.button_index m) by lia.
    rewrite Z.mod_small by lia. rewrite set_button_index_id. reflexivity.
  - rewrite (step_previous m w previous Hp Hi).
    rewrite step_next; [|exact Hn|exact Hne|exact Hr2]. simpl. fold n.
    rewrite set_button_index_same, Zplus_mod_idemp_l.
    replace (MenuScreen.button_index m - 1 + 1)
      with (MenuScreen.button_index m) by lia.
    rewrite Z.mod_small by lia. rewrite set_button_index_id. reflexivity.
Qed.

(** X20.  On a menu with buttons and an index in range, [k] presses of a
    next key move the index to [(button_index + k) mod len(buttons)] and
    [k] presses of a previous key to [(button_index - k) mod len(buttons)];
    in particular [len(buttons)] presses in one direction return to the
    start.  Nothing else changes. *)
Theorem Menu_repeated_navigation (k : nat) :
  forall (m : MenuScreen.t) (w : World) (next previous : Key),
    next = K_DOWN \/ next = K_RIGHT ->
    previous = K_UP \/ previous = K_LEFT ->
    MenuScreen.buttons m <> [] ->
    0 <= MenuScreen.button_index m < Z.of_nat (length (MenuScreen.buttons m)) ->
    MenuScreen.key_downs (repeat next k) (m, w) =
      (Ret tt,
       (MenuScreen.set_button_index
          ((MenuScreen.button_index m + Z.of_nat k)
             mod Z.of_nat (length (MenuScreen.buttons m))) m,
        w)) /\
    MenuScreen.key_downs (repeat previous k) (m, w) =
      (Ret tt,
       (MenuScreen.set_button_index
          ((MenuScreen.button_index m - Z.of_nat k)
             mod Z.of_nat (length (MenuScreen.buttons m))) m,
        w)).
Proof.
  induction k as [|k IH]; intros m w next previous Hn Hp Hne Hi.
  - simpl. unfold ret. rewrite Z.add_0_r, Z.sub_0_r, Z.mod_small by lia.
    rewrite set_button_index_id. split; reflexivity.
  - set (n := Z.of_nat (length (MenuScreen.buttons m))) in *.
    assert (Hr1 : 0 <= (MenuScreen.button_index m + 1) mod n < n)
      by (apply Z.mod_pos_bound; lia).
    assert (Hr2 : 0 <= (MenuScreen.button_index m - 1) mod n < n)
      by (apply Z.mod_pos_bound; lia).
    split; simpl; unfold bind.
    + rewrite (step_next m w next Hn Hne Hi). fold n.
      destruct (IH (MenuScreen.set_button_index
                      ((MenuScreen.button_index m + 1) mod n) m)
                  w next previous Hn Hp Hne Hr1) as [E _].
      rewrite E. simpl. fold n.
      rewrite set_button_index_same, Zplus_mod_idemp_l.
      do 3 f_equal. f_equal. lia.
    + rewrite (step_previous m w previous Hp Hi). fold n.
      destruct (IH (MenuScreen.set_button_index
                      ((MenuScreen.button_index m - 1) mod n) m)
                  w next previous Hn Hp Hne Hr2) as [_ E].
      rewrite E. simpl. fold n.
      rewrite set_button_index_same, Zminus_mod_idemp_l.
      do 3 f_equal. f_equal. lia.
Qed.

(** X21.  A confirm key on a menu whose index is in range activates the
    button at [button_index] and nothing else: that button becomes clicked,
    its callback runs once, and [button_index] and every other button stay
    as they were. *)
Theorem Menu_confirm_activates_active_button
    (m : MenuScreen.t) (w : World) (key : Key) (b : Button.t) :
  key = K_RETURN \/ key = K_SPACE ->
  0 <= MenuScreen.button_index m ->
  MenuScreen.buttons m !! Z.to_nat (MenuScreen.button_index m) = Some b ->
  Button.callback_returns b ->
  MenuScreen.key_down key (m, w) =
    (Ret tt,
     (MenuScreen.mk (MenuScreen.base m)
        (<[Z.to_nat (MenuScreen.button_index m) := Button.set_clicked true b]>
           (MenuScreen.buttons m))
        (MenuScreen.button_index m),
      Button.world_after b w)).
Proof.
  intros Hk Hi Hb Hcb.
  assert (Hlt : 0 <= MenuScreen.button_index m
                  < Z.of_nat (length (MenuScreen.buttons m))).
  { apply lookup_lt_Some in Hb. lia. }
  rewrite (key_down_confirm m w key _ Hk (py_index_in_range _ _ Hlt)).
  rewrite (call_button_at m w _ b Hb Hcb). reflexivity.
Qed.

Lemma py_index_from_end (n : nat) (i : Z) :
  - Z.of_nat n <= i < 0 -> py_index n i = Ret (Z.to_nat (i + Z.of_nat n)).
Proof.
  intros Hi. unfold py_index. cbv zeta.
  assert (E1 : (i <? 0) = true) by lia.
  rewrite E1. cbv iota.
  assert (E2 : (i + Z.of_nat n <? 0) = false) by (apply Z.ltb_ge; lia).
  assert (E3 : (Z.of_nat n <=? i + Z.of_nat n) = false)
    by (apply Z.leb_gt; lia).
  rewrite E2, E3. reflexivity.
Qed.

(** X22.  On the menu its constructor leaves, a previous key does not
    raise: it sets [button_index] to -1.  With that index, once buttons are
    installed, the confirm key activates the last button of the list, and
    [draw_buttons] forces the highlight on no button. *)
Theorem Menu_previous_on_empty_menu
    (screen : Surface) (real_window_size : Point.t)
    (window_size : option Point.t) (frame_rate : Z) (m0 : MenuScreen.t)
    (w : World) :
  MenuScreen.__init__ screen real_window_size window_size frame_rate = Ret m0 ->
  (forall key : Key,
     key = K_UP \/ key = K_LEFT ->
     MenuScreen.key_down key (m0, w) =
       (Ret tt, (MenuScreen.set_button_index (-1) m0, w))) /\
  (forall (key : Key) (front : list Button.t) (b : Button.t),
     key = K_RETURN \/ key = K_SPACE ->
     Button.callback_returns b ->
     MenuScreen.key_down key
       (MenuScreen.mk (MenuScreen.base m0) (front ++ [b]) (-1), w) =
       (Ret tt,
        (MenuScreen.mk (MenuScreen.base m0)
           (front ++ [Button.set_clicked true b]) (-1),
         Button.world_after b w))) /\
  (forall (bs : list Button.t) (i : nat),
     MenuScreen.override_at (MenuScreen.mk (MenuScreen.base m0) bs (-1)) i =
       None).
Proof.
  intros Hinit.
  assert (Hm0 : MenuScreen.buttons m0 = [] /\ MenuScreen.button_index m0 = 0).
  { unfold MenuScreen.__init__ in Hinit.
    destruct (GameScreen.__init__ _ _ _ _) as [g|e]; simpl in Hinit;
      [|discriminate].
    injection Hinit as <-. split; reflexivity. }
  destruct Hm0 as [Hb Hi].
  split; [|split].
  - intros key Hk. rewrite (key_down_previous m0 w key Hk), Hb, Hi.
    reflexivity.
  - intros key front b Hk Hcb.
    set (m := MenuScreen.mk (MenuScreen.base m0) (front ++ [b]) (-1)).
    assert (Hidx : py_index (length (MenuScreen.buttons m))
                     (MenuScreen.button_index m) = Ret (length front)).
    { rewrite py_index_from_end; simpl; rewrite length_app; simpl; [|lia].
      f_equal. lia. }
    rewrite (key_down_confirm m w key _ Hk Hidx).
    rewrite (call_button_at m w (length front) b).
    + simpl. rewrite insert_app_r_alt by lia. rewrite Nat.sub_diag.
      reflexivity.
    + simpl. apply list_lookup_middle. reflexivity.
    + exact Hcb.
  - intros bs i. unfold MenuScreen.override_at. simpl.
    rewrite bool_decide_eq_false_2 by lia. reflexivity.
Qed.

End MenuNavigation.

(** ** MenuScreen: pressing and drawing *)

Section MenuPressing.
Context {H : Host}.

Lemma click_loop_app (mouse_pos : Point.t) (l1 l2 : list Button.t) :
  forall (i : nat) (s : MenuScreen.t * World),
    MenuScreen.click_loop mouse_pos i (l1 ++ l2) s =
      match MenuScreen.click_loop mouse_pos i l1 s with
      | (Ret _, s') => MenuScreen.click_loop mouse_pos (i + length l1) l2 s'
      | (Raise e, s') => (Raise e, s')
      end.
Proof.
  induction l1 as [|b l1 IH]; intros i s.
  - simpl. unfold ret. rewrite Nat.add_0_r. reflexivity.
  - simpl.
    remember (if collidepoint (Button.rect b) mouse_pos
              then (MenuScreen.update_self
                      (MenuScreen.set_button_index (Z.of_nat i)) ;;
                    MenuScreen.call_button i)
              else ret tt) as step eqn:Hstep.
    clear Hstep. unfold bind.
    destruct (step s) as [[[]|e] s1]; [|reflexivity].
    rewrite IH, Nat.add_succ_r. reflexivity.
Qed.

Lemma click_loop_segment (mouse_pos : Point.t) (todo : list Button.t) :
  forall (done rest : list Button.t) (m : MenuScreen.t) (w : World),
    MenuScreen.buttons m = done ++ todo ++ rest ->
    Forall Button.callback_returns todo ->
    MenuScreen.click_loop mouse_pos (length done) todo (m, w) =
      (Ret tt,
       (MenuScreen.mk (MenuScreen.base m)
          (done ++ map (MenuScreen.pressed mouse_pos) todo ++ rest)
          (match last (MenuScreen.hits_from mouse_pos (length done) todo) with
           | Some k => Z.of_nat k
           | None => MenuScreen.button_index m
           end),
        MenuScreen.world_pressed mouse_pos todo w)).
Proof.
  induction todo as [|b todo IH]; intros done rest m w Hm Hcb.
  - simpl. destruct m as [g bs i]. simpl in *. subst bs. reflexivity.
  - inversion Hcb as [|? ? Hb Htodo]; subst.
    assert (Hlen : forall x : Button.t, S (length done) = length (done ++ [x])).
    { intros x. rewrite length_app. simpl. lia. }
    simpl MenuScreen.click_loop. simpl MenuScreen.hits_from.
    unfold MenuScreen.world_pressed, MenuScreen.pressed. simpl map.
    rewrite filter_cons.
    destruct (collidepoint (Button.rect b) mouse_pos) eqn:Hit.
    + destruct (decide (true = true)) as [_|N]; [|contradiction].
      simpl fold_left. rewrite last_hits_cons.
      unfold bind at 1. unfold bind at 1.
      unfold MenuScreen.update_self at 1, modify at 1.
      rewrite (call_button_at _ w (length done) b).
      2:{ simpl. rewrite Hm. apply list_lookup_middle. reflexivity. }
      2:{ exact Hb. }
      simpl MenuScreen.buttons. rewrite Hm.
      rewrite insert_app_r_alt by lia. rewrite Nat.sub_diag. simpl insert.
      rewrite (Hlen (Button.set_clicked true b)).
      rewrite (IH _ rest);
        [|simpl; rewrite <- app_assoc; reflexivity|exact Htodo].
      simpl. rewrite <- app_assoc. reflexivity.
    + destruct (decide (false = true)) as [N|_]; [discriminate|].
      unfold bind at 1. unfold ret at 1.
      rewrite (Hlen b).
      rewrite (IH _ rest);
        [|rewrite Hm, <- app_assoc; reflexivity|exact Htodo].
      simpl. rewrite <- app_assoc. rewrite length_app. simpl.
      reflexivity.
Qed.

Lemma button_call_raises (b : Button.t) (f : M World unit) (w w' : World)
    (e : exn) :
  Button.action b = Some f ->
  f w = (Raise e, w') ->
  Button.__call__ (b, w) = (Raise e, (b, w')).
Proof.
  intros Hb Hf.
  unfold Button.__call__, Button.run_action, bind, get. simpl.
  rewrite Hb. simpl. rewrite Hf. reflexivity.
Qed.

(** X23.  When the callback of a button under the pointer raises, a primary
    press stops there: the buttons before it were handled as usual, the
    exception leaves the handler, [button_index] is the position of that
    button, which is not marked clicked, and no later button is visited,
    hit or not. *)
Theorem Menu_click_stops_at_raising_callback
    (m : MenuScreen.t) (w w' : World) (pos : Z * Z) (mouse_pos : Point.t)
    (front back : list Button.t) (b : Button.t) (f : M World unit) (e : exn) :
  MenuScreen.resolve_mouse_pos m pos = Ret mouse_pos ->
  MenuScreen.buttons m = front ++ b :: back ->
  Forall Button.callback_returns front ->
  collidepoint (Button.rect b) mouse_pos = true ->
  Button.action b = Some f ->
  f (MenuScreen.world_pressed mouse_pos front w) = (Raise e, w') ->
  MenuScreen.mouse_button_down 1 pos (m, w) =
    (Raise e,
     (MenuScreen.mk (MenuScreen.base m)
        (map (MenuScreen.pressed mouse_pos) front ++ b :: back)
        (Z.of_nat (length front)),
      w')).
Proof.
  intros Hpos Hm Hfront Hit Hb Hf.
  unfold MenuScreen.mouse_button_down. simpl.
  unfold bind, MenuScreen.self, lift. simpl. rewrite Hpos, Hm.
  rewrite click_loop_app.
  pose proof (click_loop_segment mouse_pos front [] (b :: back) m w Hm Hfront)
    as Efront.
  simpl length in Efront. simpl app in Efront. rewrite Efront. clear Efront.
  simpl MenuScreen.click_loop. rewrite Hit.
  unfold bind, MenuScreen.update_self, modify. simpl.
  unfold MenuScreen.call_button. simpl.
  rewrite list_lookup_middle by (rewrite length_map; reflexivity).
  rewrite (button_call_raises b f _ w' e Hb Hf). simpl.
  rewrite list_insert_id
    by (apply list_lookup_middle; rewrite length_map; reflexivity).
  reflexivity.
Qed.

Lemma set_clicked_same (b : Button.t) :
  Button.set_clicked (Button.clicked b) b = b.
Proof. destruct b; reflexivity. Qed.

Lemma paintable_drawable (b : Button.t) (ov : option bool) :
  Button.paintable b -> Button.drawable b ov.
Proof.
  intros Hb. rewrite <- (set_clicked_same b). apply Hb.
Qed.

Lemma paintable_set_clicked (v : bool) (b : Button.t) :
  Button.paintable b -> Button.paintable (Button.set_clicked v b).
Proof. intros Hb v' ov. exact (Hb v' ov). Qed.

Lemma paintable_menu (m : MenuScreen.t) :
  Forall Button.paintable (MenuScreen.buttons m) -> MenuScreen.drawable m.
Proof.
  intros Hall i b L. apply paintable_drawable.
  rewrite Forall_lookup in Hall. exact (Hall i b L).
Qed.

Lemma draw_button_at (m : MenuScreen.t) (screen : Canvas) (k : nat)
    (ov : option bool) (b : Button.t) :
  MenuScreen.buttons m !! k = Some b ->
  Button.drawable b ov ->
  MenuScreen.draw_button k ov (m, screen) =
    (Ret tt,
     (MenuScreen.set_buttons
        (<[k := Button.set_clicked false b]> (MenuScreen.buttons m)) m,
      screen ++ Button.draw_cmds b ov)).
Proof.
  intros L Hb. unfold MenuScreen.draw_button.
  rewrite L, (button_draw_cmds b screen ov Hb). reflexivity.
Qed.

(** A button whose fill the toolkit refuses stops [draw_button] with the
    menu and the target as they were. *)
Lemma draw_button_refused (m : MenuScreen.t) (screen : Canvas) (k : nat)
    (ov : option bool) (b : Button.t) (e : exn) :
  MenuScreen.buttons m !! k = Some b ->
  accepted (Button.fill b ov) = Raise e ->
  MenuScreen.draw_button k ov (m, screen) = (Raise e, (m, screen)).
Proof.
  intros L Hb. unfold MenuScreen.draw_button.
  rewrite L, (draw_refused b screen ov e Hb). unfold MenuScreen.set_buttons.
  rewrite list_insert_id by exact L. destruct m; reflexivity.
Qed.

Lemma draw_loop_effect (todo : list Button.t) :
  forall (done : list Button.t) (m : MenuScreen.t) (screen : Canvas),
    MenuScreen.buttons m = done ++ todo ->
    (forall (j : nat) (b : Button.t),
       todo !! j = Some b ->
       Button.drawable b (MenuScreen.override_at m (length done + j))) ->
    MenuScreen.draw_loop (length done) todo (m, screen) =
      (Ret tt,
       (MenuScreen.mk (MenuScreen.base m)
          (done ++ map (Button.set_clicked false) todo)
          (MenuScreen.button_index m),
        screen ++
        concat (imap (fun j b =>
                        Button.draw_cmds b
                          (MenuScreen.override_at m (length done + j)))
                  todo))).
Proof.
  induction todo as [|b todo IH]; intros done m screen Hm Hok.
  - simpl. unfold ret. destruct m as [g bs i].
    simpl in *. subst bs. rewrite !app_nil_r. reflexivity.
  - simpl MenuScreen.draw_loop. unfold bind at 1. unfold get at 1.
    unfold bind at 1. simpl fst.
    rewrite (draw_button_at m screen (length done) _ b).
    2: { rewrite Hm. apply list_lookup_middle. reflexivity. }
    2: { specialize (Hok 0%nat b eq_refl). rewrite Nat.add_0_r in Hok.
         exact Hok. }
    rewrite Hm, insert_app_r_alt by lia. rewrite Nat.sub_diag. simpl insert.
    replace (S (length done))
      with (length (done ++ [Button.set_clicked false b]))
      by (rewrite length_app; simpl; lia).
    rewrite IH.
    2: { simpl. rewrite <- app_assoc. reflexivity. }
    2: { intros j b' L. rewrite length_app. simpl length.
         replace (length done + 1 + j)%nat with (length done + S j)%nat by lia.
         exact (Hok (S j) b' L). }
    set (m1 := MenuScreen.set_buttons _ m).
    assert (Eimap :
      imap (fun j b0 =>
              Button.draw_cmds b0
                (MenuScreen.override_at m1
                   (length (done ++ [Button.set_clicked false b]) + j)))
        todo =
      imap ((fun j b0 =>
               Button.draw_cmds b0
                 (MenuScreen.override_at m (length done + j))) ∘ S)
        todo).
    { apply imap_ext. intros j x _. unfold compose.
      rewrite length_app. simpl length.
      replace (length done + 1 + j)%nat with (length done + S j)%nat by lia.
      reflexivity. }
    rewrite Eimap, imap_cons, concat_cons, Nat.add_0_r, <- !app_assoc.
    reflexivity.
Qed.

(** The loop of [draw_buttons] up to a button whose fill the toolkit
    refuses: the buttons before it are drawn and cleared, the exception
    leaves the loop, and the buttons from that one on are as they were. *)
Lemma draw_loop_refused (before : list Button.t) :
  forall (done behind : list Button.t) (b : Button.t) (m : MenuScreen.t)
         (screen : Canvas) (e : exn),
    MenuScreen.buttons m = done ++ before ++ b :: behind ->
    (forall (j : nat) (b' : Button.t),
       before !! j = Some b' ->
       Button.drawable b' (MenuScreen.override_at m (length done + j))) ->
    accepted
      (Button.fill b
         (MenuScreen.override_at m (length done + length before))) = Raise e ->
    MenuScreen.draw_loop (length done) (before ++ b :: behind) (m, screen) =
      (Raise e,
       (MenuScreen.mk (MenuScreen.base m)
          (done ++ map (Button.set_clicked false) before ++ b :: behind)
          (MenuScreen.button_index m),
        screen ++
        concat (imap (fun j b' =>
                        Button.draw_cmds b'
                          (MenuScreen.override_at m (length done + j)))
                  before))).
Proof.
  induction before as [|b0 before IH];
    intros done behind b m screen e Hm Hok Hbad.
  - simpl app. simpl MenuScreen.draw_loop. unfold bind at 1. unfold get at 1.
    unfold bind at 1. simpl fst.
    simpl length in Hbad. rewrite Nat.add_0_r in Hbad.
    rewrite (draw_button_refused m screen (length done) _ b e).
    2: { rewrite Hm. apply list_lookup_middle. reflexivity. }
    2: exact Hbad.
    simpl. rewrite app_nil_r. destruct m as [g bs i]. simpl in *. subst bs.
    reflexivity.
  - rewrite <- app_comm_cons in Hm. rewrite <- app_comm_cons.
    simpl MenuScreen.draw_loop. unfold bind at 1. unfold get at 1.
    unfold bind at 1. simpl fst.
    rewrite (draw_button_at m screen (length done) _ b0).
    2: { rewrite Hm. apply list_lookup_middle. reflexivity. }
    2: { specialize (Hok 0%nat b0 eq_refl). rewrite Nat.add_0_r in Hok.
         exact Hok. }
    rewrite Hm. rewrite insert_app_r_alt by lia.
    rewrite Nat.sub_diag. simpl insert.
    replace (S (length done))
      with (length (done ++ [Button.set_clicked false b0]))
      by (rewrite length_app; simpl; lia).
    rewrite (IH _ behind b _ _ e).
    2: { simpl. rewrite <- app_assoc. reflexivity. }
    2: { intros j b' L. rewrite length_app. simpl length.
         replace (length done + 1 + j)%nat with (length done + S j)%nat by lia.
         exact (Hok (S j) b' L). }
    2: { rewrite length_app. simpl length. simpl length in Hbad.
         replace (length done + 1 + length before)%nat
           with (length done + S (length before))%nat by lia.
         exact Hbad. }
    set (m1 := MenuScreen.set_buttons _ m).
    assert (Eimap :
      imap (fun j b' =>
              Button.draw_cmds b'
                (MenuScreen.override_at m1
                   (length (done ++ [Button.set_clicked false b0]) + j)))
        before =
      imap ((fun j b' =>
               Button.draw_cmds b'
                 (MenuScreen.override_at m (length done + j))) ∘ S)
        before).
    { apply imap_ext. intros j x _. unfold compose.
      rewrite length_app. simpl length.
      replace (length done + 1 + j)%nat with (length done + S j)%nat by lia.
      reflexivity. }
    rewrite Eimap, imap_cons, concat_cons, Nat.add_0_r, <- !app_assoc.
    reflexivity.
Qed.

Lemma draw_buttons_run (m : MenuScreen.t) (screen : Canvas) :
  MenuScreen.drawable m ->
  MenuScreen.draw_buttons (m, screen) =
    (Ret tt,
     (MenuScreen.mk (MenuScreen.base m)
        (map (Button.set_clicked false) (MenuScreen.buttons m))
        (MenuScreen.button_index m),
      screen ++ concat (MenuScreen.draw_requests m))).
Proof.
  intros Hm. unfold MenuScreen.draw_buttons, bind, get. simpl.
  exact (draw_loop_effect (MenuScreen.buttons m) [] m screen eq_refl Hm).
Qed.

(** X24.  When the toolkit carries out what each button asks for,
    [draw_buttons] draws every button once, in list order, each with the
    requests of its own [draw], the highlight being forced on the button at
    [button_index] and left to the button's own flag elsewhere; it leaves
    every [clicked] flag false and changes nothing else on the menu or on
    what the target already held.  When the toolkit refuses the fill of one
    button after carrying out what the buttons before it ask for,
    [draw_buttons] raises there: the buttons before are drawn and cleared,
    that button and the ones behind it are neither drawn nor cleared. *)
Theorem Menu_draw_buttons_effect (m : MenuScreen.t) (screen : Canvas) :
  ((forall (i : nat) (b : Button.t),
      MenuScreen.buttons m !! i = Some b ->
      Button.drawable b (MenuScreen.override_at m i)) ->
   MenuScreen.draw_buttons (m, screen) =
     (Ret tt,
      (MenuScreen.mk (MenuScreen.base m)
         (map (Button.set_clicked false) (MenuScreen.buttons m))
         (MenuScreen.button_index m),
       screen ++
       concat (imap (fun i b => Button.draw_cmds b (MenuScreen.override_at m i))
                 (MenuScreen.buttons m))))) /\
  (forall (before behind : list Button.t) (b : Button.t) (e : exn),
     MenuScreen.buttons m = before ++ b :: behind ->
     (forall (i : nat) (b' : Button.t),
        before !! i = Some b' ->
        Button.drawable b' (MenuScreen.override_at m i)) ->
     accepted
       (DrawRect
          (Button.fill_color b (MenuScreen.override_at m (length before)))
          (Button.rect b) (Button.rect_line_width b)
          (Button.border_radius b)) = Raise e ->
     MenuScreen.draw_buttons (m, screen) =
       (Raise e,
        (MenuScreen.mk (MenuScreen.base m)
           (map (Button.set_clicked false) before ++ b :: behind)
           (MenuScreen.button_index m),
         screen ++
         concat (imap (fun i b' =>
                         Button.draw_cmds b' (MenuScreen.override_at m i))
                   before)))).
Proof.
  split.
  - intros Hm. exact (draw_buttons_run m screen Hm).
  - intros before behind b e Hb Hok Hbad.
    unfold MenuScreen.draw_buttons, bind, get. simpl. rewrite Hb.
    exact (draw_loop_refused before [] behind b m screen e Hb Hok Hbad).
Qed.

Lemma hits_from_hit (mouse_pos : Point.t) (bs : list Button.t) :
  forall (i k : nat),
    k ∈ MenuScreen.hits_from mouse_pos i bs ->
    (i <= k)%nat /\
    exists b, bs !! (k - i)%nat = Some b /\
              collidepoint (Button.rect b) mouse_pos = true.
Proof.
  induction bs as [|b bs IH]; intros i k Hk; simpl in Hk.
  - apply elem_of_nil in Hk. contradiction.
  - destruct (collidepoint (Button.rect b) mouse_pos) eqn:Hit.
    + apply elem_of_cons in Hk. destruct Hk as [->|Hk].
      * split; [lia|]. exists b. rewrite Nat.sub_diag. split; [reflexivity|].
        exact Hit.
      * destruct (IH _ _ Hk) as (Hle & b' & L & C). split; [lia|].
        exists b'. replace (k - i)%nat with (S (k - S i)) by lia.
        split; assumption.
    + destruct (IH _ _ Hk) as (Hle & b' & L & C). split; [lia|].
      exists b'. replace (k - i)%nat with (S (k - S i)) by lia.
      split; assumption.
Qed.

Lemma paintable_pressed (mouse_pos : Point.t) (b : Button.t) :
  Button.paintable b -> Button.paintable (MenuScreen.pressed mouse_pos b).
Proof.
  intros Hb. unfold MenuScreen.pressed.
  destruct (collidepoint (Button.rect b) mouse_pos);
    [apply paintable_set_clicked|]; exact Hb.
Qed.

(** X25.  After a primary press whose last hit is the button at position
    [k] (callbacks returning, the toolkit taking the colours of the
    buttons), the next [draw_buttons] puts on the target the requests of
    every button, and what it asks for button [k] starts with the fill in
    its [clicked_color]; the button is then the active one and no longer
    marked, so the [draw_buttons] after that one asks for its fill in its
    [highlight_color]. *)
Theorem Menu_click_pulse
    (m : MenuScreen.t) (w : World) (pos : Z * Z) (mouse_pos : Point.t)
    (k : nat) (b : Button.t) (screen screen' : Canvas) :
  MenuScreen.resolve_mouse_pos m pos = Ret mouse_pos ->
  Forall Button.callback_returns (MenuScreen.buttons m) ->
  Forall Button.paintable (MenuScreen.buttons m) ->
  last (MenuScreen.hits_from mouse_pos 0 (MenuScreen.buttons m)) = Some k ->
  MenuScreen.buttons m !! k = Some b ->
  exists (m1 m2 m3 : MenuScreen.t) (w1 : World) (cmds cmds' : list draw_cmd),
    MenuScreen.mouse_button_down 1 pos (m, w) = (Ret tt, (m1, w1)) /\
    MenuScreen.draw_buttons (m1, screen) =
      (Ret tt,
       (m2,
        screen ++
        concat (imap (fun i b' =>
                        Button.draw_cmds b' (MenuScreen.override_at m1 i))
                  (MenuScreen.buttons m1)))) /\
    imap (fun i b' => Button.draw_cmds b' (MenuScreen.override_at m1 i))
      (MenuScreen.buttons m1) !! k =
      Some (DrawRect (Button.clicked_color b) (Button.rect b)
              (Button.rect_line_width b) (Button.border_radius b) :: cmds) /\
    MenuScreen.draw_buttons (m2, screen') =
      (Ret tt,
       (m3,
        screen' ++
        concat (imap (fun i b' =>
                        Button.draw_cmds b' (MenuScreen.override_at m2 i))
                  (MenuScreen.buttons m2)))) /\
    imap (fun i b' => Button.draw_cmds b' (MenuScreen.override_at m2 i))
      (MenuScreen.buttons m2) !! k =
      Some (DrawRect (Button.highlight_color b) (Button.rect b)
              (Button.rect_line_width b) (Button.border_radius b) :: cmds') /\
    Forall (fun b' => Button.clicked b' = false) (MenuScreen.buttons m3).
Proof.
  intros Hpos Hcb Hpaint Hlast Hb.
  assert (Hit : collidepoint (Button.rect b) mouse_pos = true).
  { destruct (hits_from_hit mouse_pos (MenuScreen.buttons m) 0 k)
      as (_ & b' & L & C).
    - apply last_Some in Hlast. destruct Hlast as [l' ->].
      apply elem_of_app. right. apply list_elem_of_singleton. reflexivity.
    - rewrite Nat.sub_0_r, Hb in L. injection L as <-. exact C. }
  set (m1 := MenuScreen.mk (MenuScreen.base m)
               (map (MenuScreen.pressed mouse_pos) (MenuScreen.buttons m))
               (Z.of_nat k)).
  set (m2 := MenuScreen.mk (MenuScreen.base m1)
               (map (Button.set_clicked false) (MenuScreen.buttons m1))
               (MenuScreen.button_index m1)).
  set (m3 := MenuScreen.mk (MenuScreen.base m2)
               (map (Button.set_clicked false) (MenuScreen.buttons m2))
               (MenuScreen.button_index m2)).
  assert (Hp1 : Forall Button.paintable (MenuScreen.buttons m1)).
  { apply Forall_fmap. eapply Forall_impl; [exact Hpaint|].
    intros b' Hb'. apply paintable_pressed, Hb'. }
  assert (Hp2 : Forall Button.paintable (MenuScreen.buttons m2)).
  { apply Forall_fmap. eapply Forall_impl; [exact Hp1|].
    intros b' Hb'. apply paintable_set_clicked, Hb'. }
  exists m1, m2, m3. eexists _, _, _.
  split.
  { unfold MenuScreen.mouse_button_down. simpl.
    unfold bind, MenuScreen.self, lift. simpl. rewrite Hpos.
    pose proof (click_loop_effect mouse_pos (MenuScreen.buttons m) [] m w
                  eq_refl Hcb) as E.
    simpl length in E. simpl app in E. rewrite Hlast in E. exact E. }
  split; [exact (draw_buttons_run m1 screen (paintable_menu m1 Hp1))|].
  split.
  { rewrite list_lookup_imap. unfold m1. simpl MenuScreen.buttons.
    rewrite list_lookup_fmap, Hb. simpl.
    unfold MenuScreen.pressed, MenuScreen.override_at. rewrite Hit. simpl.
    rewrite bool_decide_eq_true_2 by reflexivity.
    unfold Button.draw_cmds, Button.fill, Button.fill_color. simpl.
    reflexivity. }
  split; [exact (draw_buttons_run m2 screen' (paintable_menu m2 Hp2))|].
  split.
  { rewrite list_lookup_imap. unfold m2, m1. simpl MenuScreen.buttons.
    rewrite !list_lookup_fmap, Hb. simpl.
    unfold MenuScreen.pressed, MenuScreen.override_at. rewrite Hit. simpl.
    rewrite bool_decide_eq_true_2 by reflexivity.
    unfold Button.draw_cmds, Button.fill, Button.fill_color. simpl.
    reflexivity. }
  unfold m3. simpl. apply Forall_fmap, Forall_true. intros b'. reflexivity.
Qed.

End MenuPressing.

(** ** MenuScreen: the event loop *)

Section MenuLoop.
Context {H : Host}.

Lemma handle_events_app (l1 l2 : list MenuScreen.Event) :
  forall s : MenuScreen.t * World,
    MenuScreen.handle_events (l1 ++ l2) s =
      match MenuScreen.handle_events l1 s with
      | (MenuScreen.Continue, s') => MenuScreen.handle_events l2 s'
      | stop => stop
      end.
Proof.
  induction l1 as [|ev l1 IH]; intros s; [reflexivity|].
  simpl. destruct (MenuScreen.handle_event ev s) as [[| |e] s1];
    [apply IH|reflexivity|reflexivity].
Qed.

(** X26.  A [QUIT] event ends the process in the middle of an iteration:
    the events before it in the batch have been handled, the events after
    it never are, and nothing is drawn, presented or ticked; no later batch
    is polled. *)
Theorem Menu_quit_ends_the_loop
    (a : MenuScreen.app) (before behind : list MenuScreen.Event)
    (later : list (list MenuScreen.Event)) (m : MenuScreen.t) (w : World) :
  MenuScreen.handle_events before (MenuScreen.menu a, MenuScreen.world a) =
    (MenuScreen.Continue, (m, w)) ->
  MenuScreen.iteration (before ++ MenuScreen.QUIT :: behind) a =
    (MenuScreen.Exit,
     MenuScreen.mk_app m w (MenuScreen.canvas a) (MenuScreen.display a)) /\
  MenuScreen.iterations ((before ++ MenuScreen.QUIT :: behind) :: later) a =
    (MenuScreen.Exit,
     MenuScreen.mk_app m w (MenuScreen.canvas a) (MenuScreen.display a)).
Proof.
  intros Hbefore.
  assert (E : MenuScreen.iteration (before ++ MenuScreen.QUIT :: behind) a =
              (MenuScreen.Exit,
               MenuScreen.mk_app m w (MenuScreen.canvas a)
                 (MenuScreen.display a))).
  { unfold MenuScreen.iteration. rewrite handle_events_app, Hbefore.
    reflexivity. }
  split; [exact E|]. simpl. rewrite E. reflexivity.
Qed.




End MenuLoop.

(** ** The further properties on the example host *)

Lemma TrueEvery_reset_override_delays_witness :
  TrueEvery.nth_call 2
    (TrueEvery.reset (Some 3) (TrueEvery.after 4 (TrueEvery.__init__ 2 None true 0))) =
    Some None /\
  TrueEvery.nth_call 3
    (TrueEvery.reset (Some 3) (TrueEvery.after 4 (TrueEvery.__init__ 2 None true 0))) =
    Some (Some true).
Proof.
  destruct (TrueEvery_reset_override_delays
              (TrueEvery.after 4 (TrueEvery.__init__ 2 None true 0)) 3)
    as [Hwait Hfire].
  split; [apply Hwait; unfold first_fire; lia|exact Hfire].
Defined.

Lemma activation_with_raising_callback_witness :
  Button.__call__ (H := Demo.host) (Demo.faulty 1 (0, 0, 10, 10), []) =
    (Raise CallbackError, (Demo.faulty 1 (0, 0, 10, 10), [1%nat])).
Proof.
  apply (activation_with_raising_callback (H := Demo.host)
           (fun w : list nat => (Raise CallbackError, w ++ [1%nat]))
           [] [1%nat] CallbackError eq_refl).
  reflexivity.
Defined.

Lemma ToggleButton_parity_witness :
  ToggleButton.activations (H := Demo.host) 3
    (Demo.switch (0, 0, 10, 10) false, []) =
    (Ret tt, (Demo.switch (0, 0, 10, 10) true, [0%nat; 1%nat; 2%nat])).
Proof.
  apply (ToggleButton_parity (H := Demo.host) 3
           (Demo.switch (0, 0, 10, 10) false) []).
  intros w. reflexivity.
Defined.

Lemma Circle_border_test_needs_width_witness :
  Circle.collide_point (H := Demo.host) Demo.int_distance
    (Demo.circle (0, 0) 5 0) (3, 4) true = false.
Proof.
  apply (Circle_border_test_needs_width (H := Demo.host) Demo.int_distance
           (Demo.circle (0, 0) 5 0) (3, 4)).
  simpl. lia.
Defined.

Lemma Circle_border_within_disc_witness :
  Circle.collide_point (H := Demo.host) Demo.int_distance
    (Demo.circle (0, 0) 5 2) (3, 4) false = true /\
  Circle.collide_point (H := Demo.host) Demo.int_distance
    (Demo.circle (0, 0) 5 9) (1, 1) true =
  Circle.collide_point (H := Demo.host) Demo.int_distance
    (Demo.circle (0, 0) 5 9) (1, 1) false.
Proof.
  split.
  - apply (proj1 (Circle_border_within_disc (H := Demo.host) Demo.int_distance
                    (Demo.circle (0, 0) 5 2) (3, 4))).
    reflexivity.
  - apply (proj2 (Circle_border_within_disc (H := Demo.host) Demo.int_distance
                    (Demo.circle (0, 0) 5 9) (1, 1))).
    + vm_compute. discriminate.
    + simpl. lia.
Defined.

Lemma GameScreen_ticks_modulo_witness :
  GameScreen.game_ticks
    (GameScreen.ticks (H := Demo.host) 3
       (GameScreen.set_game_ticks 999999999999999999998 Demo.screen)) = 1.
Proof.
  rewrite (GameScreen_ticks_modulo (H := Demo.host) 3
             (GameScreen.set_game_ticks 999999999999999999998 Demo.screen)).
  - reflexivity.
  - simpl. lia.
Defined.

Lemma GameScreen_unscaled_witness :
  exists g : GameScreen.t (H := Demo.host),
    GameScreen.__init__ (H := Demo.host) "display" (Point.mk 100 100) None 30 = Ret g /\
    GameScreen.get_scaled_mouse_pos g (37, 59) = Ret (Point.mk 37 59).
Proof.
  destruct (GameScreen_unscaled (H := Demo.host) "display" (Point.mk 100 100)
              None 30 (37, 59))
    as (g & E & _ & _ & _ & _ & _ & P).
  - left. reflexivity.
  - discriminate.
  - discriminate.
  - exists g. split; assumption.
Defined.

Lemma GameScreen_zero_size_raises_witness :
  new_surface (Host := Demo.host) (Point.mk 0 50) = Ret "surface" /\
  GameScreen.__init__ (H := Demo.host) "display" (Point.mk 100 100)
    (Some (Point.mk 0 50)) 30 = Raise ZeroDivisionError /\
  new_surface (Host := Demo.host) (Point.mk 0 (-50)) = Raise PygameError /\
  GameScreen.__init__ (H := Demo.host) "display" (Point.mk 100 100)
    (Some (Point.mk 0 (-50))) 30 = Raise PygameError.
Proof.
  split; [reflexivity|]. split.
  - apply (proj2 (GameScreen_zero_size_raises (H := Demo.host) "display"
                    (Point.mk 100 100) (Some (Point.mk 0 50)) 30)).
    + left. reflexivity.
    + intros ws [= <-] _. exists "surface". reflexivity.
  - split; [reflexivity|].
    apply (proj1 (GameScreen_zero_size_raises (H := Demo.host) "display"
                    (Point.mk 100 100) (Some (Point.mk 0 (-50))) 30)
             (Point.mk 0 (-50)) PygameError eq_refl).
    + discriminate.
    + reflexivity.
Defined.

Lemma GameScreen_scaled_mouse_in_window_witness :
  exists (g : GameScreen.t (H := Demo.host)) (p : Point.t),
    GameScreen.__init__ (H := Demo.host) "display" (Point.mk 100 100) (Some (Point.mk 25 50)) 30 =
      Ret g /\
    GameScreen.get_scaled_mouse_pos g (99, 99) = Ret p /\
    0 <= Point.x p < 25 /\ 0 <= Point.y p < 50.
Proof.
  apply (GameScreen_scaled_mouse_in_window (H := Demo.host) "display"
           "surface" (Point.mk 100 100) (Point.mk 25 50) 30 4 2 (99, 99));
    simpl; try lia.
  intros _. reflexivity.
Defined.

Lemma GameScreen_scaled_mouse_leaves_window_witness :
  exists (g : GameScreen.t (H := Demo.host)) (p : Point.t),
    GameScreen.__init__ (H := Demo.host) "display" (Point.mk 100 100) (Some (Point.mk 30 50)) 30 =
      Ret g /\
    GameScreen.window_scaled g = true /\
    GameScreen.screen g = "surface" /\
    GameScreen.get_scaled_mouse_pos g (100 - 1, 0) = Ret p /\
    30 <= Point.x p.
Proof.
  apply (GameScreen_scaled_mouse_leaves_window (H := Demo.host) "display"
           "surface" (Point.mk 100 100) (Point.mk 30 50) 30 0); simpl; try lia.
  - vm_compute. discriminate.
  - reflexivity.
Defined.

Lemma GameScreen_oversized_logical_window_witness :
  exists g : GameScreen.t (H := Demo.host),
    GameScreen.__init__ (H := Demo.host) "display" (Point.mk 100 100) (Some (Point.mk 200 200)) 30 =
      Ret g /\
    GameScreen.screen g = "surface" /\
    GameScreen.get_scaled_mouse_pos g (10, 10) = Raise ZeroDivisionError.
Proof.
  destruct (GameScreen_oversized_logical_window (H := Demo.host) "display"
              "surface" (Point.mk 100 100) (Point.mk 200 200) 30)
    as (g & E & _ & S & R & _).
  - discriminate.
  - discriminate.
  - left. simpl. lia.
  - reflexivity.
  - exists g. split; [exact E|]. split; [exact S|apply R].
Defined.

Lemma Menu_next_previous_round_trip_witness :
  MenuScreen.key_downs (H := Demo.host) [K_DOWN; K_UP]
    (Demo.menu Demo.column 2, []) = (Ret tt, (Demo.menu Demo.column 2, [])).
Proof.
  apply (Menu_next_previous_round_trip (H := Demo.host)
           (Demo.menu Demo.column 2) [] K_DOWN K_UP).
  - left. reflexivity.
  - left. reflexivity.
  - discriminate.
  - simpl. lia.
Defined.

Lemma Menu_repeated_navigation_witness :
  MenuScreen.key_downs (H := Demo.host) (repeat K_RIGHT 4)
    (Demo.menu Demo.column 1, []) = (Ret tt, (Demo.menu Demo.column 2, [])).
Proof.
  apply (Menu_repeated_navigation (H := Demo.host) 4
           (Demo.menu Demo.column 1) [] K_RIGHT K_LEFT).
  - right. reflexivity.
  - right. reflexivity.
  - discriminate.
  - simpl. lia.
Defined.

Lemma Menu_confirm_activates_active_button_witness :
  MenuScreen.key_down (H := Demo.host) K_SPACE (Demo.menu Demo.column 1, []) =
    (Ret tt,
     (Demo.menu
        [Demo.button 0 (0, 0, 10, 10);
         Button.set_clicked true (Demo.button 1 (0, 20, 10, 10));
         Demo.button 2 (0, 40, 10, 10)] 1,
      [1%nat])).
Proof.
  apply (Menu_confirm_activates_active_button (H := Demo.host)
           (Demo.menu Demo.column 1) [] K_SPACE
           (Demo.button 1 (0, 20, 10, 10))).
  - right. reflexivity.
  - simpl. lia.
  - reflexivity.
  - apply demo_callbacks_return.
Defined.

Lemma Menu_previous_on_empty_menu_witness :
  MenuScreen.key_down (H := Demo.host) K_UP (Demo.menu [] 0, []) =
    (Ret tt, (Demo.menu [] (-1), [])) /\
  MenuScreen.key_down (H := Demo.host) K_RETURN
    (Demo.menu ([Demo.button 0 (0, 0, 10, 10); Demo.button 1 (0, 20, 10, 10)]
                ++ [Demo.button 2 (0, 40, 10, 10)]) (-1), []) =
    (Ret tt,
     (Demo.menu
        ([Demo.button 0 (0, 0, 10, 10); Demo.button 1 (0, 20, 10, 10)]
         ++ [Button.set_clicked true (Demo.button 2 (0, 40, 10, 10))]) (-1),
      [2%nat])).
Proof.
  destruct (Menu_previous_on_empty_menu (H := Demo.host)
              "display" (Point.mk 100 100) None 30 (Demo.menu [] 0) []
              eq_refl) as (Hprev & Hconfirm & _).
  split.
  - apply Hprev. left. reflexivity.
  - apply (Hconfirm K_RETURN
             [Demo.button 0 (0, 0, 10, 10); Demo.button 1 (0, 20, 10, 10)]
             (Demo.button 2 (0, 40, 10, 10))).
    + left. reflexivity.
    + apply demo_callbacks_return.
Defined.

Lemma Menu_click_stops_at_raising_callback_witness :
  MenuScreen.mouse_button_down (H := Demo.host) 1 (7, 7)
    (Demo.menu
       ([Demo.button 0 (0, 0, 10, 10)]
        ++ Demo.faulty 1 (5, 5, 10, 10) :: [Demo.button 2 (0, 0, 10, 10)]) 0,
     []) =
    (Raise CallbackError,
     (Demo.menu
        [Button.set_clicked true (Demo.button 0 (0, 0, 10, 10));
         Demo.faulty 1 (5, 5, 10, 10);
         Demo.button 2 (0, 0, 10, 10)] 1,
      [0%nat; 1%nat])).
Proof.
  apply (Menu_click_stops_at_raising_callback (H := Demo.host)
           (Demo.menu
              ([Demo.button 0 (0, 0, 10, 10)]
               ++ Demo.faulty 1 (5, 5, 10, 10)
                  :: [Demo.button 2 (0, 0, 10, 10)]) 0)
           [] [0%nat; 1%nat] (7, 7) (Point.mk 7 7)
           [Demo.button 0 (0, 0, 10, 10)] [Demo.button 2 (0, 0, 10, 10)]
           (Demo.faulty 1 (5, 5, 10, 10))
           (fun w : list nat => (Raise CallbackError, w ++ [1%nat]))
           CallbackError).
  - reflexivity.
  - reflexivity.
  - repeat constructor; apply demo_callbacks_return.
  - reflexivity.
  - reflexivity.
  - reflexivity.
Defined.

Lemma Menu_draw_buttons_effect_witness :
  MenuScreen.draw_buttons (H := Demo.host)
    (Demo.menu
       [Button.set_clicked true (Demo.button 0 (0, 0, 10, 10));
        Button.set_clicked true (Demo.garish 1 (0, 20, 10, 10));
        Button.set_clicked true (Demo.button 2 (0, 40, 10, 10))] 0, []) =
    (Raise ValueError,
     (Demo.menu
        [Demo.button 0 (0, 0, 10, 10);
         Button.set_clicked true (Demo.garish 1 (0, 20, 10, 10));
         Button.set_clicked true (Demo.button 2 (0, 40, 10, 10))] 0,
      [DrawRect (H := Demo.host) (100, 100, 100) (0, 0, 10, 10) 0 0;
       Blit (H := Demo.host) "button" tt (0, 0, 0)
         (inject_Z 5 - inject_Z 48 / 2, inject_Z 5 - inject_Z 16 / 2)%Q])).
Proof.
  apply (proj2 (Menu_draw_buttons_effect (H := Demo.host)
                  (Demo.menu
                     [Button.set_clicked true (Demo.button 0 (0, 0, 10, 10));
                      Button.set_clicked true (Demo.garish 1 (0, 20, 10, 10));
                      Button.set_clicked true (Demo.button 2 (0, 40, 10, 10))]
                     0) [])
           [Button.set_clicked true (Demo.button 0 (0, 0, 10, 10))]
           [Button.set_clicked true (Demo.button 2 (0, 40, 10, 10))]
           (Button.set_clicked true (Demo.garish 1 (0, 20, 10, 10)))
           ValueError eq_refl).
  - intros [|i] b' L; [|discriminate L]. injection L as <-.
    split; [eexists; reflexivity|repeat constructor].
  - reflexivity.
Defined.

Lemma Menu_click_pulse_witness :
  exists (m1 m2 m3 : MenuScreen.t (H := Demo.host)) (w1 : list nat)
         (cmds cmds' : list (draw_cmd (H := Demo.host))),
    MenuScreen.mouse_button_down 1 (7, 7) (Demo.menu Demo.overlapping 0, []) =
      (Ret tt, (m1, w1)) /\
    MenuScreen.draw_buttons (m1, []) =
      (Ret tt,
       (m2,
        concat (imap (fun i b' =>
                        Button.draw_cmds b' (MenuScreen.override_at m1 i))
                  (MenuScreen.buttons m1)))) /\
    imap (fun i b' => Button.draw_cmds b' (MenuScreen.override_at m1 i))
      (MenuScreen.buttons m1) !! 1%nat =
      Some (DrawRect (H := Demo.host) (100, 100, 100) (5, 5, 10, 10) 0 0
            :: cmds) /\
    MenuScreen.draw_buttons (m2, []) =
      (Ret tt,
       (m3,
        concat (imap (fun i b' =>
                        Button.draw_cmds b' (MenuScreen.override_at m2 i))
                  (MenuScreen.buttons m2)))) /\
    imap (fun i b' => Button.draw_cmds b' (MenuScreen.override_at m2 i))
      (MenuScreen.buttons m2) !! 1%nat =
      Some (DrawRect (H := Demo.host) (150, 150, 150) (5, 5, 10, 10) 0 0
            :: cmds') /\
    Forall (fun b' => Button.clicked b' = false) (MenuScreen.buttons m3).
Proof.
  apply (Menu_click_pulse (H := Demo.host) (Demo.menu Demo.overlapping 0) []
           (7, 7) (Point.mk 7 7) 1 (Demo.button 1 (5, 5, 10, 10)) [] []).
  - reflexivity.
  - repeat constructor; apply demo_callbacks_return.
  - repeat (apply Forall_cons_2; [apply demo_paintable|]). apply Forall_nil_2.
  - reflexivity.
  - reflexivity.
Defined.

Lemma Menu_quit_ends_the_loop_witness :
  MenuScreen.iterations (H := Demo.host)
    (([MenuScreen.KEYDOWN K_DOWN]
      ++ MenuScreen.QUIT :: [MenuScreen.KEYDOWN K_RETURN])
     :: [[MenuScreen.KEYDOWN K_RETURN]])
    (MenuScreen.mk_app (Demo.menu Demo.column 0) [] [] []) =
    (MenuScreen.Exit,
     MenuScreen.mk_app (Demo.menu Demo.column 1) [] [] []).
Proof.
  apply (Menu_quit_ends_the_loop (H := Demo.host)
           (MenuScreen.mk_app (Demo.menu Demo.column 0) [] [] [])
           [MenuScreen.KEYDOWN K_DOWN] [MenuScreen.KEYDOWN K_RETURN]
           [[MenuScreen.KEYDOWN K_RETURN]] (Demo.menu Demo.column 1) []).
  reflexivity.
Defined.


Section AnimationPasses.
Context {H : Host}.

Lemma update_counts_down (gp : string) (fd : list Z) (rp : option Z)
    (fs : list (Surface * Z)) (i n : Z) :
  n <> 1 ->
  Animation.update (Animation.playing gp fd rp fs i n) =
    (Ret tt, Animation.playing gp fd rp fs i (n - 1)).
Proof.
  intros Hn. unfold Animation.update, Animation.playing. run_method.
  destruct (Z.eqb_spec (n - 1) 0); [lia|]. reflexivity.
Qed.

Lemma updates_count_down (k : nat) :
  forall (gp : string) (fd : list Z) (rp : option Z)
         (fs : list (Surface * Z)) (i n : Z),
    n <= 0 \/ Z.of_nat k < n ->
    Animation.updates k (Animation.playing gp fd rp fs i n) =
      (Ret tt, Animation.playing gp fd rp fs i (n - Z.of_nat k)).
Proof.
  induction k as [|k IH]; intros gp fd rp fs i n Hn.
  - simpl. unfold ret. rewrite Z.sub_0_r. reflexivity.
  - simpl Animation.updates. unfold bind.
    rewrite update_counts_down by lia.
    rewrite IH by lia. do 2 f_equal. lia.
Qed.

(** X28.  An unfinished animation whose countdown is not positive, as after
    construction or [reset] on a first frame with a non-positive duration,
    is frozen: every update only lowers the countdown, and the frame shown,
    the repetition count and [finished] never change. *)
Theorem Animation_nonpositive_countdown_freezes
    (gp : string) (fd : list Z) (rp : option Z) (fs : list (Surface * Z))
    (i n : Z) (k : nat) :
  n <= 0 ->
  Animation.updates k
    (Animation.mk gp fd rp false (Some fs) (Some (Z.of_nat (length fs)))
       (Some i) (Some n)) =
    (Ret tt,
     Animation.mk gp fd rp false (Some fs) (Some (Z.of_nat (length fs)))
       (Some i) (Some (n - Z.of_nat k))).
Proof.
  intros Hn. apply (updates_count_down k gp fd rp fs i n). left. exact Hn.
Qed.

(** The update that ends frame [i]. *)
Lemma update_advances (gp : string) (fd : list Z) (rp : option Z)
    (fs : list (Surface * Z)) (i : Z) (fr : Surface * Z) :
  0 <= i < Z.of_nat (length fs) ->
  fs !! Z.to_nat ((i + 1) mod Z.of_nat (length fs)) = Some fr ->
  Animation.update (Animation.playing gp fd rp fs i 1) =
    (Ret tt,
     if (i + 1) mod Z.of_nat (length fs) =? 0
     then Animation.mk gp fd (Animation.after_wrap rp).1
            (Animation.after_wrap rp).2 (Some fs)
            (Some (Z.of_nat (length fs))) (Some 0) (Some fr.2)
     else Animation.playing gp fd rp fs ((i + 1) mod Z.of_nat (length fs)) fr.2).
Proof.
  intros Hi Hfr. unfold Animation.update, Animation.playing. run_method.
  unfold py_mod.
  destruct (Z.eqb_spec (Z.of_nat (length fs)) 0); [lia|]. simpl.
  assert (Hj : 0 <= (i + 1) mod Z.of_nat (length fs) < Z.of_nat (length fs))
    by (apply Z.mod_pos_bound; lia).
  destruct (py_getitem_in_range fs _ Hj) as (fr' & L & G).
  rewrite Hfr in L. injection L as <-. rewrite G. simpl.
  destruct (Z.eqb_spec ((i + 1) mod Z.of_nat (length fs)) 0) as [E0|N0]; simpl.
  - rewrite E0. destruct rp as [r|]; simpl; [|reflexivity].
    case_bool_decide as Hr.
    + injection Hr as Hr. rewrite bool_decide_eq_true_2 by exact Hr.
      reflexivity.
    + rewrite bool_decide_eq_false_2; [reflexivity|]. congruence.
  - reflexivity.
Qed.

(** Showing frame [i] for its whole positive duration [d], then moving
    on. *)
Lemma updates_frame (gp : string) (fd : list Z) (rp : option Z)
    (fs : list (Surface * Z)) (i d : Z) (fr : Surface * Z) :
  0 < d ->
  0 <= i < Z.of_nat (length fs) ->
  fs !! Z.to_nat ((i + 1) mod Z.of_nat (length fs)) = Some fr ->
  Animation.updates (Z.to_nat d) (Animation.playing gp fd rp fs i d) =
    Animation.update (Animation.playing gp fd rp fs i 1).
Proof.
  intros Hd Hi Hfr.
  replace (Z.to_nat d) with (Z.to_nat (d - 1) + 1)%nat by lia.
  rewrite (updates_add _ 1 _ (Animation.playing gp fd rp fs i 1)).
  - simpl. unfold bind.
    destruct (Animation.update (Animation.playing gp fd rp fs i 1)) as [[[]|e] a'];
      reflexivity.
  - rewrite updates_count_down by lia. do 2 f_equal. lia.
Qed.

Lemma updates_to_the_wrap (gp : string) (fd : list Z) (rp : option Z)
    (fs : list (Surface * Z)) (first : Surface * Z) (k : nat) :
  fs !! 0%nat = Some first ->
  Forall (fun fr => 0 < fr.2) fs ->
  forall (i : nat) (fr : Surface * Z),
    (i + S k = length fs)%nat ->
    fs !! i = Some fr ->
    Animation.updates (Animation.loop_length (drop i fs))
      (Animation.playing gp fd rp fs (Z.of_nat i) fr.2) =
      (Ret tt,
       Animation.mk gp fd (Animation.after_wrap rp).1
         (Animation.after_wrap rp).2 (Some fs)
         (Some (Z.of_nat (length fs))) (Some 0) (Some first.2)).
Proof.
  intros Hfirst Hpos.
  induction k as [|k IH]; intros i fr Hlen Hfr.
  - rewrite (drop_S fs fr i Hfr). rewrite drop_ge by lia.
    unfold Animation.loop_length. simpl. rewrite Nat.add_0_r.
    assert (Hd : 0 < fr.2).
    { rewrite Forall_lookup in Hpos. exact (Hpos _ _ Hfr). }
    assert (Hnext : (Z.of_nat i + 1) mod Z.of_nat (length fs) = 0).
    { replace (Z.of_nat i + 1) with (Z.of_nat (length fs)) by lia.
      apply Z_mod_same_full. }
    rewrite (updates_frame gp fd rp fs (Z.of_nat i) fr.2 first);
      [|exact Hd|lia|rewrite Hnext; exact Hfirst].
    rewrite (update_advances gp fd rp fs (Z.of_nat i) first);
      [|lia|rewrite Hnext; exact Hfirst].
    rewrite Hnext. reflexivity.
  - destruct (lookup_lt_is_Some_2 fs (S i)) as [fr' Hfr']; [lia|].
    rewrite (drop_S fs fr i Hfr).
    unfold Animation.loop_length. simpl.
    assert (Hd : 0 < fr.2).
    { rewrite Forall_lookup in Hpos. exact (Hpos _ _ Hfr). }
    assert (Hnext : (Z.of_nat i + 1) mod Z.of_nat (length fs) = Z.of_nat (S i)).
    { rewrite Z.mod_small by lia. lia. }
    assert (Hstep : Animation.updates (Z.to_nat fr.2)
                      (Animation.playing gp fd rp fs (Z.of_nat i) fr.2) =
                    (Ret tt, Animation.playing gp fd rp fs (Z.of_nat (S i)) fr'.2)).
    { rewrite (updates_frame gp fd rp fs (Z.of_nat i) fr.2 fr');
        [|exact Hd|lia|rewrite Hnext, Nat2Z.id; exact Hfr'].
      rewrite (update_advances gp fd rp fs (Z.of_nat i) fr');
        [|lia|rewrite Hnext, Nat2Z.id; exact Hfr'].
      rewrite Hnext.
      destruct (Z.eqb_spec (Z.of_nat (S i)) 0); [lia|]. reflexivity. }
    rewrite (updates_add _ _ _ _ Hstep).
    apply (IH (S i) fr'); [lia|exact Hfr'].
Qed.

(** X29.  With positive durations, an unfinished animation at the start of
    frame 0 (as construction and [reset] leave it) is back at the start of
    frame 0 after exactly the sum of the durations many updates.  Without a
    repetition count it is then in the very same state; with a count [r],
    the count is [r - 1], and [finished] is set exactly when that is 0. *)
Theorem Animation_one_pass
    (gp : string) (fd : list Z) (rp : option Z)
    (first : Surface * Z) (rest : list (Surface * Z)) :
  Forall (fun fr => 0 < fr.2) (first :: rest) ->
  Animation.updates (Animation.loop_length (first :: rest))
    (Animation.mk gp fd rp false (Some (first :: rest))
       (Some (Z.of_nat (length (first :: rest)))) (Some 0) (Some first.2)) =
    (Ret tt,
     Animation.mk gp fd (Animation.after_wrap rp).1 (Animation.after_wrap rp).2
       (Some (first :: rest))
       (Some (Z.of_nat (length (first :: rest)))) (Some 0) (Some first.2)).
Proof.
  intros Hpos.
  exact (updates_to_the_wrap gp fd rp (first :: rest) first (length rest)
           eq_refl Hpos 0%nat first eq_refl eq_refl).
Qed.

End AnimationPasses.

Lemma Animation_nonpositive_countdown_freezes_witness :
  Animation.updates (H := Demo.host) 10 (Demo.stuck 0) =
    (Ret tt, Demo.stuck (-10)).
Proof.
  apply (Animation_nonpositive_countdown_freezes (H := Demo.host)
           "frames/*" [0; 3; 4] None
           [("frames/0.png", 0); ("frames/1.png", 3); ("frames/2.png", 4)]
           0 0 10).
  lia.
Defined.

Lemma Animation_one_pass_witness :
  Animation.updates (H := Demo.host) 9 Demo.animation = (Ret tt, Demo.animation).
Proof.
  apply (Animation_one_pass (H := Demo.host) "frames/*" [2; 3; 4] None
           ("frames/0.png", 2) [("frames/1.png", 3); ("frames/2.png", 4)]).
  repeat constructor.
Defined.

Section AnimationRewind.
Context {H : Host}.

(** X30.  [reset] does not revive a finished animation: it rewinds to frame
    0 with its full duration, and every update after it leaves that state
    untouched, [finished] included. *)
Theorem Animation_reset_does_not_revive
    (a : Animation.t) (img : Surface) (d : Z) (rest : list (Surface * Z))
    (k : nat) :
  Animation.finished a = true ->
  Animation.frames a = Some ((img, d) :: rest) ->
  (Animation.reset ;; Animation.updates k) a =
    (Ret tt,
     Animation.mk (Animation.glob_path a) (Animation.frame_data a)
       (Animation.repititions a) true
       (Animation.frames a) (Animation.frame_count a)
       (Some 0) (Some d)).
Proof.
  intros Hfin Hf. unfold bind.
  assert (Er : Animation.reset a =
               (Ret tt,
                Animation.mk (Animation.glob_path a) (Animation.frame_data a)
                  (Animation.repititions a) true
                  (Animation.frames a) (Animation.frame_count a)
                  (Some 0) (Some d))).
  { unfold Animation.reset. run_method. rewrite Hf.
    destruct (py_getitem_in_range ((img, d) :: rest) 0) as (fr & L & G).
    { simpl length. lia. }
    simpl in L. injection L as <-. rewrite G.
    unfold Animation.set_frames_until_next, Animation.set_frame_index. simpl.
    rewrite Hf, Hfin. reflexivity. }
  rewrite Er. apply updates_finished. reflexivity.
Qed.

End AnimationRewind.

Lemma Animation_reset_does_not_revive_witness :
  (Animation.reset ;; Animation.updates 5) (Demo.spent 2 1) =
    (Ret tt, Demo.spent 0 2).
Proof.
  exact (Animation_reset_does_not_revive (H := Demo.host) (Demo.spent 2 1)
           "frames/0.png" 2 [("frames/1.png", 3); ("frames/2.png", 4)] 5
           eq_refl eq_refl).
Defined.
